(** * Registry, experiment store, performance tracker and optimization
    pipeline of the DSPy integration service

    A shallow embedding of

    - [storage/model_registry.py]       ([ModelRegistry]),
    - [benchmarking/ab_testing.py]      ([ABTestingFramework]),
    - [benchmarking/performance_tracker.py] ([PerformanceTracker]),
    - [optimization/pipeline.py]        ([OptimizationPipeline]).

    SQLite tables are lists of rows in insertion (rowid) order, the model
    directory is a finite map from paths to file contents, Python [float] is
    IEEE-754 binary64 (the kernel's primitive floats), Python [int] is [Z],
    and a raised exception is the [Raise] branch of [Result].  Everything a
    method reads from its environment (the clock, [uuid.uuid4], the external
    optimizer, whether a file can be opened and a module pickled) is an
    explicit argument. *)

From Stdlib Require Import List String Ascii ZArith Bool Lia Floats.
From Stdlib Require Import Permutation Sorted DecimalString.
From Stdlib Require Uint63.
Import ListNotations.

Set Warnings "-inexact-float".
Local Open Scope string_scope.

(** ** Python values shared by the four services *)

(** The exceptions the modelled methods can raise. *)
Inductive Exn : Type :=
| ValueError (msg : string)
| FileNotFoundError (path : string)
| IntegrityError
| OverflowError
| ExternalError (msg : string).

(** Outcome of a call: a returned value or a raised exception. *)
Inductive Result (A : Type) : Type :=
| Return (a : A)
| Raise (e : Exn).
Arguments Return {A} a.
Arguments Raise {A} e.

Definition bind {A B : Type} (r : Result A) (k : A -> Result B) : Result B :=
  match r with
  | Return a => k a
  | Raise e => Raise e
  end.

Notation "x <- r ;; k" := (bind r (fun x => k))
  (at level 61, r at next level, right associativity).

(** A metrics dictionary [Dict[str, float]]; the first binding of a key is
    the one [get] sees. *)
Definition Metrics : Type := list (string * float).

(** [metrics.get(key, default)] *)
Fixpoint dict_get (m : Metrics) (key : string) (default : float) : float :=
  match m with
  | [] => default
  | (k, v) :: rest => if k =? key then v else dict_get rest key default
  end.

(** ** Python float arithmetic *)
Module PyFloat.
Local Open Scope float_scope.

(** [float(n)] for a list length. *)
Definition of_len (n : nat) : float := PrimFloat.of_uint63 (Uint63.of_nat n).

(** [sum(xs)] as CPython up to 3.11 computes it: the accumulator starts at
    the integer [0] and the items are added from left to right, each
    addition rounded.  (CPython 3.12 and later carry a compensation term
    along; the two sums agree wherever the plain one is exact, as on the
    score lists evaluated in this file.) *)
Definition sum (xs : list float) : float := fold_left PrimFloat.add xs 0.

(** [sum(xs) / len(xs)] *)
Definition mean (xs : list float) : float := sum xs / of_len (List.length xs).

Definition is_finite (x : float) : bool :=
  negb (PrimFloat.is_nan x) && negb (PrimFloat.is_infinity x).

(** [x ** 2].  CPython hands the power to the C library's [pow] and raises
    [OverflowError] when a finite base gives an infinite result.  The value
    is taken correctly rounded, as the product is; a library [pow] may miss
    that by one unit in the last place.  On a zero both give zero. *)
Definition pow2 (x : float) : Result float :=
  let r := x * x in
  if is_finite x && PrimFloat.is_infinity r then Raise OverflowError
  else Return r.

(** [x ** 0.5] on the non-negative values it is applied to, again through
    the C library's [pow] and taken correctly rounded, as the square root
    is; a library [pow] may miss that by one unit in the last place.  On
    zero both give zero. *)
Definition pow_half (x : float) : float := PrimFloat.sqrt x.

(** [sum((x - m) ** 2 for x in xs)]: the generator is consumed from left to
    right, so the first overflowing square aborts the sum. *)
Fixpoint sum_sq_dev_from (acc : float) (m : float) (xs : list float)
  : Result float :=
  match xs with
  | [] => Return acc
  | x :: rest =>
      sq <- pow2 (x - m) ;;
      sum_sq_dev_from (acc + sq) m rest
  end.

Definition sum_sq_dev (m : float) (xs : list float) : Result float :=
  sum_sq_dev_from 0 m xs.

End PyFloat.

(** ** storage/model_registry.py *)
Module Registry.

(** A value of [optimization_params: Dict[str, Any]]. *)
Inductive PyVal : Type :=
| PInt (z : Z)
| PFloat (f : float).

Definition Params : Type := list (string * PyVal).

Section WithPickle.

(** The stored DSPy module, the bytes [pickle] writes for it, and the path
    operations of [pathlib]. *)
Variable Obj : Type.
Variable Blob : Type.
Variable pickle_dump : Obj -> Blob.
Variable pickle_load : Blob -> Obj.
Variable path_join : string -> string -> string.

(** The host.  [open_error path] is the exception [open(path, "wb")]
    raises, [None] when the file is opened (created or truncated):
    [FileNotFoundError] when the directory the path lies in does not exist,
    as for a module type that contains a slash.  [pickle_error module] is
    the exception [pickle.dump] raises on a module it cannot serialise,
    [None] when it can; [pickle_dump module] is what [pickle.dump] has
    written to the file when it returns or raises. *)
Variable open_error : string -> option Exn.
Variable pickle_error : Obj -> option Exn.

(** A row of table [models]. *)
Record ModelRow : Type := mkModelRow {
  id : string;
  module_type : string;
  version : Z;
  created_at : string;
  file_path : string;
  metrics : option Metrics;
  training_examples_count : option Z;
  optimization_params : option Params;
  is_active : bool;
  notes : option string
}.

(** The registry: its model directory, the rows of [models] and the files
    on disk (the most recent write of a path comes first). *)
Record ModelRegistry : Type := mkRegistry {
  models_dir : string;
  models : list ModelRow;
  files : list (string * Blob)
}.

Definition init (dir : string) : ModelRegistry :=
  {| models_dir := dir; models := []; files := [] |}.

Fixpoint read_file (fs : list (string * Blob)) (path : string) : option Blob :=
  match fs with
  | [] => None
  | (p, b) :: rest => if p =? path then Some b else read_file rest path
  end.

Definition write_file (fs : list (string * Blob)) (path : string) (b : Blob)
  : list (string * Blob) := (path, b) :: fs.

(** [SELECT MAX(version) FROM models WHERE module_type = ?] *)
Definition max_version (rows : list ModelRow) (mt : string) : option Z :=
  fold_left
    (fun acc r =>
       if module_type r =? mt then
         Some (match acc with
               | None => version r
               | Some m => Z.max m (version r)
               end)
       else acc)
    rows None.

Definition _get_next_version (st : ModelRegistry) (mt : string) : Z :=
  let max_version :=
    match max_version (models st) mt with
    | Some m => m
    | None => 0%Z
    end in
  (max_version + 1)%Z.

(** [s.replace(":", "-")] *)
Fixpoint replace_colon (s : string) : string :=
  match s with
  | EmptyString => EmptyString
  | String c rest =>
      String (if Ascii.eqb c ":"%char then "-"%char else c) (replace_colon rest)
  end.

(** [f"{z}"] for an integer. *)
Definition str_of_int (z : Z) : string := NilEmpty.string_of_int (Z.to_int z).

(** The [PRIMARY KEY] and [UNIQUE(module_type, version)] constraints. *)
Definition violates_constraints (rows : list ModelRow)
  (model_id mt : string) (v : Z) : bool :=
  existsb (fun r => id r =? model_id) rows
  || existsb (fun r => (module_type r =? mt) && (version r =? v)%Z) rows.

(** An integer SQLite can store: the signed 64-bit range. *)
Definition fits_int64 (z : Z) : bool :=
  (-9223372036854775808 <=? z)%Z && (z <=? 9223372036854775807)%Z.

(** A parameter bound to an [INTEGER] column: [None] goes in as [NULL]; an
    integer outside the 64-bit range makes [execute] raise
    [OverflowError] before the statement runs. *)
Definition bindable (z : option Z) : bool :=
  match z with
  | None => true
  | Some z => fits_int64 z
  end.

(** The path [register_model] writes the pickle of a version to. *)
Definition pickle_path (st : ModelRegistry) (mt : string) (version : Z)
  (now1 : string) : string :=
  path_join (models_dir st)
    (mt ++ "_v" ++ str_of_int version ++ "_" ++ replace_colon now1 ++ ".pkl").

(** [register_model]; [now1] and [now2] are the two readings of
    [datetime.utcnow().isoformat()].  The steps can fail in the order of
    the source: [open] (nothing has changed then), [pickle.dump] (the file
    is there), binding [version] and [training_examples_count] to the
    [INSERT] ([OverflowError]), and the constraints of the table
    ([IntegrityError]).  The pickle file is written before the [INSERT],
    and stays when the insert fails. *)
Definition register_model (st : ModelRegistry) (now1 now2 : string)
  (model_id mt : string) (module : Obj) (version : option Z)
  (metrics : option Metrics) (training_examples_count : option Z)
  (optimization_params : option Params) (notes : option string)
  : Result string * ModelRegistry :=
  let version :=
    match version with
    | None => _get_next_version st mt
    | Some v => v
    end in
  let timestamp := replace_colon now1 in
  let filename := mt ++ "_v" ++ str_of_int version ++ "_" ++ timestamp ++ ".pkl" in
  let file_path := path_join (models_dir st) filename in
  match open_error file_path with
  | Some error => (Raise error, st)
  | None =>
      let fs := write_file (files st) file_path (pickle_dump module) in
      let written :=
        {| models_dir := models_dir st; models := models st; files := fs |} in
      match pickle_error module with
      | Some error => (Raise error, written)
      | None =>
          let created_at := now2 in
          let metrics_json :=
            match metrics with
            | Some ((_ :: _) as m) => Some m
            | _ => None
            end in
          let params_json :=
            match optimization_params with
            | Some ((_ :: _) as p) => Some p
            | _ => None
            end in
          if negb (fits_int64 version && bindable training_examples_count)
          then (Raise OverflowError, written)
          else if violates_constraints (models st) model_id mt version then
            (Raise IntegrityError, written)
          else
            (Return model_id,
             {| models_dir := models_dir st;
                models := models st ++
                  [ {| id := model_id; module_type := mt; version := version;
                       created_at := created_at; file_path := file_path;
                       metrics := metrics_json;
                       training_examples_count := training_examples_count;
                       optimization_params := params_json;
                       is_active := false; notes := notes |} ];
                files := fs |})
      end
  end.

(** The row [load_model] selects, or the [ValueError] of its last branch.
    The tests [if model_id], [elif module_type and version] and
    [elif module_type] are truthiness tests: [None], the empty string and
    the version [0] all fail them.  The version asked for is one SQLite
    can bind, an integer of the signed 64-bit range. *)
Definition select_row (st : ModelRegistry) (model_id module_type_arg : option string)
  (version_arg : option Z) : Result (option ModelRow) :=
  let active_of mt :=
    Return (find (fun r => (module_type r =? mt) && is_active r) (models st)) in
  let by_type :=
    match module_type_arg with
    | None => Raise (ValueError
        "Must provide model_id, or module_type (with optional version)")
    | Some mt =>
        if mt =? "" then Raise (ValueError
          "Must provide model_id, or module_type (with optional version)")
        else
          match version_arg with
          | None => active_of mt
          | Some v =>
              if (v =? 0)%Z then active_of mt
              else Return (find (fun r => (module_type r =? mt)
                                          && (version r =? v)%Z) (models st))
          end
    end in
  match model_id with
  | None => by_type
  | Some mid =>
      if mid =? "" then by_type
      else Return (find (fun r => id r =? mid) (models st))
  end.

(** [load_model]: [None] (with a warning) when no row matches,
    [FileNotFoundError] when the row's file is gone, the unpickled module
    otherwise. *)
Definition load_model (st : ModelRegistry) (model_id module_type_arg : option string)
  (version_arg : option Z) : Result (option Obj) :=
  row <- select_row st model_id module_type_arg version_arg ;;
  match row with
  | None => Return None
  | Some row =>
      match read_file (files st) (file_path row) with
      | None => Raise (FileNotFoundError (file_path row))
      | Some b => Return (Some (pickle_load b))
      end
  end.

Definition set_flag (b : bool) (r : ModelRow) : ModelRow :=
  {| id := id r; module_type := module_type r; version := version r;
     created_at := created_at r; file_path := file_path r;
     metrics := metrics r;
     training_examples_count := training_examples_count r;
     optimization_params := optimization_params r;
     is_active := b; notes := notes r |}.

(** [UPDATE models SET is_active = FALSE WHERE module_type = ?] *)
Definition deactivate_type (mt : string) (rows : list ModelRow) : list ModelRow :=
  map (fun r => if module_type r =? mt then set_flag false r else r) rows.

(** [UPDATE models SET is_active = TRUE WHERE id = ?] *)
Definition activate_id (model_id : string) (rows : list ModelRow) : list ModelRow :=
  map (fun r => if id r =? model_id then set_flag true r else r) rows.

(** [set_active_model] *)
Definition set_active_model (st : ModelRegistry) (model_id : string)
  : Result unit * ModelRegistry :=
  match find (fun r => id r =? model_id) (models st) with
  | None => (Raise (ValueError ("Model not found: " ++ model_id)), st)
  | Some row =>
      let mt := module_type row in
      (Return tt,
       {| models_dir := models_dir st;
          models := activate_id model_id (deactivate_type mt (models st));
          files := files st |})
  end.

(** A call made by a client of the registry. *)
Inductive Call : Type :=
| CallRegister (now1 now2 model_id mt : string) (module : Obj)
    (version : option Z) (metrics : option Metrics)
    (training_examples_count : option Z)
    (optimization_params : option Params) (notes : option string)
| CallSetActive (model_id : string).

(** The registry after one call, whether it returned or raised. *)
Definition step (st : ModelRegistry) (c : Call) : ModelRegistry :=
  match c with
  | CallRegister now1 now2 model_id mt module version metrics tec params notes =>
      snd (register_model st now1 now2 model_id mt module version metrics
             tec params notes)
  | CallSetActive model_id => snd (set_active_model st model_id)
  end.

Definition run (calls : list Call) (st : ModelRegistry) : ModelRegistry :=
  fold_left step calls st.

(** Number of rows of [mt] with [is_active = TRUE]. *)
Definition count_active (mt : string) (rows : list ModelRow) : nat :=
  List.length (filter (fun r => (module_type r =? mt) && is_active r) rows).

(** The versions of [mt], in insertion order. *)
Definition versions_of (mt : string) (rows : list ModelRow) : list Z :=
  map version (filter (fun r => module_type r =? mt) rows).

(** Primary keys are pairwise distinct. *)
Definition ids_unique (rows : list ModelRow) : Prop := NoDup (map id rows).

(** Number of rows whose primary key is [model_id]. *)
Definition count_id (model_id : string) (rows : list ModelRow) : nat :=
  List.length (filter (fun r => id r =? model_id) rows).

(** The two [UPDATE]s of [set_active_model] as one pass over the table. *)
Definition reflag (model_id mt : string) (r : ModelRow) : ModelRow :=
  if id r =? model_id then set_flag true r
  else if module_type r =? mt then set_flag false r
  else r.

(** The three ways of asking [load_model] for a model. *)
Inductive Request : Type :=
| ById (model_id : string)
| ByVersion (mt : string) (v : Z)
| ActiveOf (mt : string).

(** The arguments of the call that makes the request. *)
Definition request_args (q : Request) : option string * option string * option Z :=
  match q with
  | ById model_id => (Some model_id, None, None)
  | ByVersion mt v => (None, Some mt, Some v)
  | ActiveOf mt => (None, Some mt, None)
  end.

(** The rows a request asks for. *)
Definition matches (q : Request) (r : ModelRow) : bool :=
  match q with
  | ById model_id => id r =? model_id
  | ByVersion mt v => (module_type r =? mt) && (version r =? v)%Z
  | ActiveOf mt => (module_type r =? mt) && is_active r
  end.

(** The arguments of the request pass the truthiness tests. *)
Definition truthy (q : Request) : Prop :=
  match q with
  | ById model_id => model_id <> ""
  | ByVersion mt v => mt <> "" /\ v <> 0%Z
  | ActiveOf mt => mt <> ""
  end.

Definition load (st : ModelRegistry) (q : Request) : Result (option Obj) :=
  let '(model_id, mt, v) := request_args q in load_model st model_id mt v.

(** The list [1; 2; ...; n]. *)
Definition from_one (n : nat) : list Z := map Z.of_nat (seq 1 n).

(** The versions of every module type count up from 1. *)
Definition gapless (rows : list ModelRow) : Prop :=
  forall mt, versions_of mt rows = from_one (List.length (versions_of mt rows)).

Definition omits_version (c : Call) : Prop :=
  match c with
  | CallRegister _ _ _ _ _ version _ _ _ _ => version = None
  | CallSetActive _ => True
  end.

(** [get_model_info]: the row of the id with its JSON columns parsed, or
    [None]. *)
Definition get_model_info (st : ModelRegistry) (model_id : string)
  : option ModelRow :=
  find (fun r => id r =? model_id) (models st).

(** [Path.unlink] *)
Definition remove_file (fs : list (string * Blob)) (path : string)
  : list (string * Blob) :=
  filter (fun entry => negb (fst entry =? path)) fs.

(** [delete_model]: when the id has a row, its file is unlinked if it is
    there and the row is deleted; an unknown id is passed over in
    silence. *)
Definition delete_model (st : ModelRegistry) (model_id : string)
  : ModelRegistry :=
  match find (fun r => id r =? model_id) (models st) with
  | None => st
  | Some row =>
      {| models_dir := models_dir st;
         models := filter (fun r => negb (id r =? model_id)) (models st);
         files := match read_file (files st) (file_path row) with
                  | Some _ => remove_file (files st) (file_path row)
                  | None => files st
                  end |}
  end.

(** A call of a client that also deletes. *)
Inductive Op : Type :=
| OpCall (c : Call)
| OpDelete (model_id : string).

Definition apply_op (st : ModelRegistry) (o : Op) : ModelRegistry :=
  match o with
  | OpCall c => step st c
  | OpDelete model_id => delete_model st model_id
  end.

Definition run_ops (ops : list Op) (st : ModelRegistry) : ModelRegistry :=
  fold_left apply_op ops st.

End WithPickle.

Arguments mkRegistry {Blob}.
Arguments models_dir {Blob}.
Arguments models {Blob}.
Arguments files {Blob}.
Arguments init {Blob}.
Arguments read_file {Blob}.
Arguments write_file {Blob}.
Arguments _get_next_version {Blob}.
Arguments pickle_path {Blob}.
Arguments register_model {Obj Blob}.
Arguments select_row {Blob}.
Arguments load_model {Obj Blob}.
Arguments set_active_model {Blob}.
Arguments CallRegister {Obj}.
Arguments CallSetActive {Obj}.
Arguments step {Obj Blob}.
Arguments run {Obj Blob}.
Arguments omits_version {Obj}.
Arguments load {Obj Blob}.
Arguments get_model_info {Blob}.
Arguments remove_file {Blob}.
Arguments delete_model {Blob}.
Arguments OpCall {Obj}.
Arguments OpDelete {Obj}.
Arguments apply_op {Obj Blob}.
Arguments run_ops {Obj Blob}.

End Registry.

(** ** benchmarking/ab_testing.py *)
Module ABTesting.
Local Open Scope float_scope.

(** A row of table [experiments].  SQLite stores a NaN bound to a [REAL]
    column as [NULL]. *)
Record Experiment : Type := mkExperiment {
  id : string;
  name : string;
  module_type : string;
  baseline_model_id : option string;
  optimized_model_id : option string;
  split_ratio : option float;
  created_at : string;
  status : string;
  notes : option string
}.

(** A row of table [ab_evaluations]. *)
Record Evaluation : Type := mkEvaluation {
  eval_id : string;
  experiment_id : string;
  variant : string;
  timestamp : string;
  metrics : Metrics
}.

Record ABTestingFramework : Type := mkFramework {
  experiments : list Experiment;
  ab_evaluations : list Evaluation
}.

Definition init : ABTestingFramework :=
  {| experiments := []; ab_evaluations := [] |}.

Record ABTestResults : Type := mkResults {
  res_experiment_id : string;
  baseline_mean : float;
  optimized_mean : float;
  baseline_count : nat;
  optimized_count : nat;
  improvement_percent : float;
  is_significant : bool;
  p_value : float;
  confidence_interval : float * float
}.

(** [uuid.uuid4().hex[:12]] *)
Definition hex12 (uuid_hex : string) : string := substring 0 12 uuid_hex.

Definition bind_real (x : float) : option float :=
  if PrimFloat.is_nan x then None else Some x.

(** [create_experiment]; [uuid_hex] is [uuid.uuid4().hex] and [now] the
    clock reading.  The arguments go to the [INSERT] as they are. *)
Definition create_experiment (st : ABTestingFramework) (uuid_hex now : string)
  (name module_type : string) (baseline_model_id optimized_model_id : option string)
  (split_ratio : float) (notes : option string)
  : Result string * ABTestingFramework :=
  let experiment_id := "exp_" ++ hex12 uuid_hex in
  let created_at := now in
  if existsb (fun e => (id e =? experiment_id)%string) (experiments st) then
    (Raise IntegrityError, st)
  else
    (Return experiment_id,
     {| experiments := experiments st ++
          [ {| id := experiment_id; name := name; module_type := module_type;
               baseline_model_id := baseline_model_id;
               optimized_model_id := optimized_model_id;
               split_ratio := bind_real split_ratio;
               created_at := created_at; status := "active";
               notes := notes |} ];
        ab_evaluations := ab_evaluations st |}).

(** [record_evaluation]; the row is inserted with the [variant] it was
    given, and [experiment_id] is not looked up. *)
Definition record_evaluation (st : ABTestingFramework) (uuid_hex now : string)
  (experiment_id variant : string) (metrics : Metrics)
  : Result unit * ABTestingFramework :=
  let eval_id := "eval_" ++ hex12 uuid_hex in
  let timestamp := now in
  if existsb (fun e => (ABTesting.eval_id e =? eval_id)%string) (ab_evaluations st) then
    (Raise IntegrityError, st)
  else
    (Return tt,
     {| experiments := experiments st;
        ab_evaluations := ab_evaluations st ++
          [ {| eval_id := eval_id; experiment_id := experiment_id;
               variant := variant; timestamp := timestamp;
               metrics := metrics |} ] |}).

(** [_calculate_significance] *)
Definition _calculate_significance (baseline_scores optimized_scores : list float)
  (confidence_level : float) : Result (bool * float) :=
  if (List.length baseline_scores <? 3)%nat || (List.length optimized_scores <? 3)%nat
  then Return (false, 1.0)
  else
    let mean1 := PyFloat.mean baseline_scores in
    let mean2 := PyFloat.mean optimized_scores in
    s1 <- PyFloat.sum_sq_dev mean1 baseline_scores ;;
    let var1 := s1 / PyFloat.of_len (List.length baseline_scores - 1) in
    s2 <- PyFloat.sum_sq_dev mean2 optimized_scores ;;
    let var2 := s2 / PyFloat.of_len (List.length optimized_scores - 1) in
    let pooled_se :=
      PyFloat.pow_half (var1 / PyFloat.of_len (List.length baseline_scores)
                        + var2 / PyFloat.of_len (List.length optimized_scores)) in
    if pooled_se =? 0 then Return (false, 1.0)
    else
      let t_stat := PrimFloat.abs ((mean2 - mean1) / pooled_se) in
      let p_value :=
        if 2.0 <? t_stat then 0.05
        else if 1.96 <? t_stat then 0.05
        else 0.1 in
      let is_significant := p_value <? (1.0 - confidence_level) in
      Return (is_significant, p_value).

(** The pooled standard error [_calculate_significance] compares with
    zero, for groups of at least three scores. *)
Definition pooled_se (baseline_scores optimized_scores : list float)
  : Result float :=
  let mean1 := PyFloat.mean baseline_scores in
  let mean2 := PyFloat.mean optimized_scores in
  s1 <- PyFloat.sum_sq_dev mean1 baseline_scores ;;
  let var1 := s1 / PyFloat.of_len (List.length baseline_scores - 1) in
  s2 <- PyFloat.sum_sq_dev mean2 optimized_scores ;;
  let var2 := s2 / PyFloat.of_len (List.length optimized_scores - 1) in
  Return (PyFloat.pow_half
            (var1 / PyFloat.of_len (List.length baseline_scores)
             + var2 / PyFloat.of_len (List.length optimized_scores))).

(** [_calculate_confidence_interval] *)
Definition _calculate_confidence_interval
  (baseline_scores optimized_scores : list float) (confidence_level : float)
  : Result (float * float) :=
  match baseline_scores, optimized_scores with
  | [], _ | _, [] => Return (0.0, 0.0)
  | _, _ =>
      let mean1 := PyFloat.mean baseline_scores in
      let mean2 := PyFloat.mean optimized_scores in
      let diff := mean2 - mean1 in
      s1 <- PyFloat.sum_sq_dev mean1 baseline_scores ;;
      let var1 :=
        s1 / PyFloat.of_len (Nat.max 1 (List.length baseline_scores - 1)) in
      s2 <- PyFloat.sum_sq_dev mean2 optimized_scores ;;
      let var2 :=
        s2 / PyFloat.of_len (Nat.max 1 (List.length optimized_scores - 1)) in
      let se :=
        PyFloat.pow_half (var1 / PyFloat.of_len (List.length baseline_scores)
                          + var2 / PyFloat.of_len (List.length optimized_scores)) in
      let margin := 1.96 * se in
      Return (diff - margin, diff + margin)
  end.

(** The scores of one variant, in row order: the loop of [analyze_results]
    appends a row's score to the list its [variant] names and skips rows of
    any other variant. *)
Definition scores_of (v metric_key : string) (rows : list Evaluation) : list float :=
  map (fun r => dict_get (metrics r) metric_key 0.0)
      (filter (fun r => (variant r =? v)%string) rows).

(** [analyze_results] *)
Definition analyze_results (st : ABTestingFramework) (experiment_id : string)
  (metric_key : string) (confidence_level : float) : Result ABTestResults :=
  let rows :=
    filter (fun r => (ABTesting.experiment_id r =? experiment_id)%string)
           (ab_evaluations st) in
  match rows with
  | [] => Raise (ValueError ("No evaluations found for experiment: " ++ experiment_id))
  | _ =>
      let baseline_scores := scores_of "baseline" metric_key rows in
      let optimized_scores := scores_of "optimized" metric_key rows in
      let baseline_mean :=
        match baseline_scores with
        | [] => 0.0
        | _ => PyFloat.mean baseline_scores
        end in
      let optimized_mean :=
        match optimized_scores with
        | [] => 0.0
        | _ => PyFloat.mean optimized_scores
        end in
      let improvement_percent :=
        if 0 <? baseline_mean
        then (optimized_mean - baseline_mean) / baseline_mean * 100
        else 0.0 in
      sig <- _calculate_significance baseline_scores optimized_scores
               confidence_level ;;
      ci <- _calculate_confidence_interval baseline_scores optimized_scores
              confidence_level ;;
      Return {| res_experiment_id := experiment_id;
                baseline_mean := baseline_mean;
                optimized_mean := optimized_mean;
                baseline_count := List.length baseline_scores;
                optimized_count := List.length optimized_scores;
                improvement_percent := improvement_percent;
                is_significant := fst sig;
                p_value := snd sig;
                confidence_interval := ci |}
  end.

(** The rows [analyze_results] reads for an experiment. *)
Definition rows_of (st : ABTestingFramework) (experiment_id : string)
  : list Evaluation :=
  filter (fun r => (ABTesting.experiment_id r =? experiment_id)%string)
         (ab_evaluations st).

(** [assign_variant]; [draw] is the value of [random.random()].  A split
    ratio stored as [NULL] is read back as [None], and comparing a float
    with [None] raises [TypeError]. *)
Definition assign_variant (st : ABTestingFramework) (draw : float)
  (experiment_id : string) : Result string :=
  match find (fun e => (id e =? experiment_id)%string) (experiments st) with
  | None => Raise (ValueError ("Experiment not found: " ++ experiment_id))
  | Some row =>
      match split_ratio row with
      | None => Raise (ExternalError "TypeError")
      | Some split_ratio =>
          Return (if draw <? split_ratio then "baseline"%string
                  else "optimized"%string)
      end
  end.

Definition set_status (s : string) (e : Experiment) : Experiment :=
  {| id := id e; name := name e; module_type := module_type e;
     baseline_model_id := baseline_model_id e;
     optimized_model_id := optimized_model_id e;
     split_ratio := split_ratio e; created_at := created_at e;
     status := s; notes := notes e |}.

(** [stop_experiment] *)
Definition stop_experiment (st : ABTestingFramework) (experiment_id : string)
  : ABTestingFramework :=
  {| experiments :=
       map (fun e => if (id e =? experiment_id)%string
                     then set_status "stopped" e else e) (experiments st);
     ab_evaluations := ab_evaluations st |}.

(** A call of a client of the experiment store. *)
Inductive Call : Type :=
| CallCreate (uuid_hex now name module_type : string)
    (baseline_model_id optimized_model_id : option string)
    (split_ratio : float) (notes : option string)
| CallRecord (uuid_hex now experiment_id variant : string) (metrics : Metrics)
| CallStop (experiment_id : string).

(** The store after one call, whether it returned or raised. *)
Definition step (st : ABTestingFramework) (c : Call) : ABTestingFramework :=
  match c with
  | CallCreate uuid_hex now name mt b o split_ratio notes =>
      snd (create_experiment st uuid_hex now name mt b o split_ratio notes)
  | CallRecord uuid_hex now experiment_id variant metrics =>
      snd (record_evaluation st uuid_hex now experiment_id variant metrics)
  | CallStop experiment_id => stop_experiment st experiment_id
  end.

Definition run (calls : list Call) (st : ABTestingFramework)
  : ABTestingFramework :=
  fold_left step calls st.

(** The status of an experiment, if it exists. *)
Definition status_of (st : ABTestingFramework) (experiment_id : string)
  : option string :=
  option_map status
    (find (fun e => (id e =? experiment_id)%string) (experiments st)).

End ABTesting.

(** ** benchmarking/performance_tracker.py *)
Module Tracker.
Local Open Scope float_scope.

(** A row of table [performance_snapshots]. *)
Record Snapshot : Type := mkSnapshot {
  id : Z;
  timestamp : string;
  module_type : string;
  model_id : option string;
  metrics : Metrics;
  sample_size : option Z;
  notes : option string
}.

Record PerformanceTracker : Type := mkTracker {
  performance_snapshots : list Snapshot
}.

Definition init : PerformanceTracker := {| performance_snapshots := [] |}.

(** [record_snapshot]; [now] is the clock reading, the id is the next
    [AUTOINCREMENT] value of a table nothing is deleted from.  The sample
    size is one SQLite can bind, an integer of the signed 64-bit range. *)
Definition record_snapshot (st : PerformanceTracker) (now : string)
  (module_type : string) (metrics : Metrics) (model_id : option string)
  (sample_size : option Z) (notes : option string) : PerformanceTracker :=
  {| performance_snapshots := performance_snapshots st ++
       [ {| id := Z.of_nat (List.length (performance_snapshots st)) + 1;
            timestamp := now; module_type := module_type;
            model_id := model_id; metrics := metrics;
            sample_size := sample_size; notes := notes |} ] |}.

(** [ORDER BY timestamp DESC]: text compared byte by byte; rows with equal
    timestamps stay in insertion order. *)
Fixpoint insert_desc (x : Snapshot) (l : list Snapshot) : list Snapshot :=
  match l with
  | [] => [x]
  | y :: rest =>
      if String.leb (timestamp y) (timestamp x) then x :: y :: rest
      else y :: insert_desc x rest
  end.

(** [a] may come before [b] in the descending order. *)
Definition not_older (a b : Snapshot) : Prop :=
  String.leb (timestamp b) (timestamp a) = true.

Definition order_by_timestamp_desc (l : list Snapshot) : list Snapshot :=
  fold_right insert_desc [] l.

(** [LIMIT n], appended to the query when [limit] is truthy; a negative
    limit lifts the bound.  The limit is one SQLite can bind, an integer of
    the signed 64-bit range. *)
Definition apply_limit (limit : option Z) (l : list Snapshot) : list Snapshot :=
  match limit with
  | None => l
  | Some n => if (n <=? 0)%Z then l else firstn (Z.to_nat n) l
  end.

(** [get_history] *)
Definition get_history (st : PerformanceTracker) (module_type : string)
  (limit : option Z) : list Snapshot :=
  apply_limit limit
    (order_by_timestamp_desc
       (filter (fun r => (Tracker.module_type r =? module_type)%string)
          (performance_snapshots st))).

(** The dictionary [detect_degradation] returns; a key that is absent from
    it is [None] here, and so is a [None] value. *)
Record Degradation : Type := mkDegradation {
  degradation_detected : bool;
  reason : string;
  current_value : option float;
  baseline_value : option float;
  drop_percent : option float;
  threshold : option float
}.

(** [detect_degradation] *)
Definition detect_degradation (st : PerformanceTracker) (module_type : string)
  (metric_key : string) (threshold : float) : Degradation :=
  let history := get_history st module_type (Some 10%Z) in
  match history with
  | [] | [_] =>
      {| degradation_detected := false; reason := "insufficient_data";
         current_value := None; baseline_value := None;
         drop_percent := None; threshold := None |}
  | newest :: rest =>
      let latest := dict_get (metrics newest) metric_key 0.0 in
      let previous := map (fun h => dict_get (metrics h) metric_key 0.0) rest in
      let baseline :=
        match previous with
        | [] => 0.0
        | _ => PyFloat.sum previous / PyFloat.of_len (List.length previous)
        end in
      if baseline =? 0 then
        {| degradation_detected := false; reason := "zero_baseline";
           current_value := Some latest; baseline_value := Some baseline;
           drop_percent := None; threshold := None |}
      else
        let drop_percent := (baseline - latest) / baseline in
        let degradation_detected := threshold <? drop_percent in
        {| degradation_detected := degradation_detected;
           reason := if degradation_detected then "threshold_exceeded"
                     else "within_threshold";
           current_value := Some latest; baseline_value := Some baseline;
           drop_percent := Some drop_percent; threshold := Some threshold |}
  end.

(** The dictionary [get_summary] returns; a key that is absent from it is
    [None] here, and so is a [None] value. *)
Record Summary : Type := mkSummary {
  summary_module_type : string;
  snapshots_count : nat;
  latest : option Snapshot;
  trend : option string;
  trend_percent : option float;
  first_snapshot : option string;
  last_snapshot : option string
}.

(** [get_summary] *)
Definition get_summary (st : PerformanceTracker) (module_type : string)
  : Summary :=
  let history := get_history st module_type (Some 100%Z) in
  match history with
  | [] =>
      {| summary_module_type := module_type; snapshots_count := 0;
         latest := None; trend := None; trend_percent := None;
         first_snapshot := None; last_snapshot := None |}
  | latest :: _ =>
      let oldest := last history latest in
      let latest_score := dict_get (metrics latest) "mean_score" 0.0 in
      let oldest_score := dict_get (metrics oldest) "mean_score" 0.0 in
      let trend :=
        if oldest_score <? latest_score then "improving"%string
        else "declining"%string in
      let trend_percent :=
        if 0 <? oldest_score
        then (latest_score - oldest_score) / oldest_score * 100
        else 0.0 in
      {| summary_module_type := module_type;
         snapshots_count := List.length history;
         latest := Some latest; trend := Some trend;
         trend_percent := Some trend_percent;
         first_snapshot := Some (timestamp oldest);
         last_snapshot := Some (timestamp latest) |}
  end.







(** The snapshots of a module type, in insertion order. *)
Definition snapshots_of (st : PerformanceTracker) (module_type : string)
  : list Snapshot :=
  filter (fun r => (Tracker.module_type r =? module_type)%string)
         (performance_snapshots st).

End Tracker.

(** ** optimization/pipeline.py *)
Module Pipeline.
Local Open Scope float_scope.

Section WithDspy.

(** The DSPy side: examples, predictions and modules, a module's [forward],
    the two default metrics, the fresh [RubricOptimizer()] and
    [SelfImprovingJudge(judge_type)], and [MIPROv2(...).compile(...)], which
    returns the optimized module or raises. *)
Variable Example : Type.
Variable Prediction : Type.
Variable Obj : Type.
Variable Blob : Type.
Variable pickle_dump : Obj -> Blob.
Variable path_join : string -> string -> string.
Variable open_error : string -> option Exn.
Variable pickle_error : Obj -> option Exn.
Variable forward : Obj -> Example -> Result Prediction.
Variable rubric_metric : Example -> Prediction -> Result float.
Variable judge_metric : Example -> Prediction -> Result float.
Variable RubricOptimizer : Obj.
Variable SelfImprovingJudge : string -> Obj.
Variable compile :
  (Example -> Prediction -> Result float) -> Z -> float ->
  Obj -> list Example -> Z -> Z -> Z -> Result Obj.

(** The evaluation loop: an example whose [forward] or metric raises is
    logged and left out. *)
Fixpoint evaluate (module : Obj) (metric : Example -> Prediction -> Result float)
  (valset : list Example) : list float :=
  match valset with
  | [] => []
  | example :: rest =>
      match (pred <- forward module example ;; metric example pred) with
      | Return score => score :: evaluate module metric rest
      | Raise _ => evaluate module metric rest
      end
  end.

Definition mean_or_zero (scores : list float) : float :=
  match scores with
  | [] => 0.0
  | _ => PyFloat.mean scores
  end.

(** [valset or trainset] *)
Definition valset_or (valset : option (list Example)) (trainset : list Example)
  : list Example :=
  match valset with
  | Some ((_ :: _) as v) => v
  | _ => trainset
  end.

(** [uuid.uuid4().hex[:8]] *)
Definition hex8 (uuid_hex : string) : string := substring 0 8 uuid_hex.

(** The part of both [optimize_rubric] and [optimize_judge] that follows a
    successful [compile]: evaluate the optimized module, register it, and
    activate it when it improved by more than 5 percent. *)
Definition register_optimized (registry : Registry.ModelRegistry Blob)
  (now1 now2 : string) (model_id module_type : string) (notes : string)
  (optimized_module : Obj) (metric : Example -> Prediction -> Result float)
  (trainset valset : list Example) (baseline_mean : float)
  (num_trials num_candidates : Z) (init_temperature : float)
  : Result Obj * Registry.ModelRegistry Blob :=
  let optimized_scores := evaluate optimized_module metric valset in
  let optimized_mean := mean_or_zero optimized_scores in
  let improvement :=
    if 0 <? baseline_mean
    then (optimized_mean - baseline_mean) / baseline_mean * 100
    else 0.0 in
  match Registry.register_model pickle_dump path_join
      open_error pickle_error registry now1 now2
          model_id module_type optimized_module None
          (Some [("baseline_score", baseline_mean);
                 ("optimized_score", optimized_mean);
                 ("improvement_percent", improvement)]%string)
          (Some (Z.of_nat (List.length trainset)))
          (Some [("num_trials", Registry.PInt num_trials);
                 ("num_candidates", Registry.PInt num_candidates);
                 ("init_temperature", Registry.PFloat init_temperature)]%string)
          (Some notes) with
  | (Raise e, registry) => (Raise e, registry)
  | (Return _, registry) =>
      if 5.0 <? improvement then
        match Registry.set_active_model registry model_id with
        | (Raise e, registry) => (Raise e, registry)
        | (Return _, registry) => (Return optimized_module, registry)
        end
      else (Return optimized_module, registry)
  end.

(** [optimize_rubric] *)
Definition optimize_rubric (registry : Registry.ModelRegistry Blob)
  (uuid_hex now1 now2 : string)
  (trainset : list Example) (valset : option (list Example))
  (metric : option (Example -> Prediction -> Result float))
  (num_trials num_candidates : Z) (init_temperature : float)
  : Result Obj * Registry.ModelRegistry Blob :=
  let metric := match metric with Some m => m | None => rubric_metric end in
  let valset := valset_or valset trainset in
  let baseline_optimizer := RubricOptimizer in
  let baseline_scores := evaluate baseline_optimizer metric valset in
  let baseline_mean := mean_or_zero baseline_scores in
  match compile metric num_candidates init_temperature
          RubricOptimizer trainset num_trials 4 4 with
  | Raise error => (Raise error, registry)
  | Return optimized_module =>
      register_optimized registry now1 now2
        ("rubric_optimizer_" ++ hex8 uuid_hex)%string "rubric_optimizer"%string
        ("MIPROv2 optimization with " ++ Registry.str_of_int num_trials
           ++ " trials")%string
        optimized_module metric trainset valset baseline_mean
        num_trials num_candidates init_temperature
  end.

(** [optimize_judge] *)
Definition optimize_judge (registry : Registry.ModelRegistry Blob)
  (uuid_hex now1 now2 : string) (judge_type : string)
  (trainset : list Example) (valset : option (list Example))
  (metric : option (Example -> Prediction -> Result float))
  (num_trials num_candidates : Z) (init_temperature : float)
  : Result Obj * Registry.ModelRegistry Blob :=
  let metric := match metric with Some m => m | None => judge_metric end in
  let valset := valset_or valset trainset in
  let baseline_judge := SelfImprovingJudge judge_type in
  let baseline_scores := evaluate baseline_judge metric valset in
  let baseline_mean := mean_or_zero baseline_scores in
  match compile metric num_candidates init_temperature
          (SelfImprovingJudge judge_type) trainset num_trials 5 5 with
  | Raise error => (Raise error, registry)
  | Return optimized_module =>
      register_optimized registry now1 now2
        ("judge_" ++ judge_type ++ "_" ++ hex8 uuid_hex)%string
        ("judge_" ++ judge_type)%string
        ("MIPROv2 optimization for " ++ judge_type ++ " judge with "
           ++ Registry.str_of_int num_trials ++ " trials")%string
        optimized_module metric trainset valset baseline_mean
        num_trials num_candidates init_temperature
  end.

(** [d.get(k)] and [d[k] = v] on a dictionary kept in insertion order. *)
Fixpoint dict_lookup {A : Type} (d : list (string * A)) (k : string)
  : option A :=
  match d with
  | [] => None
  | (k', v) :: rest => if (k' =? k)%string then Some v else dict_lookup rest k
  end.

Fixpoint dict_set {A : Type} (d : list (string * A)) (k : string) (v : A)
  : list (string * A) :=
  match d with
  | [] => [(k, v)]
  | (k', v') :: rest =>
      if (k' =? k)%string then (k, v) :: rest else (k', v') :: dict_set rest k v
  end.

(** The loop of [optimize_all_judges] over [trainsets.items()]; [env] gives,
    for a judge type, the uuid and the two clock readings that its
    [optimize_judge] call draws.  An exception of [optimize_judge] is
    logged and the judge is skipped. *)
Fixpoint optimize_judges_loop (registry : Registry.ModelRegistry Blob)
  (env : string -> string * string * string)
  (items : list (string * list Example))
  (valsets : option (list (string * list Example)))
  (metric : option (Example -> Prediction -> Result float))
  (num_trials num_candidates : Z) (init_temperature : float)
  (optimized_judges : list (string * Obj))
  : list (string * Obj) * Registry.ModelRegistry Blob :=
  match items with
  | [] => (optimized_judges, registry)
  | (judge_type, trainset) :: rest =>
      let valset :=
        match valsets with
        | Some ((_ :: _) as v) => dict_lookup v judge_type
        | _ => None
        end in
      let '(uuid_hex, now1, now2) := env judge_type in
      match optimize_judge registry uuid_hex now1 now2 judge_type trainset
              valset metric num_trials num_candidates init_temperature with
      | (Return optimized_judge, registry) =>
          optimize_judges_loop registry env rest valsets metric num_trials
            num_candidates init_temperature
            (dict_set optimized_judges judge_type optimized_judge)
      | (Raise _, registry) =>
          optimize_judges_loop registry env rest valsets metric num_trials
            num_candidates init_temperature optimized_judges
      end
  end.

(** [optimize_all_judges] *)
Definition optimize_all_judges (registry : Registry.ModelRegistry Blob)
  (env : string -> string * string * string)
  (trainsets : list (string * list Example))
  (valsets : option (list (string * list Example)))
  (metric : option (Example -> Prediction -> Result float))
  (num_trials num_candidates : Z) (init_temperature : float)
  : list (string * Obj) * Registry.ModelRegistry Blob :=
  optimize_judges_loop registry env trainsets valsets metric num_trials
    num_candidates init_temperature [].

End WithDspy.

Arguments evaluate {Example Prediction Obj}.
Arguments optimize_rubric {Example Prediction Obj Blob}.
Arguments optimize_judge {Example Prediction Obj Blob}.
Arguments register_optimized {Example Prediction Obj Blob}.
Arguments valset_or {Example}.
Arguments optimize_judges_loop {Example Prediction Obj Blob}.
Arguments optimize_all_judges {Example Prediction Obj Blob}.

End Pipeline.

(** ** Concrete runs *)
Module Demo.
Local Open Scope float_scope.

(** A registry whose modules and pickles are plain strings.  [path_join]
    is [pathlib]'s [dir / file] for a directory written with at most one
    leading [./], which [pathlib] drops, and a plain file name. *)
Definition path_join (dir file : string) : string :=
  (match dir with
   | String "."%char (String "/"%char rest) => rest
   | _ => dir
   end ++ "/" ++ file)%string.
Definition pickle (s : string) : string := s.

(** The host of these runs: the model directory [dspy_models] exists and
    has no subdirectory, so [open(path, "wb")] succeeds exactly on a path
    of that directory whose file name holds no slash; every module can be
    pickled. *)
Fixpoint after_prefix (p s : string) : option string :=
  match p, s with
  | EmptyString, _ => Some s
  | String a p', String b s' =>
      if Ascii.eqb a b then after_prefix p' s' else None
  | _, _ => None
  end.

Definition open_error (path : string) : option Exn :=
  match after_prefix "dspy_models/" path with
  | Some name =>
      match index 0 "/" name with
      | Some _ => Some (FileNotFoundError path)
      | None => None
      end
  | None => Some (FileNotFoundError path)
  end.

Definition pickle_error (module : string) : option Exn := None.

Definition utc : string := "2025-01-01T00:00:00.000000".

Definition register (model_id mt content : string) : Registry.Call string :=
  Registry.CallRegister utc utc model_id mt content None None None None None.

Definition calls : list (Registry.Call string) :=
  [ register "rubric_a" "rubric_optimizer" "module a";
    register "rubric_b" "rubric_optimizer" "module b";
    Registry.CallSetActive "rubric_a";
    register "judge_a" "judge_relevance" "module c";
    Registry.CallSetActive "rubric_b" ].

(** A table row whose pickle file was removed from the model directory. *)
Definition orphan_row : Registry.ModelRow :=
  {| Registry.id := "m1"; Registry.module_type := "rubric_optimizer";
     Registry.version := 1; Registry.created_at := utc;
     Registry.file_path :=
       "dspy_models/rubric_optimizer_v1_2025-01-01T00-00-00.000000.pkl";
     Registry.metrics := None; Registry.training_examples_count := None;
     Registry.optimization_params := None; Registry.is_active := false;
     Registry.notes := None |}.

Definition orphaned : Registry.ModelRegistry string :=
  {| Registry.models_dir := "./dspy_models";
     Registry.models := [orphan_row];
     Registry.files := [] |}.

(** An experiment store filled through [record_evaluation]. *)
Fixpoint record_many (st : ABTesting.ABTestingFramework)
  (evals : list (string * string * float)) : ABTesting.ABTestingFramework :=
  match evals with
  | [] => st
  | (uuid_hex, variant, score) :: rest =>
      record_many
        (snd (ABTesting.record_evaluation st uuid_hex utc "exp_demo" variant
                [("primary_score"%string, score)]))
        rest
  end.

(** Three baseline scores around 0.5625 and three optimized scores around
    0.8125; every sum and mean is exact in binary64. *)
Definition separated : ABTesting.ABTestingFramework :=
  record_many ABTesting.init
    [ ("000000000001", "baseline", 0.5); ("000000000002", "optimized", 0.75);
      ("000000000003", "baseline", 0.5625); ("000000000004", "optimized", 0.8125);
      ("000000000005", "baseline", 0.625); ("000000000006", "optimized", 0.875)
    ]%string.

(** Three identical baseline scores and three identical optimized ones. *)
Definition constant3 : ABTesting.ABTestingFramework :=
  record_many ABTesting.init
    [ ("000000000001", "baseline", 0.7); ("000000000002", "optimized", 0.9);
      ("000000000003", "baseline", 0.7); ("000000000004", "optimized", 0.9);
      ("000000000005", "baseline", 0.7); ("000000000006", "optimized", 0.9)
    ]%string.

(** Four identical baseline scores and four identical optimized ones. *)
Definition constant4 : ABTesting.ABTestingFramework :=
  record_many ABTesting.init
    [ ("000000000001", "baseline", 0.7); ("000000000002", "optimized", 0.9);
      ("000000000003", "baseline", 0.7); ("000000000004", "optimized", 0.9);
      ("000000000005", "baseline", 0.7); ("000000000006", "optimized", 0.9);
      ("000000000007", "baseline", 0.7); ("000000000008", "optimized", 0.9)
    ]%string.

(** Snapshots recorded one per day, oldest first. *)
Fixpoint record_days (st : Tracker.PerformanceTracker)
  (days : list (string * float)) : Tracker.PerformanceTracker :=
  match days with
  | [] => st
  | (day, score) :: rest =>
      record_days
        (Tracker.record_snapshot st day "rubric_optimizer"
           [("mean_score"%string, score)] None None None)
        rest
  end.

(** Twelve snapshots: ten at 0.5, one at 1.0 and, last, one at 0.25. *)
Definition twelve_days : Tracker.PerformanceTracker :=
  record_days Tracker.init
    [ ("2025-01-01", 0.5); ("2025-01-02", 0.5); ("2025-01-03", 0.5);
      ("2025-01-04", 0.5); ("2025-01-05", 0.5); ("2025-01-06", 0.5);
      ("2025-01-07", 0.5); ("2025-01-08", 0.5); ("2025-01-09", 0.5);
      ("2025-01-10", 0.5); ("2025-01-11", 1.0); ("2025-01-12", 0.25)
    ]%string.

(** An optimizer whose [compile] always raises. *)
Definition failing_compile (metric : string -> string -> Result float)
  (num_candidates : Z) (init_temperature : float) (student : string)
  (trainset : list string) (num_trials max_bootstrapped max_labeled : Z)
  : Result string :=
  Raise (ExternalError "optimizer failed").

Definition forward (module example : string) : Result string :=
  Return (module ++ ":" ++ example)%string.

Definition metric (example prediction : string) : Result float := Return 0.5.

End Demo.

(** ** Further concrete runs *)
Module Scenario.
Local Open Scope float_scope.

Definition dir : string := "./dspy_models".

(** An optimizer whose [compile] returns a module that scores higher. *)
Definition compile (metric : string -> string -> Result float)
  (num_candidates : Z) (init_temperature : float) (student : string)
  (trainset : list string) (num_trials max_bootstrapped max_labeled : Z)
  : Result string :=
  Return ("optimized " ++ student)%string.

Definition metric (example prediction : string) : Result float :=
  Return (if String.prefix "optimized" prediction then 1.0 else 0.5).

(** A metric that raises on every example. *)
Definition broken_metric (example prediction : string) : Result float :=
  Raise (ExternalError "metric failed").

Definition judge (judge_type : string) : string :=
  ("SelfImprovingJudge(" ++ judge_type ++ ")")%string.

Definition env (judge_type : string) : string * string * string :=
  (("0123456789abcdef" ++ judge_type)%string, Demo.utc, Demo.utc).

(** A registry whose one model was registered with the largest version
    SQLite stores. *)
Definition saturated : Registry.ModelRegistry string :=
  {| Registry.models_dir := "./dspy_models";
     Registry.models :=
       [ {| Registry.id := "m1"; Registry.module_type := "rubric_optimizer";
            Registry.version := 9223372036854775807;
            Registry.created_at := Demo.utc;
            Registry.file_path :=
              "dspy_models/rubric_optimizer_v9223372036854775807_2025-01-01T00-00-00.000000.pkl";
            Registry.metrics := None;
            Registry.training_examples_count := None;
            Registry.optimization_params := None;
            Registry.is_active := false; Registry.notes := None |} ];
     Registry.files := [] |}.

(** The registry of [Demo.orphaned] after its one model was activated. *)
Definition activated : Registry.ModelRegistry string :=
  snd (Registry.set_active_model Demo.orphaned "m1").

(** An experiment that only has evaluations of the optimized variant. *)
Definition optimized_only : ABTesting.ABTestingFramework :=
  Demo.record_many ABTesting.init
    [ ("000000000001", "optimized", 0.75);
      ("000000000002", "optimized", 0.875) ]%string.

(** A store with one experiment, created with the default split ratio. *)
Definition one_experiment : ABTesting.ABTestingFramework :=
  snd (ABTesting.create_experiment ABTesting.init
         "0123456789abcdef0123456789abcdef" Demo.utc "demo" "rubric_optimizer"
         (Some "m1") (Some "m2") 0.5 None).

(** Two snapshots with the same score. *)
Definition two_flat_days : Tracker.PerformanceTracker :=
  Demo.record_days Tracker.init
    [ ("2025-01-01", 0.5); ("2025-01-02", 0.5) ]%string.

End Scenario.

(** * Properties of the model registry *)

Section RegistryFacts.
Import Registry.

Context {Obj Blob : Type}.
Variable pickle_dump : Obj -> Blob.
Variable pickle_load : Blob -> Obj.
Variable path_join : string -> string -> string.
Variable open_error : string -> option Exn.
Variable pickle_error : Obj -> option Exn.

Local Abbreviation register_model := (Registry.register_model pickle_dump path_join
    open_error pickle_error).
Local Abbreviation load_model := (Registry.load_model pickle_load).
Local Abbreviation step := (Registry.step pickle_dump path_join
    open_error pickle_error).
Local Abbreviation run := (Registry.run pickle_dump path_join
    open_error pickle_error).

Lemma count_active_app (mt : string) (l1 l2 : list ModelRow) :
  count_active mt (l1 ++ l2) = (count_active mt l1 + count_active mt l2)%nat.
Proof.
  unfold count_active. now rewrite filter_app, length_app.
Qed.

Lemma count_id_absent (t : string) (l : list ModelRow) :
  ~ In t (map id l) -> count_id t l = 0%nat.
Proof.
  unfold count_id. induction l as [|a l IH]; simpl; intros Hn; [reflexivity|].
  destruct (String.eqb_spec (id a) t) as [E|E].
  - exfalso. apply Hn. now left.
  - apply IH. intros Hin. apply Hn. now right.
Qed.

Lemma count_id_unique (t : string) (l : list ModelRow) :
  ids_unique l -> (count_id t l <= 1)%nat.
Proof.
  unfold ids_unique. induction l as [|a l IH]; simpl; intros Hnd.
  - unfold count_id. simpl. lia.
  - inversion Hnd as [|x xs Hnotin Hnd']; subst.
    unfold count_id in *. simpl.
    destruct (String.eqb_spec (id a) t) as [E|E].
    + subst t. simpl. pose proof (count_id_absent (id a) l Hnotin) as H0.
      unfold count_id in H0. rewrite H0. lia.
    + now apply IH.
Qed.

Lemma same_id_same_row (l : list ModelRow) (x y : ModelRow) :
  ids_unique l -> In x l -> In y l -> id x = id y -> x = y.
Proof.
  unfold ids_unique. induction l as [|a l IH]; simpl; intros Hnd Hx Hy E.
  - contradiction.
  - inversion Hnd as [|z zs Hnotin Hnd']; subst.
    destruct Hx as [Hx|Hx], Hy as [Hy|Hy]; subst.
    + reflexivity.
    + exfalso. apply Hnotin. rewrite E. now apply in_map.
    + exfalso. apply Hnotin. rewrite <- E. now apply in_map.
    + now apply IH.
Qed.

Lemma updates_as_reflag (t mt : string) (l : list ModelRow) :
  activate_id t (deactivate_type mt l) = map (reflag t mt) l.
Proof.
  unfold activate_id, deactivate_type. rewrite map_map.
  apply map_ext. intros r. unfold reflag.
  destruct (module_type r =? mt); simpl;
    destruct (id r =? t); reflexivity.
Qed.

Lemma reflag_id (t mt : string) (r : ModelRow) : id (reflag t mt r) = id r.
Proof.
  unfold reflag. destruct (id r =? t); [reflexivity|].
  destruct (module_type r =? mt); reflexivity.
Qed.

Lemma reflag_module_type (t mt : string) (r : ModelRow) :
  module_type (reflag t mt r) = module_type r.
Proof.
  unfold reflag. destruct (id r =? t); [reflexivity|].
  destruct (module_type r =? mt); reflexivity.
Qed.

Lemma reflag_version (t mt : string) (r : ModelRow) :
  version (reflag t mt r) = version r.
Proof.
  unfold reflag. destruct (id r =? t); [reflexivity|].
  destruct (module_type r =? mt); reflexivity.
Qed.

(** After the two updates, the active rows of the target's type are rows
    carrying the target id, and the other types keep their active rows. *)
Lemma count_active_reflag (t mt0 mt : string) (l : list ModelRow) :
  (forall r, In r l -> id r = t -> module_type r = mt0) ->
  (count_active mt (map (reflag t mt0) l)
   <= if (mt =? mt0)%string then count_id t l else count_active mt l)%nat.
Proof.
  unfold count_active, count_id.
  induction l as [|a l IH]; intros H.
  - simpl. destruct (mt =? mt0); simpl; lia.
  - assert (IH' := IH (fun r Hr => H r (or_intror Hr))). clear IH.
    assert (Ha := H a (or_introl eq_refl)).
    simpl. rewrite reflag_module_type.
    unfold reflag at 1.
    destruct (String.eqb_spec (id a) t) as [Eid|Eid].
    + specialize (Ha Eid).
      destruct (String.eqb_spec mt mt0) as [Emt|Emt].
      * subst mt. rewrite Ha, String.eqb_refl. simpl. lia.
      * destruct (String.eqb_spec (module_type a) mt) as [E|E];
          [congruence|]. simpl.
        destruct (is_active a); simpl; lia.
    + destruct (String.eqb_spec mt mt0) as [Emt|Emt].
      * subst mt.
        destruct (String.eqb_spec (module_type a) mt0) as [E|E]; simpl; lia.
      * destruct (String.eqb_spec (module_type a) mt0) as [E|E].
        -- destruct (String.eqb_spec (module_type a) mt) as [E'|E'];
             [congruence|]. simpl. lia.
        -- destruct (module_type a =? mt); simpl;
             destruct (is_active a); simpl; lia.
Qed.

Lemma count_active_set_active (st : ModelRegistry Blob) (t mt : string) :
  ids_unique (models st) ->
  (count_active mt (models st) <= 1)%nat ->
  (count_active mt (models (snd (set_active_model st t))) <= 1)%nat.
Proof.
  intros Hu Hc. unfold set_active_model.
  destruct (find (fun r => id r =? t) (models st)) as [row|] eqn:Hf;
    simpl; [|exact Hc].
  apply find_some in Hf. destruct Hf as [Hin Hid].
  apply String.eqb_eq in Hid.
  rewrite updates_as_reflag.
  eapply Nat.le_trans.
  - apply count_active_reflag. intros r Hr Hrt.
    f_equal. apply (same_id_same_row (models st)); congruence.
  - destruct (mt =? module_type row)%string; [|exact Hc].
    now apply count_id_unique.
Qed.

Lemma ids_unique_set_active (st : ModelRegistry Blob) (t : string) :
  ids_unique (models st) -> ids_unique (models (snd (set_active_model st t))).
Proof.
  unfold set_active_model, ids_unique.
  destruct (find (fun r => id r =? t) (models st)); simpl; [|trivial].
  intros Hu. rewrite updates_as_reflag, map_map.
  erewrite map_ext; [exact Hu|]. intros r. simpl. apply reflag_id.
Qed.

(** [register_model] step by step. *)
Lemma register_model_cases (st : ModelRegistry Blob) now1 now2 model_id mt
  (module : Obj) ver metrics tec params notes :
  let v := match ver with
           | None => _get_next_version st mt
           | Some v => v
           end in
  let path := pickle_path path_join st mt v now1 in
  let written :=
    {| models_dir := models_dir st; models := models st;
       files := write_file (files st) path (pickle_dump module) |} in
  let out := register_model st now1 now2 model_id mt module ver metrics tec
               params notes in
  match open_error path with
  | Some e => out = (Raise e, st)
  | None =>
      match pickle_error module with
      | Some e => out = (Raise e, written)
      | None =>
          if fits_int64 v && bindable tec then
            if violates_constraints (models st) model_id mt v
            then out = (Raise IntegrityError, written)
            else out
                 = (Return model_id,
                    {| models_dir := models_dir st;
                       models :=
                         (models st ++
                          [ {| id := model_id; module_type := mt;
                               version := v; created_at := now2;
                               file_path := path;
                               metrics := match metrics with
                                          | Some ((_ :: _) as m) => Some m
                                          | _ => None
                                          end;
                               training_examples_count := tec;
                               optimization_params :=
                                 match params with
                                 | Some ((_ :: _) as p) => Some p
                                 | _ => None
                                 end;
                               is_active := false; notes := notes |} ])%list;
                       files := write_file (files st) path
                                  (pickle_dump module) |})
          else out = (Raise OverflowError, written)
      end
  end.
Proof.
  unfold Registry.register_model, pickle_path.
  destruct (open_error _); [reflexivity|].
  destruct (pickle_error module); [reflexivity|].
  destruct (fits_int64 _ && bindable tec); [|reflexivity].
  cbn [negb].
  destruct (violates_constraints _ _ _ _); reflexivity.
Qed.

(** What [register_model] leaves in the table: the old rows, followed on
    success by one inactive row. *)
Lemma register_model_rows (st : ModelRegistry Blob) now1 now2 model_id mt
  (module : Obj) ver metrics tec params notes :
  let out := register_model st now1 now2 model_id mt module ver metrics tec
               params notes in
  ((exists e, fst out = Raise e) /\ models (snd out) = models st) \/
  (fst out = Return model_id /\
   ~ In model_id (map id (models st)) /\
   exists r, models (snd out) = (models st ++ [r])%list /\ id r = model_id /\
             module_type r = mt /\ is_active r = false /\
             version r = match ver with
                         | None => _get_next_version st mt
                         | Some v => v
                         end).
Proof.
  intros out.
  pose proof (register_model_cases st now1 now2 model_id mt module ver metrics
                tec params notes) as H.
  cbv zeta in H. fold out in H.
  assert (Hraise : forall e st', out = (Raise e, st') -> models st' = models st ->
                   (exists e, fst out = Raise e) /\ models (snd out) = models st).
  { intros e st' E Hm. rewrite E. split; [now exists e|exact Hm]. }
  destruct (open_error _) as [e1|]; [left; now apply (Hraise _ _ H)|].
  destruct (pickle_error module) as [e2|]; [left; now apply (Hraise _ _ H)|].
  destruct (fits_int64 _ && bindable tec); [|left; now apply (Hraise _ _ H)].
  match type of H with context [violates_constraints ?a ?b ?c ?d] =>
    destruct (violates_constraints a b c d) eqn:Hv end;
    [left; now apply (Hraise _ _ H)|].
  right. rewrite H. split; [reflexivity|]. split.
  - unfold violates_constraints in Hv. apply orb_false_elim in Hv.
    destruct Hv as [Hv _]. intros Hin. apply in_map_iff in Hin.
    destruct Hin as [r [Hr Hin]].
    assert (existsb (fun r => id r =? model_id) (models st) = true) as Ht.
    { apply existsb_exists. exists r. split; [exact Hin|].
      now apply String.eqb_eq. }
    congruence.
  - eexists. split; [reflexivity|]. simpl. repeat split.
Qed.

Lemma count_active_register (st : ModelRegistry Blob) now1 now2 model_id mt0
  (module : Obj) ver metrics tec params notes (mt : string) :
  count_active mt (models (snd (register_model st now1 now2 model_id mt0
                                  module ver metrics tec params notes)))
  = count_active mt (models st).
Proof.
  destruct (register_model_rows st now1 now2 model_id mt0 module ver metrics
              tec params notes) as [[_ H]|[_ [_ [r [H [_ [_ [Hr _]]]]]]]];
    rewrite H; [reflexivity|].
  rewrite count_active_app. unfold count_active at 2. simpl.
  rewrite Hr, andb_false_r. simpl. lia.
Qed.

Lemma ids_unique_register (st : ModelRegistry Blob) now1 now2 model_id mt0
  (module : Obj) ver metrics tec params notes :
  ids_unique (models st) ->
  ids_unique (models (snd (register_model st now1 now2 model_id mt0
                             module ver metrics tec params notes))).
Proof.
  intros Hu.
  destruct (register_model_rows st now1 now2 model_id mt0 module ver metrics
              tec params notes) as [[_ H]|[_ [Hn [r [H [Hid _]]]]]];
    rewrite H; [exact Hu|].
  unfold ids_unique in *. rewrite map_app. simpl.
  apply NoDup_rev in Hu. rewrite <- (rev_involutive (map id (models st) ++ _)).
  apply NoDup_rev. rewrite rev_app_distr. simpl. constructor; [|exact Hu].
  rewrite <- in_rev. congruence.
Qed.

Lemma step_keeps_invariant (st : ModelRegistry Blob) (c : Call Obj) :
  ids_unique (models st) /\ (forall mt, (count_active mt (models st) <= 1)%nat) ->
  ids_unique (models (step st c))
  /\ (forall mt, (count_active mt (models (step st c)) <= 1)%nat).
Proof.
  intros [Hu Hc]. destruct c as [n1 n2 i mt0 m v me tec pa no|t]; simpl.
  - split; [now apply ids_unique_register|].
    intros mt. rewrite count_active_register. apply Hc.
  - split; [now apply ids_unique_set_active|].
    intros mt. now apply count_active_set_active.
Qed.



(** *** Version numbering *)

Lemma versions_of_app (mt : string) (l1 l2 : list ModelRow) :
  versions_of mt (l1 ++ l2) = (versions_of mt l1 ++ versions_of mt l2)%list.
Proof.
  unfold versions_of. now rewrite filter_app, map_app.
Qed.

Lemma versions_of_reflag (t mt0 mt : string) (l : list ModelRow) :
  versions_of mt (map (reflag t mt0) l) = versions_of mt l.
Proof.
  unfold versions_of. induction l as [|a l IH]; simpl; [reflexivity|].
  rewrite reflag_module_type.
  destruct (module_type a =? mt); simpl; [rewrite reflag_version|];
    now rewrite IH.
Qed.

Lemma from_one_S (n : nat) :
  from_one (S n) = (from_one n ++ [Z.of_nat (S n)])%list.
Proof.
  unfold from_one. now rewrite seq_S, map_app.
Qed.

(** [MAX(version)] only looks at the versions of the module type. *)
Lemma max_version_fold (mt : string) (rows : list ModelRow) (acc : option Z) :
  fold_left
    (fun acc r =>
       if module_type r =? mt then
         Some (match acc with
               | None => version r
               | Some m => Z.max m (version r)
               end)
       else acc) rows acc
  = fold_left
      (fun acc v => Some (match acc with
                          | None => v
                          | Some m => Z.max m v
                          end)) (versions_of mt rows) acc.
Proof.
  unfold versions_of. revert acc.
  induction rows as [|a rows IH]; intros acc; simpl; [reflexivity|].
  destruct (module_type a =? mt); simpl; apply IH.
Qed.

Lemma max_version_from_one (mt : string) (rows : list ModelRow) (n : nat) :
  versions_of mt rows = from_one n ->
  max_version rows mt = match n with
                        | O => None
                        | S _ => Some (Z.of_nat n)
                        end.
Proof.
  unfold max_version. rewrite max_version_fold. intros ->. clear rows.
  induction n as [|n IH]; [reflexivity|].
  rewrite from_one_S, fold_left_app, IH. simpl fold_left.
  destruct n; f_equal; lia.
Qed.

Lemma next_version_from_one (st : ModelRegistry Blob) (mt : string) (n : nat) :
  versions_of mt (models st) = from_one n ->
  _get_next_version st mt = Z.of_nat (S n).
Proof.
  intros H. unfold _get_next_version.
  rewrite (max_version_from_one mt _ n H). destruct n; lia.
Qed.

Lemma step_keeps_gapless (st : ModelRegistry Blob) (c : Call Obj) :
  omits_version c -> gapless (models st) -> gapless (models (step st c)).
Proof.
  intros Ho Hg mt. destruct c as [n1 n2 i mt0 m v me tec pa no|t]; simpl.
  - simpl in Ho. subst v.
    destruct (register_model_rows st n1 n2 i mt0 m None me tec pa no)
      as [[_ H]|[_ [_ [r [H [_ [Hmt [_ Hv]]]]]]]]; rewrite H; [apply Hg|].
    rewrite versions_of_app, length_app.
    unfold versions_of at 2 4. simpl. rewrite Hmt.
    destruct (String.eqb_spec mt0 mt) as [E|E]; simpl.
    + subst mt0. simpl in Hv. rewrite E in Hv.
      rewrite (next_version_from_one st mt _ (Hg mt)) in Hv.
      rewrite Hv, Nat.add_1_r, from_one_S. now rewrite <- Hg.
    + rewrite app_nil_r, Nat.add_0_r. apply Hg.
  - unfold set_active_model.
    destruct (find (fun r => id r =? t) (models st)); simpl; [|apply Hg].
    rewrite updates_as_reflag, versions_of_reflag. apply Hg.
Qed.

Lemma run_keeps_gapless (calls : list (Call Obj)) (st : ModelRegistry Blob) :
  Forall omits_version calls -> gapless (models st) ->
  gapless (models (run calls st)).
Proof.
  revert st. induction calls as [|c calls IH]; intros st Hf Hg; simpl.
  - exact Hg.
  - inversion Hf; subst. apply IH; [assumption|].
    now apply step_keeps_gapless.
Qed.

(** C2.  Starting from an empty registry, after any sequence of calls in
    which every [register_model] omits [version] (whether the calls
    returned or raised), the versions stored for a module type are, in
    registration order, 1, 2, ..., N; the next version the registry hands
    out is N + 1 (1 when the type has no row, the maximum plus one
    otherwise); and a registration under an unused id whose file can be
    opened and whose module can be pickled, with N + 1 and the training
    count inside SQLite's integer range, returns and stores exactly that
    version. *)
Theorem auto_versions_count_from_one (dir : string) (calls : list (Call Obj))
  (mt : string) :
  Forall omits_version calls ->
  let st := run calls (init dir) in
  let n := List.length (versions_of mt (models st)) in
  versions_of mt (models st) = from_one n
  /\ _get_next_version st mt = (Z.of_nat n + 1)%Z
  /\ forall now1 now2 model_id (module : Obj) metrics tec params notes,
       ~ In model_id (map id (models st)) ->
       open_error (pickle_path path_join st mt (Z.of_nat n + 1) now1) = None ->
       pickle_error module = None ->
       fits_int64 (Z.of_nat n + 1) = true ->
       bindable tec = true ->
       let out := register_model st now1 now2 model_id mt module None
                    metrics tec params notes in
       fst out = Return model_id
       /\ versions_of mt (models (snd out)) = from_one (S n).
Proof.
  intros Hf st n.
  assert (Hg : gapless (models st)).
  { apply run_keeps_gapless; [exact Hf|]. intros mt'. reflexivity. }
  assert (Hn : _get_next_version st mt = (Z.of_nat n + 1)%Z).
  { rewrite (next_version_from_one st mt n (Hg mt)). lia. }
  split; [apply Hg|]. split; [exact Hn|].
  intros now1 now2 model_id module metrics tec params notes Hfresh Hopen
    Hpickle Hfit Hbind out.
  assert (Hv : violates_constraints (models st) model_id mt (Z.of_nat n + 1)
               = false).
  { unfold violates_constraints. apply orb_false_intro.
    + destruct (existsb (fun r => id r =? model_id) (models st)) eqn:He;
        [|reflexivity].
      apply existsb_exists in He. destruct He as [r [Hin He]].
      apply String.eqb_eq in He. exfalso. apply Hfresh.
      rewrite <- He. now apply in_map.
    + destruct (existsb _ (models st)) eqn:He; [|reflexivity].
      apply existsb_exists in He. destruct He as [r [Hin He]].
      apply andb_prop in He. destruct He as [Ht Hver].
      apply String.eqb_eq in Ht. apply Z.eqb_eq in Hver.
      assert (Hin' : In (version r) (versions_of mt (models st))).
      { unfold versions_of. apply in_map, filter_In. split; [exact Hin|].
        now apply String.eqb_eq. }
      rewrite (Hg mt) in Hin'. fold n in Hin'. unfold from_one in Hin'.
      apply in_map_iff in Hin'. destruct Hin' as [k [Hk Hin']].
      apply in_seq in Hin'. lia. }
  pose proof (register_model_cases st now1 now2 model_id mt module None
                metrics tec params notes) as H.
  cbv beta iota zeta in H. fold out in H.
  rewrite Hn, Hopen, Hpickle, Hfit, Hbind, Hv in H. cbn [andb] in H.
  rewrite H. split; [reflexivity|]. cbn [snd models].
  rewrite versions_of_app.
  unfold versions_of at 2. simpl. rewrite String.eqb_refl. simpl.
  rewrite from_one_S. f_equal; [apply Hg|]. f_equal. lia.
Qed.

(** *** Loading *)

Lemma select_row_truthy (st : ModelRegistry Blob) (q : Request) :
  truthy q ->
  let '(model_id, mt, v) := request_args q in
  select_row st model_id mt v = Return (find (matches q) (models st)).
Proof.
  destruct q as [mid|mt v|mt]; simpl; unfold select_row.
  - intros H. apply String.eqb_neq in H. now rewrite H.
  - intros [H1 H2]. apply String.eqb_neq in H1. apply Z.eqb_neq in H2.
    now rewrite H1, H2.
  - intros H. apply String.eqb_neq in H. now rewrite H.
Qed.

Lemma load_by_request (st : ModelRegistry Blob) (q : Request) :
  truthy q ->
  (find (matches q) (models st) = None -> load pickle_load st q = Return None)
  /\ (forall row, find (matches q) (models st) = Some row ->
        match read_file (files st) (file_path row) with
        | None => load pickle_load st q = Raise (FileNotFoundError (file_path row))
        | Some b => load pickle_load st q = Return (Some (pickle_load b))
        end).
Proof.
  intros Ht. pose proof (select_row_truthy st q Ht) as Hs.
  unfold load, Registry.load_model.
  destruct (request_args q) as [[model_id mt] v]. rewrite Hs. simpl.
  split.
  - now intros ->.
  - intros row ->. destruct (read_file (files st) (file_path row)); reflexivity.
Qed.


(** *** Register, then load *)

Lemma find_app_fresh (f : ModelRow -> bool) (l : list ModelRow) (r : ModelRow) :
  (forall x, In x l -> f x = false) -> f r = true ->
  find f (l ++ [r]) = Some r.
Proof.
  intros Hl Hr. induction l as [|a l IH]; simpl.
  - now rewrite Hr.
  - rewrite (Hl a (or_introl eq_refl)). apply IH.
    intros x Hx. apply Hl. now right.
Qed.

(** After a successful [register_model] the new row is the one its id
    selects, and its file holds the pickle just written. *)
Lemma register_then_select (st : ModelRegistry Blob) now1 now2 model_id mt
  (module : Obj) ver metrics tec params notes :
  let out := register_model st now1 now2 model_id mt module ver metrics tec
               params notes in
  fst out = Return model_id ->
  exists r, find (matches (ById model_id)) (models (snd out)) = Some r
            /\ read_file (files (snd out)) (file_path r)
               = Some (pickle_dump module).
Proof.
  intros out Hret.
  pose proof (register_model_cases st now1 now2 model_id mt module ver metrics
                tec params notes) as H.
  cbv zeta in H. fold out in H.
  destruct (open_error _); [rewrite H in Hret; discriminate Hret|].
  destruct (pickle_error module); [rewrite H in Hret; discriminate Hret|].
  destruct (fits_int64 _ && bindable tec);
    [|rewrite H in Hret; discriminate Hret].
  match type of H with context [violates_constraints ?a ?b ?c ?d] =>
    destruct (violates_constraints a b c d) eqn:Hv end;
    [rewrite H in Hret; discriminate Hret|].
  rewrite H. cbn [snd models files].
  eexists. split.
  - apply find_app_fresh.
    + intros x Hx. simpl.
      unfold violates_constraints in Hv. apply orb_false_elim in Hv.
      destruct Hv as [Hv _].
      destruct (id x =? model_id) eqn:E; [|reflexivity].
      rewrite <- Hv. symmetry. apply existsb_exists. now exists x.
    + simpl. apply String.eqb_refl.
  - simpl. now rewrite String.eqb_refl.
Qed.

(** C8 (as the code has it).  For a registration under a non-empty id
    that returned, the load by that id that follows returns what unpickling
    the bytes written at registration gives: the file read is the file just
    written, byte for byte. *)
Theorem register_then_load_round_trip (st : ModelRegistry Blob) now1 now2
  model_id mt (module : Obj) ver metrics tec params notes :
  let out := register_model st now1 now2 model_id mt module ver metrics tec
               params notes in
  model_id <> "" ->
  fst out = Return model_id ->
  (exists r, find (matches (ById model_id)) (models (snd out)) = Some r
             /\ read_file (files (snd out)) (file_path r)
                = Some (pickle_dump module))
  /\ load_model (snd out) (Some model_id) None None
     = Return (Some (pickle_load (pickle_dump module))).
Proof.
  intros out Hne Hret.
  destruct (register_then_select st now1 now2 model_id mt module ver metrics
              tec params notes Hret) as [r [Hf Hr]].
  fold out in Hf, Hr. split; [now exists r|].
  destruct (load_by_request (snd out) (ById model_id) Hne) as [_ H].
  specialize (H r Hf). rewrite Hr in H. exact H.
Qed.

(** A model registered under the empty string cannot be loaded by that id:
    [load_model] takes the empty id for no id and raises [ValueError]. *)
Lemma load_empty_id_raises (st : ModelRegistry Blob) now1 now2 mt
  (module : Obj) ver metrics tec params notes :
  let out := register_model st now1 now2 "" mt module ver metrics tec
               params notes in
  load_model (snd out) (Some "") None None
  = Raise (ValueError
             "Must provide model_id, or module_type (with optional version)").
Proof.
  reflexivity.
Qed.

End RegistryFacts.

(** *** The registry on concrete calls *)

Lemma demo_calls_omit_version : Forall Registry.omits_version Demo.calls.
Proof.
  repeat constructor.
Qed.

(** Witness of C2: two rubric registrations and one judge registration,
    interleaved with activations, and then a third rubric registration. *)
Lemma auto_versions_witness :
  let st := Registry.run Demo.pickle Demo.path_join Demo.open_error
              Demo.pickle_error Demo.calls (Registry.init "./dspy_models") in
  let out := Registry.register_model Demo.pickle Demo.path_join
               Demo.open_error Demo.pickle_error st Demo.utc Demo.utc
               "rubric_c" "rubric_optimizer" "module d" None None
               (Some 20%Z) None None in
  Registry.versions_of "rubric_optimizer" (Registry.models st) = [1; 2]%Z
  /\ Registry._get_next_version st "rubric_optimizer" = 3%Z
  /\ fst out = Return "rubric_c"
  /\ Registry.versions_of "rubric_optimizer" (Registry.models (snd out))
     = [1; 2; 3]%Z.
Proof.
  destruct (auto_versions_count_from_one Demo.pickle Demo.path_join
              Demo.open_error Demo.pickle_error "./dspy_models" Demo.calls
              "rubric_optimizer" demo_calls_omit_version) as [H1 [H2 H3]].
  split; [exact H1|]. split; [exact H2|].
  refine (H3 Demo.utc Demo.utc "rubric_c" "module d" None (Some 20%Z) None
            None _ eq_refl eq_refl eq_refl eq_refl).
  simpl. intros [H|[H|[H|[]]]]; discriminate H.
Defined.



(** Counterexample to C8 as stated: on an empty registry, registering
    "module a" under the empty id returns, and loading by that id raises
    [ValueError] instead of returning the module. *)
Lemma empty_id_cannot_be_loaded :
  fst (Registry.register_model Demo.pickle Demo.path_join
      Demo.open_error Demo.pickle_error
         (Registry.init "./dspy_models") Demo.utc Demo.utc ""
         "rubric_optimizer" "module a" None None None None None)
  = Return ""
  /\ Registry.load_model Demo.pickle
       (snd (Registry.register_model Demo.pickle Demo.path_join
           Demo.open_error Demo.pickle_error
               (Registry.init "./dspy_models") Demo.utc Demo.utc ""
               "rubric_optimizer" "module a" None None None None None))
       (Some "") None None
     = Raise (ValueError
                "Must provide model_id, or module_type (with optional version)").
Proof.
  split; reflexivity.
Qed.

(** Witness of C8: "module a" registered as "rubric_a" on an empty
    registry and loaded back. *)
Lemma register_then_load_witness :
  let out := Registry.register_model Demo.pickle Demo.path_join
      Demo.open_error Demo.pickle_error
               (Registry.init "./dspy_models") Demo.utc Demo.utc "rubric_a"
               "rubric_optimizer" "module a" None None None None None in
  (exists r, find (Registry.matches (Registry.ById "rubric_a"))
                  (Registry.models (snd out)) = Some r
             /\ Registry.read_file (Registry.files (snd out))
                  (Registry.file_path r) = Some (Demo.pickle "module a"))
  /\ Registry.load_model Demo.pickle (snd out) (Some "rubric_a") None None
     = Return (Some (Demo.pickle (Demo.pickle "module a"))).
Proof.
  refine (register_then_load_round_trip Demo.pickle Demo.pickle Demo.path_join
      Demo.open_error Demo.pickle_error
            (Registry.init "./dspy_models") Demo.utc Demo.utc "rubric_a"
            "rubric_optimizer" "module a" None None None None None _ eq_refl).
  discriminate.
Defined.

(** * Properties of the experiment store *)

Section ABTestingFacts.
Import ABTesting.
Local Open Scope float_scope.

(** Squaring is the only step of the variance that can raise. *)
Lemma sum_sq_dev_from_raises (xs : list float) (acc m : float) (e : Exn) :
  PyFloat.sum_sq_dev_from acc m xs = Raise e -> e = OverflowError.
Proof.
  revert acc. induction xs as [|x xs IH]; intros acc; simpl.
  - discriminate.
  - unfold PyFloat.pow2.
    destruct (PyFloat.is_finite (x - m) && is_infinity ((x - m) * (x - m)));
      simpl.
    + intros H. now inversion H.
    + apply IH.
Qed.

Lemma sum_sq_dev_raises (xs : list float) (m : float) (e : Exn) :
  PyFloat.sum_sq_dev m xs = Raise e -> e = OverflowError.
Proof.
  apply sum_sq_dev_from_raises.
Qed.

Lemma pooled_se_raises (b o : list float) (e : Exn) :
  pooled_se b o = Raise e -> e = OverflowError.
Proof.
  unfold pooled_se.
  destruct (PyFloat.sum_sq_dev (PyFloat.mean b) b) as [s1|e1] eqn:H1; simpl.
  - destruct (PyFloat.sum_sq_dev (PyFloat.mean o) o) as [s2|e2] eqn:H2; simpl.
    + discriminate.
    + intros H. inversion H; subst. now apply sum_sq_dev_raises in H2.
  - intros H. inversion H; subst. now apply sum_sq_dev_raises in H1.
Qed.

(** [_calculate_significance] in terms of the pooled standard error. *)
Lemma significance_by_pooled_se (b o : list float) (cl : float) :
  _calculate_significance b o cl =
  if (List.length b <? 3)%nat || (List.length o <? 3)%nat
  then Return (false, 1.0)
  else
    se <- pooled_se b o ;;
    if se =? 0 then Return (false, 1.0)
    else
      let t_stat := abs ((PyFloat.mean o - PyFloat.mean b) / se) in
      let p_value :=
        if 2.0 <? t_stat then 0.05
        else if 1.96 <? t_stat then 0.05
        else 0.1 in
      Return (p_value <? 1.0 - cl, p_value).
Proof.
  unfold _calculate_significance, pooled_se.
  destruct ((List.length b <? 3)%nat || (List.length o <? 3)%nat);
    [reflexivity|].
  destruct (PyFloat.sum_sq_dev (PyFloat.mean b) b); simpl; [|reflexivity].
  destruct (PyFloat.sum_sq_dev (PyFloat.mean o) o); reflexivity.
Qed.

(** The shape of every outcome of [_calculate_significance]. *)
Lemma significance_shape (b o : list float) (cl : float) :
  match _calculate_significance b o cl with
  | Raise e => e = OverflowError
  | Return (sig, p) =>
      (sig = false /\ p = 1.0)
      \/ ((p = 0.05 \/ p = 0.1) /\ sig = (p <? 1.0 - cl))
  end.
Proof.
  rewrite significance_by_pooled_se.
  destruct ((List.length b <? 3)%nat || (List.length o <? 3)%nat);
    [left; split; reflexivity|].
  destruct (pooled_se b o) as [se|e] eqn:Hse; simpl.
  - destruct (se =? 0); [left; split; reflexivity|].
    right. split; [|reflexivity].
    destruct (2.0 <? abs ((PyFloat.mean o - PyFloat.mean b) / se));
      [now left|].
    destruct (1.96 <? abs ((PyFloat.mean o - PyFloat.mean b) / se));
      [now left|now right].
  - now apply pooled_se_raises in Hse.
Qed.

Lemma confidence_interval_raises (b o : list float) (cl : float) (e : Exn) :
  _calculate_confidence_interval b o cl = Raise e -> e = OverflowError.
Proof.
  unfold _calculate_confidence_interval.
  destruct b as [|x b]; [discriminate|].
  destruct o as [|y o]; [discriminate|].
  destruct (PyFloat.sum_sq_dev (PyFloat.mean (x :: b)) (x :: b))
    as [s1|e1] eqn:H1; simpl bind.
  - destruct (PyFloat.sum_sq_dev (PyFloat.mean (y :: o)) (y :: o))
      as [s2|e2] eqn:H2; simpl bind.
    + discriminate.
    + intros H. inversion H; subst. now apply sum_sq_dev_raises in H2.
  - intros H. inversion H; subst. now apply sum_sq_dev_raises in H1.
Qed.

(** What [analyze_results] reports is what [_calculate_significance]
    returned on the two score lists; with at least one recorded evaluation
    the only exception is an overflowing square. *)
Lemma analyze_results_significance (st : ABTestingFramework)
  (experiment_id metric_key : string) (cl : float) :
  rows_of st experiment_id <> [] ->
  match analyze_results st experiment_id metric_key cl with
  | Raise e => e = OverflowError
  | Return r =>
      _calculate_significance
        (scores_of "baseline" metric_key (rows_of st experiment_id))
        (scores_of "optimized" metric_key (rows_of st experiment_id)) cl
      = Return (is_significant r, p_value r)
  end.
Proof.
  unfold analyze_results, rows_of. intros Hrows.
  destruct (filter _ (ab_evaluations st)) as [|row rows] eqn:Hf;
    [contradiction|].
  set (bs := scores_of "baseline" metric_key (row :: rows)).
  set (os := scores_of "optimized" metric_key (row :: rows)).
  destruct (_calculate_significance bs os cl) as [[sig p]|e] eqn:Hs;
    simpl bind.
  - destruct (_calculate_confidence_interval bs os cl) as [ci|e] eqn:Hc;
      simpl bind.
    + reflexivity.
    + now apply confidence_interval_raises in Hc.
  - pose proof (significance_shape bs os cl) as H. now rewrite Hs in H.
Qed.

(** *** Thresholds in binary64 *)

Lemma SF_not_lt_of_le (m0 : positive) (e0 : Z) (t : spec_float) :
  SFleb t (S754_finite false m0 e0) = true ->
  SFltb (S754_finite false m0 e0) t = false.
Proof.
  unfold SFleb, SFltb, SFcompare.
  destruct t as [s|s| |s m e];
    try (destruct s; intros; reflexivity || discriminate).
  - intros; reflexivity.
  - destruct s; [reflexivity|].
    rewrite (Z.compare_antisym e e0).
    destruct (e ?= e0)%Z; cbn [CompOpp]; intros H; try reflexivity;
      try discriminate H. revert H.
    change (PosDef.Pos.compare_cont Eq) with Pos.compare.
    rewrite (Pos.compare_antisym m m0).
    destruct (m ?= m0)%positive; cbn [CompOpp]; intros H; try reflexivity;
      discriminate H.
Qed.

Lemma SF_not_lt_of_le_succ (m0 m1 : positive) (e0 : Z) (t : spec_float) :
  SFleb t (S754_finite false m0 e0) = true ->
  SFltb (S754_finite false m1 (e0 + 1)) t = false.
Proof.
  unfold SFleb, SFltb, SFcompare.
  destruct t as [s|s| |s m e];
    try (destruct s; intros; reflexivity || discriminate).
  - intros; reflexivity.
  - destruct s; [reflexivity|].
    destruct (e ?= e0)%Z eqn:Ee; intros H; try discriminate H; clear H.
    + apply Z.compare_eq in Ee. subst e.
      assert (Hc : (e0 + 1 ?= e0)%Z = Gt) by (apply Z.compare_gt_iff; lia).
      now rewrite Hc.
    + assert (Hc : (e0 + 1 ?= e)%Z = Gt).
      { apply Z.compare_gt_iff. rewrite Z.compare_lt_iff in Ee. lia. }
      now rewrite Hc.
Qed.

Lemma spec_of_0_05 : Prim2SF 0.05 = S754_finite false 7205759403792794 (-57).
Proof.
  vm_compute. reflexivity.
Qed.

Lemma spec_of_0_1 : Prim2SF 0.1 = S754_finite false 7205759403792794 (-57 + 1).
Proof.
  vm_compute. reflexivity.
Qed.

(** A threshold of at most 0.05 is exceeded by neither coarse p-value. *)
Lemma coarse_p_not_below (thr p : float) :
  (thr <=? 0.05) = true -> p = 0.05 \/ p = 0.1 -> (p <? thr) = false.
Proof.
  intros H Hp. rewrite leb_spec, spec_of_0_05 in H. rewrite ltb_spec.
  destruct Hp as [-> | ->].
  - rewrite spec_of_0_05. now apply SF_not_lt_of_le.
  - rewrite spec_of_0_1.
    now apply SF_not_lt_of_le_succ with (m0 := 7205759403792794%positive).
Qed.

Lemma float_neq_by_eqb (x y : float) :
  (x =? y) = false -> (y =? y) = true -> x <> y.
Proof.
  intros H1 H2 E. subst x. congruence.
Qed.

(** *** The float of a list length is positive *)

Lemma shr_1_m (mrs : shr_record) :
  (0 <= shr_m mrs)%Z -> shr_m (shr_1 mrs) = Z.div2 (shr_m mrs).
Proof.
  destruct mrs as [m r s]. simpl.
  destruct m as [|[p|p|]|p]; simpl; intros H; try reflexivity; lia.
Qed.

Lemma iter_shr_1_m (n : positive) (mrs : shr_record) :
  (0 <= shr_m mrs)%Z ->
  shr_m (iter_pos shr_1 n mrs) = (shr_m mrs / 2 ^ Zpos n)%Z.
Proof.
  revert mrs. induction n as [n IH|n IH|]; intros mrs Hm; simpl iter_pos.
  - assert (Hp : (0 < 2 ^ Zpos n)%Z) by (apply Z.pow_pos_nonneg; lia).
    assert (H1 : (0 <= shr_m (shr_1 mrs))%Z).
    { rewrite shr_1_m, Z.div2_div by exact Hm. apply Z.div_pos; lia. }
    assert (H2 : (0 <= shr_m (iter_pos shr_1 n (shr_1 mrs)))%Z).
    { rewrite IH by exact H1. apply Z.div_pos; [exact H1|exact Hp]. }
    rewrite IH, IH, shr_1_m, Z.div2_div by assumption.
    replace (Zpos n~1) with (1 + Zpos n + Zpos n)%Z by lia.
    rewrite !Z.pow_add_r by lia. change (2 ^ 1)%Z with 2%Z.
    rewrite !Z.div_div by lia. f_equal. ring.
  - assert (Hp : (0 < 2 ^ Zpos n)%Z) by (apply Z.pow_pos_nonneg; lia).
    assert (H2 : (0 <= shr_m (iter_pos shr_1 n mrs))%Z).
    { rewrite IH by exact Hm. apply Z.div_pos; [exact Hm|exact Hp]. }
    rewrite IH, IH by assumption.
    replace (Zpos n~0) with (Zpos n + Zpos n)%Z by lia.
    rewrite !Z.pow_add_r by lia.
    rewrite !Z.div_div by lia. reflexivity.
  - rewrite shr_1_m by exact Hm. now rewrite Z.div2_div.
Qed.

Lemma digits2_pos_bound (p : positive) :
  (2 ^ (Zpos (digits2_pos p) - 1) <= Zpos p)%Z.
Proof.
  induction p as [p IH|p IH|]; simpl digits2_pos.
  - rewrite Pos2Z.inj_succ.
    replace (Z.succ (Zpos (digits2_pos p)) - 1)%Z
      with (Z.succ (Zpos (digits2_pos p) - 1))%Z by lia.
    rewrite Z.pow_succ_r by lia. lia.
  - rewrite Pos2Z.inj_succ.
    replace (Z.succ (Zpos (digits2_pos p)) - 1)%Z
      with (Z.succ (Zpos (digits2_pos p) - 1))%Z by lia.
    rewrite Z.pow_succ_r by lia. lia.
  - simpl. lia.
Qed.

(** A positive mantissa with an exponent not below [emin] stays positive
    under the shift to the format. *)
Lemma shr_fexp_pos (m e : Z) (l : location) :
  (0 < m)%Z -> (SpecFloat.emin prec emax <= e)%Z ->
  (0 < shr_m (fst (shr_fexp prec emax m e l)))%Z
  /\ (SpecFloat.emin prec emax <= snd (shr_fexp prec emax m e l))%Z.
Proof.
  intros Hm He. unfold shr_fexp, shr.
  assert (Hrec : shr_m (shr_record_of_loc m l) = m)
    by (destruct l as [|[]]; reflexivity).
  destruct m as [|p|p]; try lia. cbn [Zdigits2].
  pose proof (digits2_pos_bound p) as Hd.
  set (d := Zpos (digits2_pos p)) in *.
  destruct (SpecFloat.fexp prec emax (d + e) - e)%Z as [|n|n] eqn:En; cbn [fst snd];
    try (rewrite Hrec; split; [lia|exact He]).
  rewrite iter_shr_1_m by (rewrite Hrec; lia). rewrite Hrec.
  assert (Hn : (Zpos n <= d - 1)%Z).
  { unfold SpecFloat.fexp, SpecFloat.emin, prec, emax in *. lia. }
  split; [|lia].
  apply Z.div_str_pos. split; [apply Z.pow_pos_nonneg; lia|].
  eapply Z.le_trans; [|exact Hd]. apply Z.pow_le_mono_r; lia.
Qed.

Lemma round_nearest_even_pos (m : Z) (l : location) :
  (0 < m)%Z -> (0 < round_nearest_even m l)%Z.
Proof.
  intros H. unfold round_nearest_even.
  destruct l as [|[]]; try lia. destruct (Z.even m); lia.
Qed.

Lemma binary_round_aux_pos (m e : Z) :
  (0 < m)%Z -> (SpecFloat.emin prec emax <= e)%Z ->
  SFltb (S754_zero false) (binary_round_aux prec emax false m e loc_Exact)
  = true.
Proof.
  intros Hm He. unfold binary_round_aux.
  destruct (shr_fexp_pos m e loc_Exact Hm He) as [H1 H2].
  destruct (shr_fexp prec emax m e loc_Exact) as [mrs' e']. cbn [fst snd] in *.
  pose proof (round_nearest_even_pos (shr_m mrs') (loc_of_shr_record mrs') H1)
    as Hr.
  destruct (shr_fexp_pos _ e' loc_Exact Hr H2) as [H3 _].
  destruct (shr_fexp prec emax _ e' loc_Exact) as [mrs'' e'']. cbn [fst] in *.
  destruct (shr_m mrs'') as [|p|p]; try lia.
  destruct (e'' <=? emax - prec)%Z; reflexivity.
Qed.

Lemma binary_normalize_pos (p : positive) :
  SFltb (S754_zero false) (binary_normalize prec emax (Zpos p) 0 false) = true.
Proof.
  unfold binary_normalize, binary_round.
  destruct (shl_align p 0 (SpecFloat.fexp prec emax (Zpos (digits2_pos p) + 0)))
    as [mz ez] eqn:Ha.
  apply binary_round_aux_pos; [lia|].
  unfold shl_align in Ha.
  destruct (SpecFloat.fexp prec emax (Zpos (digits2_pos p) + 0) - 0)%Z eqn:E;
    inversion Ha; subst; unfold SpecFloat.fexp, SpecFloat.emin, prec, emax in *; lia.
Qed.

Lemma of_len_pos (k : nat) :
  (0 < k)%nat -> (Z.of_nat k < 2 ^ 63)%Z -> (0 <? PyFloat.of_len k) = true.
Proof.
  intros Hk Hb. unfold PyFloat.of_len.
  rewrite ltb_spec, of_uint63_spec, Uint63.of_Z_spec.
  rewrite Z.mod_small by (change Uint63.wB with (2 ^ 63)%Z; lia).
  destruct (Z.of_nat k) as [|p|p] eqn:E; try lia.
  apply binary_normalize_pos.
Qed.

(** Zero divided by a positive float is zero. *)
Lemma zero_div_pos (d : float) : (0 <? d) = true -> 0 / d = 0.
Proof.
  intros H. apply Prim2SF_inj. rewrite div_spec.
  rewrite ltb_spec in H. change (Prim2SF 0) with (S754_zero false) in *.
  unfold SFltb, SFcompare in H. unfold SF64div, SFdiv.
  destruct (Prim2SF d) as [s|s| |s m e]; try discriminate H;
    destruct s; try discriminate H; reflexivity.
Qed.

(** *** Groups of identical scores *)

Lemma finite_not_infinity (b : float) (s : bool) :
  PyFloat.is_finite b = true -> Prim2SF b <> S754_infinity s.
Proof.
  unfold PyFloat.is_finite, is_infinity. intros H E.
  apply andb_prop in H. destruct H as [_ H].
  rewrite FloatAxioms.eqb_spec, abs_spec, E in H. discriminate H.
Qed.

(** The difference of a finite float and a float equal to it is a zero. *)
Lemma sub_equal_zero (b m : float) :
  PyFloat.is_finite b = true -> (m =? b) = true ->
  exists s, Prim2SF (b - m) = S754_zero s.
Proof.
  intros Hfin Heq. rewrite sub_spec.
  rewrite FloatAxioms.eqb_spec in Heq. unfold SFeqb, SFcompare in Heq.
  pose proof (finite_not_infinity b) as Hinf.
  unfold SF64sub, SFsub.
  destruct (Prim2SF b) as [sb|sb| |sb mb eb];
    destruct (Prim2SF m) as [sm|sm| |sm mm em]; try discriminate Heq;
    try (exfalso; now apply (Hinf sb));
    try (destruct sm; discriminate Heq);
    try (destruct sb; discriminate Heq).
  - destruct sb, sm; eexists; reflexivity.
  - assert (E : sm = sb /\ em = eb /\ mm = mb).
    { destruct sm, sb; try discriminate Heq;
        destruct (em ?= eb)%Z eqn:Ee; try discriminate Heq;
        apply Z.compare_eq in Ee;
        change (PosDef.Pos.compare_cont Eq mm mb) with (Pos.compare mm mb)
          in Heq;
        destruct (mm ?= mb)%positive eqn:Em; try discriminate Heq;
        apply Pos.compare_eq in Em; now repeat split. }
    destruct E as [-> [-> ->]]. rewrite Z.sub_diag. exists false. reflexivity.
Qed.

Lemma pow2_of_zero (d : float) (s : bool) :
  Prim2SF d = S754_zero s -> PyFloat.pow2 d = Return 0.
Proof.
  intros H. destruct s.
  - change (S754_zero true) with (Prim2SF (-0)) in H.
    apply Prim2SF_inj in H. subst d. vm_compute. reflexivity.
  - change (S754_zero false) with (Prim2SF 0) in H.
    apply Prim2SF_inj in H. subst d. vm_compute. reflexivity.
Qed.

(** The squared deviations of identical scores from a mean equal to them
    add up to zero. *)
Lemma sum_sq_dev_identical (b m : float) (n : nat) :
  PyFloat.is_finite b = true -> (m =? b) = true ->
  PyFloat.sum_sq_dev m (repeat b n) = Return 0.
Proof.
  intros Hfin Heq. unfold PyFloat.sum_sq_dev.
  destruct (sub_equal_zero b m Hfin Heq) as [s Hs].
  induction n as [|n IH]; [reflexivity|].
  simpl. rewrite (pow2_of_zero _ s Hs). simpl bind.
  change (0 + 0) with 0. exact IH.
Qed.

Lemma pooled_se_identical (b o : float) (n m : nat) :
  PyFloat.is_finite b = true -> PyFloat.is_finite o = true ->
  (PyFloat.mean (repeat b n) =? b) = true ->
  (PyFloat.mean (repeat o m) =? o) = true ->
  (Z.of_nat n < 2 ^ 63)%Z -> (Z.of_nat m < 2 ^ 63)%Z ->
  (2 <= n)%nat -> (2 <= m)%nat ->
  pooled_se (repeat b n) (repeat o m) = Return 0.
Proof.
  intros Hb Ho Hmb Hmo Hn Hm Hn2 Hm2. unfold pooled_se.
  rewrite (sum_sq_dev_identical b _ n Hb Hmb). simpl bind.
  rewrite (sum_sq_dev_identical o _ m Ho Hmo). simpl bind.
  rewrite !repeat_length.
  rewrite (zero_div_pos (PyFloat.of_len (n - 1))) by (apply of_len_pos; lia).
  rewrite (zero_div_pos (PyFloat.of_len (m - 1))) by (apply of_len_pos; lia).
  rewrite (zero_div_pos (PyFloat.of_len n)) by (apply of_len_pos; lia).
  rewrite (zero_div_pos (PyFloat.of_len m)) by (apply of_len_pos; lia).
  reflexivity.
Qed.

Lemma confidence_interval_identical (b o : float) (n m : nat) (cl : float) :
  PyFloat.is_finite b = true -> PyFloat.is_finite o = true ->
  (PyFloat.mean (repeat b n) =? b) = true ->
  (PyFloat.mean (repeat o m) =? o) = true ->
  exists ci, _calculate_confidence_interval (repeat b n) (repeat o m) cl
             = Return ci.
Proof.
  intros Hb Ho Hmb Hmo. unfold _calculate_confidence_interval.
  pose proof (sum_sq_dev_identical b _ n Hb Hmb) as H1.
  pose proof (sum_sq_dev_identical o _ m Ho Hmo) as H2.
  destruct (repeat b n) as [|x xs]; [eexists; reflexivity|].
  destruct (repeat o m) as [|y ys]; [eexists; reflexivity|].
  rewrite H1. simpl bind. rewrite H2. simpl bind. eexists. reflexivity.
Qed.

(** C3 (as the code has it).  For two groups of identical finite scores
    whose computed means compare equal to the common scores (as the means
    of [0.7]*4 and [0.9]*4 do), each of fewer than 2^63 scores: with at
    least three scores in each group the pooled standard error is exactly
    zero; [_calculate_significance] returns [(False, 1.0)] whatever the
    difference of the means and the confidence level; and [analyze_results]
    on an experiment that has these scores returns, with
    [is_significant = False] and [p_value = 1.0].  Any group with fewer
    than three scores gives [(False, 1.0)] as well. *)
Theorem identical_scores_not_significant (b o : float) (n m : nat)
  (cl : float) :
  PyFloat.is_finite b = true -> PyFloat.is_finite o = true ->
  (PyFloat.mean (repeat b n) =? b) = true ->
  (PyFloat.mean (repeat o m) =? o) = true ->
  (Z.of_nat n < 2 ^ 63)%Z -> (Z.of_nat m < 2 ^ 63)%Z ->
  ((3 <= n)%nat -> (3 <= m)%nat ->
   pooled_se (repeat b n) (repeat o m) = Return 0)
  /\ _calculate_significance (repeat b n) (repeat o m) cl = Return (false, 1.0)
  /\ (forall st experiment_id metric_key,
        rows_of st experiment_id <> [] ->
        scores_of "baseline" metric_key (rows_of st experiment_id)
        = repeat b n ->
        scores_of "optimized" metric_key (rows_of st experiment_id)
        = repeat o m ->
        exists r, analyze_results st experiment_id metric_key cl = Return r
                  /\ is_significant r = false /\ p_value r = 1.0
                  /\ baseline_count r = n /\ optimized_count r = m)
  /\ (forall bs os, (List.length bs < 3 \/ List.length os < 3)%nat ->
        _calculate_significance bs os cl = Return (false, 1.0)).
Proof.
  intros Hb Ho Hmb Hmo Hn Hm.
  assert (Hsmall : forall bs os,
             ((List.length bs <? 3)%nat || (List.length os <? 3)%nat) = true ->
             _calculate_significance bs os cl = Return (false, 1.0)).
  { intros bs os H. rewrite significance_by_pooled_se. now rewrite H. }
  assert (Hsig : _calculate_significance (repeat b n) (repeat o m) cl
                 = Return (false, 1.0)).
  { destruct ((List.length (repeat b n) <? 3)%nat
              || (List.length (repeat o m) <? 3)%nat) eqn:Hl;
      [now apply Hsmall|].
    rewrite significance_by_pooled_se, Hl.
    apply orb_false_elim in Hl. destruct Hl as [H1 H2].
    rewrite repeat_length in H1, H2.
    apply Nat.ltb_ge in H1. apply Nat.ltb_ge in H2.
    rewrite pooled_se_identical by (assumption || lia). reflexivity. }
  split; [intros; apply pooled_se_identical; assumption || lia|].
  split; [exact Hsig|]. split.
  - intros st experiment_id metric_key Hrows Hbs Hos.
    destruct (confidence_interval_identical b o n m cl Hb Ho Hmb Hmo)
      as [ci Hci].
    unfold analyze_results. fold (rows_of st experiment_id).
    destruct (rows_of st experiment_id) as [|row rows] eqn:Hr;
      [contradiction|].
    rewrite Hbs, Hos, Hsig, Hci. simpl bind. eexists.
    split; [reflexivity|]. cbn. rewrite !repeat_length. repeat split.
  - intros bs os H. apply Hsmall. apply orb_true_iff.
    destruct H as [H|H]; [left|right]; now apply Nat.ltb_lt.
Qed.

(** Witness of C3: baseline [0.7]*4 against optimized [0.9]*4, and the
    experiment of [Demo.constant4] that records them. *)
Lemma identical_scores_witness :
  pooled_se [0.7; 0.7; 0.7; 0.7] [0.9; 0.9; 0.9; 0.9] = Return 0
  /\ exists r,
       analyze_results Demo.constant4 "exp_demo" "primary_score" 0.95
       = Return r
       /\ is_significant r = false /\ p_value r = 1.0
       /\ baseline_count r = 4%nat /\ optimized_count r = 4%nat.
Proof.
  assert (H2 : (Z.of_nat 4 < 2 ^ 63)%Z) by (vm_compute; reflexivity).
  destruct (identical_scores_not_significant 0.7 0.9 4 4 0.95
              eq_refl eq_refl eq_refl eq_refl H2 H2) as [Hse [_ [Hres _]]].
  split.
  - apply Hse; repeat constructor.
  - apply (Hres Demo.constant4 "exp_demo"%string "primary_score"%string);
      [vm_compute; discriminate|reflexivity|reflexivity].
Defined.

(** Counterexample to C3 as stated: three identical baseline scores 0.7 and
    three identical optimized scores 0.9.  The mean of the baseline group
    rounds to 0.69999999999999984, the pooled standard error is not zero,
    and the outcome is [(True, 0.05)] at the default confidence level. *)
Lemma identical_scores_significant :
  ((PyFloat.mean [0.7; 0.7; 0.7] =? 0.7) = false)
  /\ _calculate_significance [0.7; 0.7; 0.7] [0.9; 0.9; 0.9] 0.95
     = Return (true, 0.05)
  /\ match analyze_results Demo.constant3 "exp_demo" "primary_score" 0.95 with
     | Return r => is_significant r = true /\ p_value r = 0.05
     | Raise _ => False
     end.
Proof.
  vm_compute. repeat split.
Qed.

(** C10 (as the code has it).  For an experiment with at least one
    recorded evaluation, [analyze_results] either raises [OverflowError]
    (a squared deviation does not fit a float) or returns with [p_value]
    one of 1.0, 0.05, 0.1, where 1.0 comes with [is_significant = False]
    and otherwise [is_significant] is [p_value < 1.0 - confidence_level]
    in binary64.  It is [False] whenever [1.0 - confidence_level] is at
    most 0.05; at the default 0.95 the difference is 0.050000000000000044
    and [is_significant] is [True] exactly when [p_value] is 0.05. *)
Theorem significance_at_confidence (st : ABTestingFramework)
  (experiment_id metric_key : string) (cl : float) :
  rows_of st experiment_id <> [] ->
  match analyze_results st experiment_id metric_key cl with
  | Raise e => e = OverflowError
  | Return r =>
      ((is_significant r = false /\ p_value r = 1.0)
       \/ ((p_value r = 0.05 \/ p_value r = 0.1)
           /\ is_significant r = (p_value r <? 1.0 - cl)))
      /\ ((1.0 - cl <=? 0.05) = true -> is_significant r = false)
      /\ (cl = 0.95 -> (is_significant r = true <-> p_value r = 0.05))
  end.
Proof.
  intros Hrows.
  pose proof (analyze_results_significance st experiment_id metric_key cl Hrows)
    as H.
  destruct (analyze_results st experiment_id metric_key cl) as [r|e];
    [|exact H].
  pose proof (significance_shape
                (scores_of "baseline" metric_key (rows_of st experiment_id))
                (scores_of "optimized" metric_key (rows_of st experiment_id))
                cl) as Hs.
  rewrite H in Hs. split; [exact Hs|]. split.
  - intros Hthr. destruct Hs as [[Hf _]|[Hp Hsig]]; [exact Hf|].
    rewrite Hsig. now apply coarse_p_not_below.
  - intros ->. destruct Hs as [[Hf Hp]|[[Hp|Hp] Hsig]].
    + rewrite Hf, Hp. split; [discriminate|].
      intros E. exfalso. revert E. apply float_neq_by_eqb; reflexivity.
    + rewrite Hsig, Hp. split; [reflexivity|]. intros _. reflexivity.
    + rewrite Hsig, Hp. split.
      * intros E. vm_compute in E. discriminate E.
      * intros E. exfalso. revert E. apply float_neq_by_eqb; reflexivity.
Qed.

(** Counterexample to C10 as stated: three baseline scores 0.5, 0.5625,
    0.625 and three optimized scores 0.75, 0.8125, 0.875 at the default
    confidence level 0.95 give [is_significant = True] with
    [p_value = 0.05], because [1.0 - 0.95] is 0.050000000000000044. *)
Lemma significant_at_default_confidence :
  (1.0 - 0.95 = 0.050000000000000044)
  /\ ((0.05 <? 1.0 - 0.95) = true)
  /\ (0.95 <=? 0.95) = true
  /\ rows_of Demo.separated "exp_demo" <> []
  /\ match analyze_results Demo.separated "exp_demo" "primary_score" 0.95 with
     | Return r =>
         is_significant r = true /\ p_value r = 0.05
         /\ baseline_count r = 3%nat /\ optimized_count r = 3%nat
     | Raise _ => False
     end.
Proof.
  vm_compute. repeat split. discriminate.
Qed.

(** Witness of C10: the same experiment. *)
Lemma significance_at_confidence_witness :
  match analyze_results Demo.separated "exp_demo" "primary_score" 0.95 with
  | Raise e => e = OverflowError
  | Return r =>
      ((is_significant r = false /\ p_value r = 1.0)
       \/ ((p_value r = 0.05 \/ p_value r = 0.1)
           /\ is_significant r = (p_value r <? 1.0 - 0.95)))
      /\ ((1.0 - 0.95 <=? 0.05) = true -> is_significant r = false)
      /\ (0.95 = 0.95 -> (is_significant r = true <-> p_value r = 0.05))
  end.
Proof.
  apply (significance_at_confidence Demo.separated "exp_demo" "primary_score"
           0.95).
  vm_compute. discriminate.
Defined.

(** *** Creating experiments and recording evaluations *)

(** C6 (as the code has it).  [create_experiment] does not look at
    [split_ratio]: for every value, inside or outside (0, 1], a call whose
    generated id is not yet in the table returns that id and appends one
    experiment row (status active), leaving the evaluations alone. *)
Theorem create_experiment_any_split_ratio (st : ABTestingFramework)
  (uuid_hex now name mt : string) (baseline_model_id optimized_model_id : option string)
  (split_ratio : float) (notes : option string) :
  existsb (fun e => (id e =? "exp_" ++ hex12 uuid_hex)%string) (experiments st)
  = false ->
  create_experiment st uuid_hex now name mt baseline_model_id
    optimized_model_id split_ratio notes
  = (Return ("exp_" ++ hex12 uuid_hex)%string,
     {| experiments :=
          (experiments st ++
           [ {| id := ("exp_" ++ hex12 uuid_hex)%string; name := name;
                module_type := mt; baseline_model_id := baseline_model_id;
                optimized_model_id := optimized_model_id;
                split_ratio := bind_real split_ratio;
                created_at := now; status := "active"; notes := notes |} ])%list;
        ab_evaluations := ab_evaluations st |}).
Proof.
  intros H. unfold create_experiment. now rewrite H.
Qed.

(** Counterexample to C6 as stated: split ratios 1.5 and -0.25 lie outside
    (0, 1], yet the call returns the new id and the row is stored. *)
Lemma split_ratio_not_validated :
  (1.5 <=? 1) = false /\ (0 <? -0.25) = false
  /\ fst (create_experiment init "0123456789abcdef0123456789abcdef" Demo.utc
            "demo" "rubric_optimizer" None None 1.5 None)
     = Return "exp_0123456789ab"%string
  /\ map split_ratio
       (experiments
          (snd (create_experiment init "0123456789abcdef0123456789abcdef"
                  Demo.utc "demo" "rubric_optimizer" None None 1.5 None)))
     = [Some 1.5]
  /\ fst (create_experiment init "0123456789abcdef0123456789abcdef" Demo.utc
            "demo" "rubric_optimizer" None None (-0.25) None)
     = Return "exp_0123456789ab"%string.
Proof.
  vm_compute. repeat split.
Qed.

(** Witness of C6: the first experiment of a store, with split ratio 1.5. *)
Lemma create_experiment_any_split_ratio_witness :
  create_experiment init "0123456789abcdef0123456789abcdef" Demo.utc "demo"
    "rubric_optimizer" None None 1.5 None
  = (Return ("exp_" ++ hex12 "0123456789abcdef0123456789abcdef")%string,
     {| experiments :=
          (experiments init ++
           [ {| id := ("exp_" ++ hex12 "0123456789abcdef0123456789abcdef")%string;
                name := "demo"; module_type := "rubric_optimizer";
                baseline_model_id := None; optimized_model_id := None;
                split_ratio := bind_real 1.5;
                created_at := Demo.utc; status := "active"; notes := None |} ])%list;
        ab_evaluations := ab_evaluations init |}).
Proof.
  apply create_experiment_any_split_ratio. reflexivity.
Defined.

(** C7 (as the code has it).  [record_evaluation] does not look at
    [variant]: for every string, a call whose generated id is not yet in
    the table returns and appends exactly one evaluation row carrying that
    variant. *)
Theorem record_evaluation_any_variant (st : ABTestingFramework)
  (uuid_hex now experiment_id variant : string) (metrics : Metrics) :
  existsb (fun e => (eval_id e =? "eval_" ++ hex12 uuid_hex)%string)
          (ab_evaluations st) = false ->
  record_evaluation st uuid_hex now experiment_id variant metrics
  = (Return tt,
     {| experiments := experiments st;
        ab_evaluations :=
          (ab_evaluations st ++
           [ {| eval_id := ("eval_" ++ hex12 uuid_hex)%string;
                experiment_id := experiment_id; variant := variant;
                timestamp := now; metrics := metrics |} ])%list |}).
Proof.
  intros H. unfold record_evaluation. now rewrite H.
Qed.

(** Counterexample to C7 as stated: the variant "control" is neither
    "baseline" nor "optimized", yet the call returns and the row is stored;
    [analyze_results] then finds the row but counts it in neither group. *)
Lemma variant_not_validated :
  fst (record_evaluation init "0123456789abcdef0123456789abcdef" Demo.utc
         "exp_demo" "control" [("primary_score"%string, 0.5)])
  = Return tt
  /\ map variant
       (ab_evaluations
          (snd (record_evaluation init "0123456789abcdef0123456789abcdef"
                  Demo.utc "exp_demo" "control" [("primary_score"%string, 0.5)])))
     = ["control"%string]
  /\ match analyze_results
             (snd (record_evaluation init "0123456789abcdef0123456789abcdef"
                     Demo.utc "exp_demo" "control"
                     [("primary_score"%string, 0.5)]))
             "exp_demo" "primary_score" 0.95 with
     | Return r => baseline_count r = 0%nat /\ optimized_count r = 0%nat
     | Raise _ => False
     end.
Proof.
  vm_compute. repeat split.
Qed.

(** Witness of C7: the first evaluation of a store, with variant
    "control". *)
Lemma record_evaluation_any_variant_witness :
  record_evaluation init "0123456789abcdef0123456789abcdef" Demo.utc
    "exp_demo" "control" [("primary_score"%string, 0.5)]
  = (Return tt,
     {| experiments := experiments init;
        ab_evaluations :=
          (ab_evaluations init ++
           [ {| eval_id := ("eval_" ++ hex12 "0123456789abcdef0123456789abcdef")%string;
                experiment_id := "exp_demo"; variant := "control";
                timestamp := Demo.utc;
                metrics := [("primary_score"%string, 0.5)] |} ])%list |}).
Proof.
  apply record_evaluation_any_variant. reflexivity.
Defined.

End ABTestingFacts.

(** * Properties of the performance tracker *)

Section TrackerFacts.
Import Tracker.
Local Open Scope float_scope.

Lemma insert_desc_perm (x : Snapshot) (l : list Snapshot) :
  Permutation (x :: l) (insert_desc x l).
Proof.
  induction l as [|y l IH]; simpl; [apply Permutation_refl|].
  destruct (String.leb (timestamp y) (timestamp x)).
  - apply Permutation_refl.
  - eapply perm_trans; [apply perm_swap|]. now apply perm_skip.
Qed.

Lemma order_by_timestamp_desc_perm (l : list Snapshot) :
  Permutation l (order_by_timestamp_desc l).
Proof.
  induction l as [|x l IH]; simpl; [constructor|].
  eapply perm_trans; [apply perm_skip, IH|]. apply insert_desc_perm.
Qed.

Lemma insert_desc_hd (y x : Snapshot) (l : list Snapshot) :
  not_older y x -> HdRel not_older y l -> HdRel not_older y (insert_desc x l).
Proof.
  intros Hyx Hl. destruct l as [|z l]; simpl.
  - now constructor.
  - destruct (String.leb (timestamp z) (timestamp x)); constructor;
      [exact Hyx|]. now inversion Hl.
Qed.

Lemma insert_desc_sorted (x : Snapshot) (l : list Snapshot) :
  Sorted not_older l -> Sorted not_older (insert_desc x l).
Proof.
  induction l as [|y l IH]; simpl; intros Hs.
  - repeat constructor.
  - inversion Hs as [|y' l' Hs' Hhd]; subst.
    destruct (String.leb (timestamp y) (timestamp x)) eqn:E.
    + constructor; [exact Hs|]. constructor. exact E.
    + constructor; [now apply IH|].
      apply insert_desc_hd; [|exact Hhd].
      unfold not_older.
      destruct (String.leb_total (timestamp x) (timestamp y)) as [H|H];
        [exact H|congruence].
Qed.

Lemma order_by_timestamp_desc_sorted (l : list Snapshot) :
  Sorted not_older (order_by_timestamp_desc l).
Proof.
  induction l as [|x l IH]; simpl; [constructor|].
  now apply insert_desc_sorted.
Qed.

(** C4.  [detect_degradation] looks at [get_history] with limit 10: the
    first ten of the module type's snapshots in descending timestamp
    order.  With fewer than two of them the answer is "insufficient_data";
    otherwise the current value is the newest snapshot's metric (0.0 when
    the key is absent), the baseline is the sum of the other (at most nine,
    at least one) metrics divided by their number, a baseline equal to zero
    gives "zero_baseline", and any other baseline gives
    [drop_percent = (baseline - current) / baseline] with
    [degradation_detected] true exactly when [drop_percent > threshold] and
    the matching reason. *)
Theorem detect_degradation_spec (st : PerformanceTracker)
  (mt metric_key : string) (thr : float) :
  let matching :=
    filter (fun r => (module_type r =? mt)%string) (performance_snapshots st) in
  let history := get_history st mt (Some 10%Z) in
  history = firstn 10 (order_by_timestamp_desc matching)
  /\ Permutation matching (order_by_timestamp_desc matching)
  /\ Sorted not_older (order_by_timestamp_desc matching)
  /\ (List.length history <= 10)%nat
  /\ match history with
     | [] | [_] =>
         detect_degradation st mt metric_key thr
         = {| degradation_detected := false; reason := "insufficient_data";
              current_value := None; baseline_value := None;
              drop_percent := None; threshold := None |}
     | newest :: rest =>
         let current := dict_get (metrics newest) metric_key 0.0 in
         let previous := map (fun h => dict_get (metrics h) metric_key 0.0) rest in
         let baseline :=
           PyFloat.sum previous / PyFloat.of_len (List.length previous) in
         (1 <= List.length previous <= 9)%nat
         /\ if baseline =? 0 then
              detect_degradation st mt metric_key thr
              = {| degradation_detected := false; reason := "zero_baseline";
                   current_value := Some current;
                   baseline_value := Some baseline;
                   drop_percent := None; threshold := None |}
            else
              let drop := (baseline - current) / baseline in
              detect_degradation st mt metric_key thr
              = {| degradation_detected := thr <? drop;
                   reason := if thr <? drop then "threshold_exceeded"
                             else "within_threshold";
                   current_value := Some current;
                   baseline_value := Some baseline;
                   drop_percent := Some drop; threshold := Some thr |}
     end.
Proof.
  intros matching history.
  assert (Hh : history = firstn 10 (order_by_timestamp_desc matching))
    by reflexivity.
  assert (Hlen : (List.length history <= 10)%nat)
    by (rewrite Hh; apply firstn_le_length).
  split; [exact Hh|]. split; [apply order_by_timestamp_desc_perm|].
  split; [apply order_by_timestamp_desc_sorted|]. split; [exact Hlen|].
  unfold detect_degradation. fold history.
  destruct history as [|newest [|second rest]]; try reflexivity.
  cbv zeta. split.
  - rewrite length_map. simpl in Hlen |- *. lia.
  - destruct (map (fun h => dict_get (metrics h) metric_key 0.0) (second :: rest))
      as [|p ps] eqn:Hp; [discriminate Hp|].
    destruct (PyFloat.sum (p :: ps) / PyFloat.of_len (List.length (p :: ps)) =? 0);
      reflexivity.
Qed.

(** On twelve daily snapshots the two oldest are not looked at: the newest
    value 0.25 is compared with the mean 5.0 / 9 of the nine before it and
    the drop of 55 percent exceeds the threshold 0.1. *)
Lemma detect_degradation_twelve_days :
  map timestamp (get_history Demo.twelve_days "rubric_optimizer" (Some 10%Z))
  = [ "2025-01-12"; "2025-01-11"; "2025-01-10"; "2025-01-09"; "2025-01-08";
      "2025-01-07"; "2025-01-06"; "2025-01-05"; "2025-01-04"; "2025-01-03"
    ]%string
  /\ detect_degradation Demo.twelve_days "rubric_optimizer" "mean_score" 0.1
     = {| degradation_detected := true; reason := "threshold_exceeded";
          current_value := Some 0.25; baseline_value := Some (5.0 / 9);
          drop_percent := Some ((5.0 / 9 - 0.25) / (5.0 / 9));
          threshold := Some 0.1 |}.
Proof.
  vm_compute. split; reflexivity.
Qed.

End TrackerFacts.

(** * Properties of the optimization pipeline *)

Section PipelineFacts.
Import Pipeline.

Context {Example Prediction Obj Blob : Type}.
Variable pickle_dump : Obj -> Blob.
Variable path_join : string -> string -> string.
Variable open_error : string -> option Exn.
Variable pickle_error : Obj -> option Exn.
Variable forward : Obj -> Example -> Result Prediction.
Variable rubric_metric : Example -> Prediction -> Result float.
Variable judge_metric : Example -> Prediction -> Result float.
Variable RubricOptimizer : Obj.
Variable SelfImprovingJudge : string -> Obj.
Variable compile :
  (Example -> Prediction -> Result float) -> Z -> float ->
  Obj -> list Example -> Z -> Z -> Z -> Result Obj.

(** C9.  When the optimizer's [compile] raises, [optimize_rubric] raises
    the same exception and hands back the registry it was given: no file
    written, no row inserted, no activation.  [optimize_judge] does the
    same. *)
Theorem compile_failure_is_fatal (registry : Registry.ModelRegistry Blob)
  (uuid_hex now1 now2 judge_type : string) (trainset : list Example)
  (valset : option (list Example))
  (metric : option (Example -> Prediction -> Result float))
  (num_trials num_candidates : Z) (init_temperature : float) (error : Exn) :
  (compile (match metric with Some m => m | None => rubric_metric end)
     num_candidates init_temperature RubricOptimizer trainset num_trials 4 4
   = Raise error ->
   optimize_rubric pickle_dump path_join
       open_error pickle_error forward rubric_metric RubricOptimizer
     compile registry uuid_hex now1 now2 trainset valset metric num_trials
     num_candidates init_temperature
   = (Raise error, registry))
  /\ (compile (match metric with Some m => m | None => judge_metric end)
        num_candidates init_temperature (SelfImprovingJudge judge_type)
        trainset num_trials 5 5
      = Raise error ->
      optimize_judge pickle_dump path_join
          open_error pickle_error forward judge_metric
        SelfImprovingJudge compile registry uuid_hex now1 now2 judge_type
        trainset valset metric num_trials num_candidates init_temperature
      = (Raise error, registry)).
Proof.
  split; intros H.
  - unfold optimize_rubric. now rewrite H.
  - unfold optimize_judge. now rewrite H.
Qed.

End PipelineFacts.

(** Witness of C9: a run of [optimize_rubric] over a registry that
    already holds the models of [Demo.calls], with an optimizer that fails:
    the exception comes out and the registry is the one that went in. *)
Lemma compile_failure_witness :
  let registry := Registry.run Demo.pickle Demo.path_join
      Demo.open_error Demo.pickle_error Demo.calls
                    (Registry.init "./dspy_models") in
  Pipeline.optimize_rubric Demo.pickle Demo.path_join
      Demo.open_error Demo.pickle_error Demo.forward Demo.metric
    "RubricOptimizer()" Demo.failing_compile registry
    "0123456789abcdef0123456789abcdef" Demo.utc Demo.utc
    ["example 1"; "example 2"] None None 100 10 1.0%float
  = (Raise (ExternalError "optimizer failed"), registry).
Proof.
  exact (proj1 (compile_failure_is_fatal Demo.pickle Demo.path_join
      Demo.open_error Demo.pickle_error
                  Demo.forward Demo.metric Demo.metric "RubricOptimizer()"
                  (fun judge_type => judge_type) Demo.failing_compile
                  (Registry.run Demo.pickle Demo.path_join
                      Demo.open_error Demo.pickle_error Demo.calls
                     (Registry.init "./dspy_models"))
                  "0123456789abcdef0123456789abcdef" Demo.utc Demo.utc
                  "relevance" ["example 1"; "example 2"] None None 100 10
                  1.0%float (ExternalError "optimizer failed"))
           eq_refl).
Defined.

(** * Further properties of the model registry *)

Section RegistryActivation.
Import Registry.

Context {Obj Blob : Type}.
Variable pickle_dump : Obj -> Blob.
Variable pickle_load : Blob -> Obj.
Variable path_join : string -> string -> string.
Variable open_error : string -> option Exn.
Variable pickle_error : Obj -> option Exn.

Local Abbreviation register_model := (Registry.register_model pickle_dump path_join
    open_error pickle_error).
Local Abbreviation load_model := (Registry.load_model pickle_load).

Lemma find_id_reflag (t mt : string) (l : list ModelRow) :
  find (fun r => id r =? t) (map (reflag t mt) l)
  = option_map (reflag t mt) (find (fun r => id r =? t) l).
Proof.
  induction l as [|a l IH]; simpl; [reflexivity|].
  rewrite reflag_id. destruct (id a =? t); [reflexivity|exact IH].
Qed.

Lemma reflag_twice (t mt : string) (r : ModelRow) :
  reflag t mt (reflag t mt r) = reflag t mt r.
Proof.
  unfold reflag at 1. rewrite reflag_id, reflag_module_type.
  unfold reflag.
  destruct (id r =? t); [reflexivity|].
  destruct (module_type r =? mt); reflexivity.
Qed.

(** X1.  [set_active_model] is idempotent: a second call with the same id
    has the outcome of the first (it returns if the first returned, raises
    if the first raised) and leaves the registry as the first call left
    it. *)
Theorem set_active_model_idempotent (st : ModelRegistry Blob) (t : string) :
  set_active_model (snd (set_active_model st t)) t = set_active_model st t.
Proof.
  unfold set_active_model.
  destruct (find (fun r => id r =? t) (models st)) as [row|] eqn:Hf; simpl.
  - rewrite updates_as_reflag, find_id_reflag, Hf. simpl.
    rewrite reflag_module_type, updates_as_reflag, map_map.
    do 2 f_equal. apply map_ext. intros r. apply reflag_twice.
  - now rewrite Hf.
Qed.

Lemma count_active_cons (mt : string) (a : ModelRow) (l : list ModelRow) :
  count_active mt (a :: l)
  = ((if (module_type a =? mt)%string && is_active a then 1 else 0)
     + count_active mt l)%nat.
Proof.
  unfold count_active. simpl.
  destruct ((module_type a =? mt) && is_active a); reflexivity.
Qed.

Lemma count_active_reflag_other (t mt0 mt : string) (l : list ModelRow) :
  (forall r, In r l -> id r = t -> module_type r = mt0) ->
  mt <> mt0 ->
  count_active mt (map (reflag t mt0) l) = count_active mt l.
Proof.
  intros H Hne.
  induction l as [|a l IH]; [reflexivity|].
  assert (IH' := IH (fun r Hr => H r (or_intror Hr))). clear IH.
  assert (Ha := H a (or_introl eq_refl)).
  cbn [map]. rewrite !count_active_cons, IH', reflag_module_type.
  f_equal.
  destruct (String.eqb_spec (module_type a) mt) as [E|E]; [|reflexivity].
  unfold reflag.
  destruct (String.eqb_spec (id a) t) as [Eid|Eid];
    [specialize (Ha Eid); congruence|].
  destruct (String.eqb_spec (module_type a) mt0) as [E0|E0]; [congruence|].
  reflexivity.
Qed.

Lemma count_active_reflag_target (t mt0 : string) (l : list ModelRow) (row : ModelRow) :
  In row l -> id row = t -> module_type row = mt0 ->
  (1 <= count_active mt0 (map (reflag t mt0) l))%nat.
Proof.
  intros Hin Hid Hmt.
  induction l as [|a l IH]; [contradiction|].
  cbn [map]. rewrite count_active_cons, reflag_module_type.
  destruct Hin as [->|Hin].
  - unfold reflag. rewrite Hid, Hmt, !String.eqb_refl. simpl. lia.
  - specialize (IH Hin). lia.
Qed.

Lemma active_after_reflag (t mt0 : string) (r : ModelRow) :
  is_active (reflag t mt0 r) = true -> module_type r = mt0 -> id r = t.
Proof.
  unfold reflag. intros Ha Hm.
  destruct (String.eqb_spec (id r) t) as [E|E]; [exact E|].
  rewrite Hm, String.eqb_refl in Ha. discriminate Ha.
Qed.

(** X2.  On a registry whose ids are distinct, [set_active_model] of an id
    that has a row returns and leaves exactly one active row of that row's
    module type, the one carrying the id; the active rows of every other
    module type are counted as before. *)
Theorem set_active_model_exactly_one (st : ModelRegistry Blob) (t : string)
  (row : ModelRow) :
  ids_unique (models st) ->
  find (fun r => id r =? t) (models st) = Some row ->
  let out := set_active_model st t in
  fst out = Return tt
  /\ count_active (module_type row) (models (snd out)) = 1%nat
  /\ (forall r, In r (models (snd out)) -> is_active r = true ->
      module_type r = module_type row -> id r = t)
  /\ (forall mt, mt <> module_type row ->
      count_active mt (models (snd out)) = count_active mt (models st))
  /\ files (snd out) = files st.
Proof.
  intros Hu Hf. unfold set_active_model. rewrite Hf. simpl.
  rewrite updates_as_reflag.
  pose proof (find_some _ _ Hf) as [Hin Hid]. apply String.eqb_eq in Hid.
  assert (Hsame : forall r, In r (models st) -> id r = t ->
                            module_type r = module_type row).
  { intros r Hr Hrt. f_equal. apply (same_id_same_row (models st)); congruence. }
  split; [reflexivity|]. split; [|split; [|split]].
  - apply Nat.le_antisymm.
    + eapply Nat.le_trans; [apply count_active_reflag, Hsame|].
      rewrite String.eqb_refl. now apply count_id_unique.
    + now apply count_active_reflag_target with (row := row).
  - intros r Hr Ha Hm. apply in_map_iff in Hr. destruct Hr as [r0 [<- Hr0]].
    rewrite reflag_id. rewrite reflag_module_type in Hm.
    now apply (active_after_reflag t (module_type row)).
  - intros mt Hne. now apply count_active_reflag_other.
  - reflexivity.
Qed.

(** X3.  [set_active_model] returns exactly when some row carries the id;
    for an unknown id it raises [ValueError] and the registry is the one
    it was given. *)
Theorem set_active_model_unknown_id (st : ModelRegistry Blob) (t : string) :
  (fst (set_active_model st t) = Return tt <-> In t (map id (models st)))
  /\ (~ In t (map id (models st)) ->
      set_active_model st t
      = (Raise (ValueError ("Model not found: " ++ t)), st)).
Proof.
  unfold set_active_model.
  destruct (find (fun r => id r =? t) (models st)) as [row|] eqn:Hf; simpl.
  - apply find_some in Hf. destruct Hf as [Hin Hid].
    apply String.eqb_eq in Hid.
    assert (Ht : In t (map id (models st)))
      by (rewrite <- Hid; now apply in_map).
    split; [tauto|]. intros Hn. contradiction.
  - split; [|reflexivity]. split; [discriminate|].
    intros Hin. apply in_map_iff in Hin. destruct Hin as [r [Hr Hin]].
    pose proof (find_none _ _ Hf r Hin) as Hn. simpl in Hn.
    apply String.eqb_neq in Hn. contradiction.
Qed.

End RegistryActivation.

Section RegistryLifecycle.
Import Registry.

Context {Obj Blob : Type}.
Variable pickle_dump : Obj -> Blob.
Variable pickle_load : Blob -> Obj.
Variable path_join : string -> string -> string.
Variable open_error : string -> option Exn.
Variable pickle_error : Obj -> option Exn.

Local Abbreviation register_model := (Registry.register_model pickle_dump path_join
    open_error pickle_error).
Local Abbreviation load_model := (Registry.load_model pickle_load).

Lemma find_active_reflag (t mt : string) (l : list ModelRow) :
  find (fun x => (module_type x =? mt) && is_active x) (map (reflag t mt) l)
  = option_map (reflag t mt)
      (find (fun x => (id x =? t) && (module_type x =? mt)) l).
Proof.
  induction l as [|a l IH]; simpl; [reflexivity|].
  rewrite reflag_module_type. unfold reflag at 1.
  destruct (id a =? t); simpl.
  - destruct (module_type a =? mt); [reflexivity|exact IH].
  - destruct (module_type a =? mt); simpl; exact IH.
Qed.

Lemma reflag_file_path (t mt : string) (r : ModelRow) :
  file_path (reflag t mt r) = file_path r.
Proof.
  unfold reflag. destruct (id r =? t); [reflexivity|].
  destruct (module_type r =? mt); reflexivity.
Qed.

Lemma fresh_id_eqb (model_id : string) (l : list ModelRow) :
  ~ In model_id (map id l) ->
  forall x, In x l -> (id x =? model_id) = false.
Proof.
  intros Hn x Hx. apply String.eqb_neq. intros E. apply Hn.
  rewrite <- E. now apply in_map.
Qed.

(** X4.  Register, activate, load the active model: after a registration
    that returned, [set_active_model] of the new id followed by
    [load_model(module_type=...)] for a non-empty module type returns the
    module just registered (what unpickling its file gives), whatever was
    active before. *)
Theorem register_activate_load (st : ModelRegistry Blob) now1 now2 model_id mt
  (module : Obj) ver metrics tec params notes :
  let out := register_model st now1 now2 model_id mt module ver metrics tec
               params notes in
  mt <> "" ->
  fst out = Return model_id ->
  fst (set_active_model (snd out) model_id) = Return tt
  /\ load_model (snd (set_active_model (snd out) model_id)) None (Some mt) None
     = Return (Some (pickle_load (pickle_dump module))).
Proof.
  intros out Hmt Hret.
  destruct (register_then_select pickle_dump path_join
      open_error pickle_error st now1 now2 model_id
              mt module ver metrics tec params notes Hret) as [r' [Hf' Hfile]].
  destruct (register_model_rows pickle_dump path_join
      open_error pickle_error st now1 now2 model_id
              mt module ver metrics tec params notes)
    as [[Hr _]|[_ [Hfresh [r [Hm [Hid [Hty _]]]]]]].
  { destruct Hr as [e Hr]. fold out in Hr. rewrite Hret in Hr.
    discriminate Hr. }
  fold out in Hf', Hfile, Hm.
  pose proof (fresh_id_eqb model_id (models st) Hfresh) as Hold.
  assert (Hfind : find (fun x => id x =? model_id) (models (snd out)) = Some r).
  { rewrite Hm. apply find_app_fresh; [exact Hold|].
    rewrite Hid. apply String.eqb_refl. }
  change (find (fun x => id x =? model_id) (models (snd out)) = Some r') in Hf'.
  rewrite Hfind in Hf'. inversion Hf'; subst r'.
  unfold set_active_model. rewrite Hfind. simpl. split; [reflexivity|].
  unfold Registry.load_model, select_row. simpl.
  apply String.eqb_neq in Hmt. rewrite Hmt.
  rewrite updates_as_reflag, Hty, find_active_reflag, Hm.
  rewrite (find_app_fresh _ (models st) r).
  - simpl. rewrite reflag_file_path, Hfile. reflexivity.
  - intros x Hx. now rewrite (Hold x Hx).
  - rewrite Hid, Hty, !String.eqb_refl. reflexivity.
Qed.

(** *** The next version *)

Lemma max_fold_bounds (l : list Z) (acc : option Z) (m' : Z) :
  fold_left (fun acc v => Some (match acc with
                                | None => v
                                | Some m => Z.max m v
                                end)) l acc = Some m' ->
  (forall m, acc = Some m -> (m <= m')%Z)
  /\ (forall v, In v l -> (v <= m')%Z).
Proof.
  revert acc. induction l as [|a l IH]; intros acc; simpl.
  - intros ->. split; [intros m H; inversion H; lia|contradiction].
  - intros H. apply IH in H. destruct H as [H1 H2].
    split.
    + intros m ->. specialize (H1 _ eq_refl). lia.
    + intros v [<-|Hv]; [|now apply H2].
      destruct acc as [m|]; specialize (H1 _ eq_refl); lia.
Qed.

Lemma max_fold_some (l : list Z) (m : Z) :
  fold_left (fun acc v => Some (match acc with
                                | None => v
                                | Some m => Z.max m v
                                end)) l (Some m) <> None.
Proof.
  revert m. induction l as [|a l IH]; intros m; simpl; [discriminate|].
  apply IH.
Qed.

(** The version [_get_next_version] hands out exceeds every version stored
    for the module type. *)
Lemma next_version_above (st : ModelRegistry Blob) (mt : string) (r : ModelRow) :
  In r (models st) -> module_type r = mt ->
  (version r < _get_next_version st mt)%Z.
Proof.
  intros Hin Hmt. unfold _get_next_version, max_version.
  rewrite max_version_fold.
  assert (Hv : In (version r) (versions_of mt (models st))).
  { unfold versions_of. apply in_map, filter_In. split; [exact Hin|].
    now apply String.eqb_eq. }
  destruct (fold_left _ (versions_of mt (models st)) None) as [m|] eqn:Hf.
  - apply max_fold_bounds in Hf. destruct Hf as [_ Hf].
    specialize (Hf _ Hv). lia.
  - exfalso. destruct (versions_of mt (models st)) as [|a l];
      [contradiction|]. simpl in Hf. now apply max_fold_some in Hf.
Qed.

Lemma fresh_auto_version_accepted (st : Registry.ModelRegistry Blob)
  (model_id mt : string) :
  ~ In model_id (map Registry.id (Registry.models st)) ->
  Registry.violates_constraints (Registry.models st) model_id mt
    (Registry._get_next_version st mt) = false.
Proof.
  intros Hfresh. unfold Registry.violates_constraints. apply orb_false_intro.
  - destruct (existsb (fun r => (Registry.id r =? model_id)%string)
                (Registry.models st)) eqn:He; [|reflexivity].
    apply existsb_exists in He. destruct He as [r [Hin He]].
    now rewrite (fresh_id_eqb model_id (Registry.models st) Hfresh r Hin) in He.
  - destruct (existsb _ (Registry.models st)) eqn:He; [|reflexivity].
    apply existsb_exists in He. destruct He as [r [Hin He]].
    apply andb_prop in He. destruct He as [Ht Hver].
    apply String.eqb_eq in Ht. apply Z.eqb_eq in Hver.
    pose proof (next_version_above st mt r Hin Ht). lia.
Qed.

(** X5.  Whatever the registry holds (gaps, deleted versions, versions
    given by hand), a registration that omits [version] under an id not
    yet in the table is never refused by the table's constraints: the
    version it is given is larger than every version stored for the module
    type.  Once its file is opened and its module pickled, the call
    returns and appends the row when the version and the training count
    are inside SQLite's integer range, and raises [OverflowError], leaving
    the table as it was, when they are not. *)
Theorem auto_version_never_collides (st : ModelRegistry Blob) now1 now2
  model_id mt (module : Obj) metrics tec params notes :
  ~ In model_id (map id (models st)) ->
  open_error (pickle_path path_join st mt (_get_next_version st mt) now1)
  = None ->
  pickle_error module = None ->
  let out := register_model st now1 now2 model_id mt module None metrics tec
               params notes in
  (forall r, In r (models st) -> module_type r = mt ->
   (version r < _get_next_version st mt)%Z)
  /\ if fits_int64 (_get_next_version st mt) && bindable tec
     then fst out = Return model_id
          /\ exists r, models (snd out) = (models st ++ [r])%list
                       /\ id r = model_id /\ module_type r = mt
                       /\ version r = _get_next_version st mt
     else fst out = Raise OverflowError /\ models (snd out) = models st.
Proof.
  intros Hfresh Hopen Hpickle out.
  split; [intros r; apply next_version_above|].
  pose proof (register_model_cases pickle_dump path_join open_error
                pickle_error st now1 now2 model_id mt module None metrics tec
                params notes) as H.
  cbv beta iota zeta in H. fold out in H.
  rewrite Hopen, Hpickle,
    (fresh_auto_version_accepted st model_id mt Hfresh) in H.
  destruct (fits_int64 (_get_next_version st mt) && bindable tec).
  - rewrite H. split; [reflexivity|].
    eexists. split; [reflexivity|]. simpl. repeat split.
  - rewrite H. split; reflexivity.
Qed.

(** *** Deleting *)

Lemma find_none_filter (f : ModelRow -> bool) (l : list ModelRow) :
  find f l = None -> filter (fun r => negb (f r)) l = l.
Proof.
  induction l as [|a l IH]; simpl; [reflexivity|].
  destruct (f a); [discriminate|]. simpl. intros H. now rewrite IH.
Qed.

Lemma find_after_filter (f : ModelRow -> bool) (l : list ModelRow) :
  find f (filter (fun r => negb (f r)) l) = None.
Proof.
  induction l as [|a l IH]; simpl; [reflexivity|].
  destruct (f a) eqn:E; simpl; [exact IH|]. now rewrite E.
Qed.

Lemma delete_model_rows (st : ModelRegistry Blob) (t : string) :
  models (delete_model st t)
  = filter (fun r => negb (id r =? t)) (models st).
Proof.
  unfold delete_model.
  destruct (find (fun r => id r =? t) (models st)) eqn:Hf; [reflexivity|].
  symmetry. now apply (find_none_filter (fun r => id r =? t)).
Qed.

(** X6.  After [delete_model] the id is gone and nothing else is: the
    table is the old one without the rows of that id, in the old order
    (unchanged when the id was unknown, in which case nothing is raised
    and no file is touched); [get_model_info] answers [None] and
    [load_model] by that id returns [None]. *)
Theorem delete_model_removes_id (st : ModelRegistry Blob) (t : string) :
  models (delete_model st t)
  = filter (fun r => negb (id r =? t)) (models st)
  /\ (~ In t (map id (models st)) -> delete_model st t = st)
  /\ get_model_info (delete_model st t) t = None
  /\ (t <> "" -> load_model (delete_model st t) (Some t) None None = Return None).
Proof.
  split; [apply delete_model_rows|]. split; [|split].
  - intros Hn. unfold delete_model.
    destruct (find (fun r => id r =? t) (models st)) as [row|] eqn:Hf;
      [|reflexivity].
    apply find_some in Hf. destruct Hf as [Hin Hid].
    now rewrite (fresh_id_eqb t (models st) Hn row Hin) in Hid.
  - unfold get_model_info. rewrite delete_model_rows.
    apply (find_after_filter (fun r => id r =? t)).
  - intros Hne.
    destruct (load_by_request pickle_load (delete_model st t) (ById t) Hne)
      as [H _].
    apply H. simpl. rewrite delete_model_rows.
    apply (find_after_filter (fun r => id r =? t)).
Qed.

Lemma count_active_split (p : ModelRow -> bool) (mt : string) (l : list ModelRow) :
  count_active mt l
  = (count_active mt (filter (fun r => negb (p r)) l)
     + count_active mt (filter p l))%nat.
Proof.
  induction l as [|a l IH]; [reflexivity|].
  rewrite count_active_cons, IH. cbn [filter].
  destruct (p a); cbn [negb]; rewrite count_active_cons; lia.
Qed.

Lemma count_active_member (mt : string) (l : list ModelRow) (row : ModelRow) :
  In row l -> module_type row = mt -> is_active row = true ->
  (1 <= count_active mt l)%nat.
Proof.
  intros Hin Hmt Ha. induction l as [|a l IH]; [contradiction|].
  rewrite count_active_cons. destruct Hin as [->|Hin].
  - rewrite Hmt, Ha, String.eqb_refl. simpl. lia.
  - specialize (IH Hin). lia.
Qed.

Lemma count_active_zero_find (mt : string) (l : list ModelRow) :
  count_active mt l = 0%nat ->
  find (fun r => (module_type r =? mt) && is_active r) l = None.
Proof.
  induction l as [|a l IH]; [reflexivity|].
  rewrite count_active_cons. simpl.
  destruct ((module_type a =? mt) && is_active a); [discriminate|].
  exact IH.
Qed.

(** X7.  Deleting the active model leaves its module type without an
    active version: on a registry with at most one active row for the
    type, after [delete_model] of the active row's id no row of the type
    is active, and [load_model(module_type=...)] returns [None] instead of
    falling back to another version. *)
Theorem delete_active_leaves_none (st : ModelRegistry Blob) (t : string)
  (row : ModelRow) :
  (count_active (module_type row) (models st) <= 1)%nat ->
  find (fun r => id r =? t) (models st) = Some row ->
  is_active row = true ->
  count_active (module_type row) (models (delete_model st t)) = 0%nat
  /\ (module_type row <> "" ->
      load_model (delete_model st t) None (Some (module_type row)) None
      = Return None).
Proof.
  intros Hle Hf Ha.
  apply find_some in Hf. destruct Hf as [Hin Hid].
  assert (H0 : count_active (module_type row) (models (delete_model st t))
               = 0%nat).
  { rewrite delete_model_rows.
    pose proof (count_active_split (fun r => id r =? t) (module_type row)
                  (models st)) as Hs.
    cbv beta in Hs.
    assert (H1 : (1 <= count_active (module_type row)
                         (filter (fun r => (id r =? t)%string) (models st)))%nat).
    { apply (count_active_member _ _ row); [|reflexivity|exact Ha].
      apply filter_In. now split. }
    lia. }
  split; [exact H0|]. intros Hne.
  destruct (load_by_request pickle_load (delete_model st t)
              (ActiveOf (module_type row)) Hne) as [H _].
  apply H. simpl. now apply count_active_zero_find.
Qed.

Lemma ids_unique_filter (p : ModelRow -> bool) (l : list ModelRow) :
  ids_unique l -> ids_unique (filter p l).
Proof.
  unfold ids_unique. induction l as [|a l IH]; simpl; intros Hnd;
    [constructor|].
  inversion Hnd as [|x xs Hnotin Hnd']; subst.
  destruct (p a); simpl; [|now apply IH].
  constructor; [|now apply IH].
  intros Hin. apply Hnotin. apply in_map_iff in Hin.
  destruct Hin as [r [Hr Hin]]. apply filter_In in Hin.
  rewrite <- Hr. apply in_map. tauto.
Qed.

Lemma count_active_filter_le (p : ModelRow -> bool) (mt : string)
  (l : list ModelRow) :
  (count_active mt (filter p l) <= count_active mt l)%nat.
Proof.
  induction l as [|a l IH]; [apply Nat.le_refl|].
  cbn [filter]. destruct (p a); rewrite ?count_active_cons; lia.
Qed.

Lemma apply_op_keeps_invariant (st : ModelRegistry Blob) (o : Op Obj) :
  ids_unique (models st) /\ (forall mt, (count_active mt (models st) <= 1)%nat) ->
  ids_unique (models (apply_op pickle_dump path_join
      open_error pickle_error st o))
  /\ (forall mt,
      (count_active mt (models (apply_op pickle_dump path_join
          open_error pickle_error st o)) <= 1)%nat).
Proof.
  intros H. destruct o as [c|t]; simpl.
  - now apply step_keeps_invariant.
  - destruct H as [Hu Hc]. rewrite delete_model_rows. split.
    + now apply ids_unique_filter.
    + intros mt. eapply Nat.le_trans; [apply count_active_filter_le|apply Hc].
Qed.

(** X8.  Deleting keeps the registry's invariant: starting from an empty
    registry, after any sequence of [register_model], [set_active_model]
    and [delete_model] calls the ids are pairwise distinct and every
    module type has at most one active row. *)
Theorem invariant_with_deletes (dir : string) (ops : list (Op Obj)) :
  let st := run_ops pickle_dump path_join
      open_error pickle_error ops (init dir) in
  ids_unique (models st)
  /\ forall mt, (count_active mt (models st) <= 1)%nat.
Proof.
  assert (H : forall ops (st : ModelRegistry Blob),
             ids_unique (models st)
             /\ (forall mt, (count_active mt (models st) <= 1)%nat) ->
             ids_unique (models (run_ops pickle_dump path_join
                 open_error pickle_error ops st))
             /\ (forall mt,
                 (count_active mt
                    (models (run_ops pickle_dump path_join
                        open_error pickle_error ops st)) <= 1)%nat)).
  { clear ops. intros ops. induction ops as [|o ops IH]; intros st Hst; simpl.
    - exact Hst.
    - apply IH. now apply apply_op_keeps_invariant. }
  apply H. split; [constructor|].
  intros mt. unfold count_active. simpl. lia.
Qed.

(** *** Metadata *)

(** X9.  The metadata of a registration comes back from [get_model_info]:
    after a [register_model] that returned, the row of the id carries the
    module type, the version given or assigned, the second clock reading,
    the path of the pickle file, the training count and the notes, is not
    active, and holds the metrics and the optimization parameters, except
    that an empty dictionary comes back as [None], like one never given. *)
Theorem get_model_info_after_register (st : ModelRegistry Blob) now1 now2
  model_id mt (module : Obj) ver metrics tec params notes :
  let out := register_model st now1 now2 model_id mt module ver metrics tec
               params notes in
  let v := match ver with
           | None => _get_next_version st mt
           | Some v => v
           end in
  fst out = Return model_id ->
  get_model_info (snd out) model_id
  = Some {| id := model_id; module_type := mt; version := v;
            created_at := now2;
            file_path := path_join (models_dir st)
                           (mt ++ "_v" ++ str_of_int v ++ "_"
                            ++ replace_colon now1 ++ ".pkl");
            metrics := match metrics with
                       | Some ((_ :: _) as m) => Some m
                       | _ => None
                       end;
            training_examples_count := tec;
            optimization_params := match params with
                                   | Some ((_ :: _) as p) => Some p
                                   | _ => None
                                   end;
            is_active := false; notes := notes |}.
Proof.
  intros out v Hret.
  pose proof (register_model_cases pickle_dump path_join open_error
                pickle_error st now1 now2 model_id mt module ver metrics tec
                params notes) as H.
  cbv zeta in H. fold out v in H.
  destruct (open_error _); [rewrite H in Hret; discriminate Hret|].
  destruct (pickle_error module); [rewrite H in Hret; discriminate Hret|].
  destruct (fits_int64 v && bindable tec);
    [|rewrite H in Hret; discriminate Hret].
  destruct (violates_constraints (models st) model_id mt v) eqn:Hv;
    [rewrite H in Hret; discriminate Hret|].
  rewrite H. unfold get_model_info. cbn [snd models].
  apply find_app_fresh.
  - intros x Hx. unfold violates_constraints in Hv.
    apply orb_false_elim in Hv. destruct Hv as [Hv _].
    destruct (id x =? model_id) eqn:E; [|reflexivity].
    rewrite <- Hv. symmetry. apply existsb_exists. now exists x.
  - simpl. apply String.eqb_refl.
Qed.

Lemma violates_constraints_iff (rows : list ModelRow) (model_id mt : string)
  (v : Z) :
  violates_constraints rows model_id mt v = true <->
  In model_id (map id rows)
  \/ exists r, In r rows /\ module_type r = mt /\ version r = v.
Proof.
  unfold violates_constraints. rewrite orb_true_iff, !existsb_exists. split.
  - intros [[r [Hin Hr]]|[r [Hin Hr]]].
    + left. apply String.eqb_eq in Hr. rewrite <- Hr. now apply in_map.
    + right. apply andb_prop in Hr. destruct Hr as [H1 H2].
      apply String.eqb_eq in H1. apply Z.eqb_eq in H2. now exists r.
  - intros [H|[r [Hin [H1 H2]]]].
    + apply in_map_iff in H. destruct H as [r [Hr Hin]].
      left. exists r. split; [exact Hin|]. now apply String.eqb_eq.
    + right. exists r. split; [exact Hin|].
      apply andb_true_intro. split;
        [now apply String.eqb_eq|now apply Z.eqb_eq].
Qed.

(** X10.  How [register_model] fails.  When [open] raises, the exception
    goes to the caller and neither a file nor the table has changed.  Once
    the file is opened, the computed path holds what [pickle.dump] wrote,
    whether the call returns or raises.  A call that raises, for whatever
    reason, leaves the table as it was.  When the module is pickled and
    the version and the training count are inside SQLite's integer range,
    the call raises [IntegrityError] if the id is already in the table or
    the module type already has the version, and returns otherwise; when
    one of the integers is out of range it raises [OverflowError]. *)
Theorem register_model_refusal (st : ModelRegistry Blob) now1 now2 model_id mt
  (module : Obj) ver metrics tec params notes :
  let out := register_model st now1 now2 model_id mt module ver metrics tec
               params notes in
  let v := match ver with
           | None => _get_next_version st mt
           | Some v => v
           end in
  let path := pickle_path path_join st mt v now1 in
  let duplicate :=
    In model_id (map id (models st))
    \/ exists r, In r (models st) /\ module_type r = mt /\ version r = v in
  (forall e, open_error path = Some e -> out = (Raise e, st))
  /\ (forall e, fst out = Raise e -> models (snd out) = models st)
  /\ (open_error path = None ->
      read_file (files (snd out)) path = Some (pickle_dump module)
      /\ (forall e, pickle_error module = Some e -> fst out = Raise e)
      /\ (pickle_error module = None ->
          if fits_int64 v && bindable tec
          then (duplicate -> fst out = Raise IntegrityError)
               /\ (~ duplicate -> fst out = Return model_id)
          else fst out = Raise OverflowError)).
Proof.
  intros out v path duplicate.
  pose proof (register_model_cases pickle_dump path_join open_error
                pickle_error st now1 now2 model_id mt module ver metrics tec
                params notes) as H.
  cbv zeta in H. fold out v path in H.
  pose proof (violates_constraints_iff (models st) model_id mt v) as Hdup.
  fold duplicate in Hdup.
  assert (Hread : read_file (write_file (files st) path (pickle_dump module))
                    path = Some (pickle_dump module))
    by (simpl; now rewrite String.eqb_refl).
  destruct (open_error path) as [e1|].
  { rewrite H. split; [intros e E; now inversion E|].
    split; [reflexivity|discriminate]. }
  split; [discriminate|].
  destruct (pickle_error module) as [e2|].
  { rewrite H. split; [reflexivity|]. intros _. split; [exact Hread|].
    split; [intros e E; now inversion E|discriminate]. }
  destruct (fits_int64 v && bindable tec).
  - destruct (violates_constraints (models st) model_id mt v).
    + rewrite H. split; [reflexivity|]. intros _. split; [exact Hread|].
      split; [discriminate|]. intros _. split; [reflexivity|].
      intros Hn. exfalso. apply Hn, Hdup. reflexivity.
    + rewrite H. split; [discriminate|].
      intros _. split; [exact Hread|].
      split; [discriminate|]. intros _. split; [|reflexivity].
      intros Hd. apply Hdup in Hd. discriminate Hd.
  - rewrite H. split; [reflexivity|]. intros _. split; [exact Hread|].
    split; [discriminate|]. intros _. reflexivity.
Qed.

End RegistryLifecycle.

(** * Further properties of the experiment store *)

Section ABTestingAnalysis.
Import ABTesting.
Local Open Scope float_scope.

(** X11.  [analyze_results] raises [ValueError] exactly when no evaluation
    row carries the experiment id, whether or not the experiment exists and
    whatever its status: with no row the message names the id, with at
    least one row the call returns or fails on an overflowing square, never
    with [ValueError]. *)
Theorem analyze_results_no_evaluations (st : ABTestingFramework)
  (experiment_id metric_key : string) (cl : float) :
  (rows_of st experiment_id = [] ->
   analyze_results st experiment_id metric_key cl
   = Raise (ValueError
              ("No evaluations found for experiment: " ++ experiment_id)))
  /\ (rows_of st experiment_id <> [] ->
      forall msg, analyze_results st experiment_id metric_key cl
                  <> Raise (ValueError msg)).
Proof.
  split.
  - unfold rows_of, analyze_results. now intros ->.
  - intros Hrows msg E.
    pose proof (analyze_results_significance st experiment_id metric_key cl
                  Hrows) as H.
    rewrite E in H. discriminate H.
Qed.

(** The fields of a returned analysis. *)
Lemma analyze_results_fields (st : ABTestingFramework)
  (experiment_id metric_key : string) (cl : float) (r : ABTestResults) :
  analyze_results st experiment_id metric_key cl = Return r ->
  let bs := scores_of "baseline" metric_key (rows_of st experiment_id) in
  let os := scores_of "optimized" metric_key (rows_of st experiment_id) in
  baseline_count r = List.length bs
  /\ optimized_count r = List.length os
  /\ baseline_mean r = match bs with [] => 0.0 | _ => PyFloat.mean bs end
  /\ optimized_mean r = match os with [] => 0.0 | _ => PyFloat.mean os end
  /\ improvement_percent r
     = (if 0 <? baseline_mean r
        then (optimized_mean r - baseline_mean r) / baseline_mean r * 100
        else 0.0)
  /\ _calculate_confidence_interval bs os cl = Return (confidence_interval r).
Proof.
  unfold analyze_results. fold (rows_of st experiment_id).
  destruct (rows_of st experiment_id) as [|row rows] eqn:Hf; [discriminate|].
  cbv zeta.
  set (bs := scores_of "baseline" metric_key (row :: rows)).
  set (os := scores_of "optimized" metric_key (row :: rows)).
  destruct (_calculate_significance bs os cl) as [[sig p]|e]; simpl bind;
    [|discriminate].
  destruct (_calculate_confidence_interval bs os cl) as [ci|e]; simpl bind;
    [|discriminate].
  intros H. inversion H; subst r; clear H. simpl. repeat split.
Qed.

Lemma variant_partition (rows : list Evaluation) :
  (List.length (filter (fun r => (variant r =? "baseline")%string) rows)
   + List.length (filter (fun r => (variant r =? "optimized")%string) rows)
   + List.length
       (filter (fun r => negb ((variant r =? "baseline")%string
                               || (variant r =? "optimized")%string)) rows)
   = List.length rows)%nat.
Proof.
  induction rows as [|a rows IH]; [reflexivity|]. simpl.
  destruct (String.eqb_spec (variant a) "baseline") as [E|E].
  - rewrite E. simpl. lia.
  - destruct (variant a =? "optimized")%string; simpl; lia.
Qed.

(** X12.  What [analyze_results] counts: [baseline_count] and
    [optimized_count] are the numbers of the experiment's rows whose
    variant is exactly "baseline" and exactly "optimized"; rows with any
    other variant are counted in neither, so the two counts fall short of
    the number of rows by the number of such rows. *)
Theorem analyze_results_counts (st : ABTestingFramework)
  (experiment_id metric_key : string) (cl : float) :
  match analyze_results st experiment_id metric_key cl with
  | Raise _ => True
  | Return r =>
      let rows := rows_of st experiment_id in
      baseline_count r
      = List.length (filter (fun e => (variant e =? "baseline")%string) rows)
      /\ optimized_count r
         = List.length (filter (fun e => (variant e =? "optimized")%string) rows)
      /\ (baseline_count r + optimized_count r
          + List.length
              (filter (fun e => negb ((variant e =? "baseline")%string
                                      || (variant e =? "optimized")%string))
                 rows)
          = List.length rows)%nat
  end.
Proof.
  destruct (analyze_results st experiment_id metric_key cl) as [r|e] eqn:H;
    [|exact I].
  apply analyze_results_fields in H. destruct H as [Hb [Ho _]].
  cbv zeta. unfold scores_of in Hb, Ho. rewrite length_map in Hb, Ho.
  rewrite Hb, Ho. repeat split. apply variant_partition.
Qed.

(** X13.  An experiment with evaluations but none for the baseline: the
    analysis returns (it never raises), with [baseline_mean] 0.0,
    [improvement_percent] 0.0, [is_significant] false, [p_value] 1.0 and
    the confidence interval (0.0, 0.0), whatever the optimized scores. *)
Theorem analyze_results_without_baseline (st : ABTestingFramework)
  (experiment_id metric_key : string) (cl : float) :
  rows_of st experiment_id <> [] ->
  scores_of "baseline" metric_key (rows_of st experiment_id) = [] ->
  let os := scores_of "optimized" metric_key (rows_of st experiment_id) in
  analyze_results st experiment_id metric_key cl
  = Return {| res_experiment_id := experiment_id;
              baseline_mean := 0.0;
              optimized_mean := match os with [] => 0.0 | _ => PyFloat.mean os end;
              baseline_count := 0;
              optimized_count := List.length os;
              improvement_percent := 0.0;
              is_significant := false;
              p_value := 1.0;
              confidence_interval := (0.0, 0.0) |}.
Proof.
  unfold analyze_results. fold (rows_of st experiment_id).
  destruct (rows_of st experiment_id) as [|row rows]; [contradiction|].
  intros _ Hb. cbv zeta. rewrite Hb. reflexivity.
Qed.

End ABTestingAnalysis.

Section ABTestingTraffic.
Import ABTesting.
Local Open Scope float_scope.

Lemma SFltb_leb_trans (a b c : spec_float) :
  SFltb a b = true -> SFleb b c = true -> SFltb a c = true.
Proof.
  unfold SFltb, SFleb, SFcompare.
  destruct a as [sa|sa| |sa ma ea], b as [sb|sb| |sb mb eb],
    c as [sc|sc| |sc mc ec];
    try (destruct sa); try (destruct sb); try (destruct sc);
    try (intros; reflexivity); try (intros H; discriminate H);
    try (intros _ H; discriminate H).
  all: change (PosDef.Pos.compare_cont Eq) with Pos.compare.
  all: destruct (Z.compare_spec ea eb), (Z.compare_spec eb ec),
         (Z.compare_spec ea ec);
       try (intros; reflexivity); try (intros H; discriminate H);
       try (intros _ H; discriminate H); try lia.
  all: destruct (Pos.compare_spec ma mb), (Pos.compare_spec mb mc),
         (Pos.compare_spec ma mc); cbn [CompOpp];
       try (intros; reflexivity); try (intros H; discriminate H);
       try (intros _ H; discriminate H); try lia.
Qed.

Lemma SF_nonneg_nonpos (a b : spec_float) :
  SFleb (S754_zero false) a = true -> SFleb b (S754_zero false) = true ->
  SFltb a b = false.
Proof.
  unfold SFltb, SFleb, SFcompare.
  destruct a as [sa|sa| |sa ma ea], b as [sb|sb| |sb mb eb];
    try (destruct sa); try (destruct sb);
    try (intros; reflexivity); try (intros H; discriminate H);
    try (intros _ H; discriminate H).
Qed.

Lemma spec_of_zero : Prim2SF 0 = S754_zero false.
Proof.
  vm_compute. reflexivity.
Qed.

(** A draw below 1 is below every ratio of at least 1. *)
Lemma draw_below_ratio (draw ratio : float) :
  (draw <? 1) = true -> (1 <=? ratio) = true -> (draw <? ratio) = true.
Proof.
  rewrite !ltb_spec, leb_spec. apply SFltb_leb_trans.
Qed.

(** A draw of at least 0 is below no ratio of at most 0. *)
Lemma draw_not_below_ratio (draw ratio : float) :
  (0 <=? draw) = true -> (ratio <=? 0) = true -> (draw <? ratio) = false.
Proof.
  rewrite ltb_spec, !leb_spec, spec_of_zero. apply SF_nonneg_nonpos.
Qed.

(** X14.  [assign_variant] on an experiment whose stored split ratio is
    [ratio], for a draw in [0, 1): the answer is "baseline" when the draw
    is below the ratio and "optimized" otherwise; so a ratio of 1 or more
    sends every draw to "baseline" and a ratio of 0 or less sends every
    draw to "optimized". *)
Theorem assign_variant_by_ratio (st : ABTestingFramework) (draw ratio : float)
  (experiment_id : string) (row : Experiment) :
  find (fun e => (id e =? experiment_id)%string) (experiments st) = Some row ->
  split_ratio row = Some ratio ->
  (0 <=? draw) = true -> (draw <? 1) = true ->
  assign_variant st draw experiment_id
  = Return (if draw <? ratio then "baseline"%string else "optimized"%string)
  /\ ((1 <=? ratio) = true ->
      assign_variant st draw experiment_id = Return "baseline"%string)
  /\ ((ratio <=? 0) = true ->
      assign_variant st draw experiment_id = Return "optimized"%string).
Proof.
  intros Hf Hr H0 H1. unfold assign_variant. rewrite Hf, Hr.
  split; [reflexivity|]. split; intros H.
  - now rewrite (draw_below_ratio draw ratio H1 H).
  - now rewrite (draw_not_below_ratio draw ratio H0 H).
Qed.

End ABTestingTraffic.

Section ABTestingLifecycle.
Import ABTesting.

Lemma status_of_map (g : Experiment -> Experiment) (x : string)
  (l : list Experiment) :
  (forall e, id (g e) = id e) ->
  find (fun e => (id e =? x)%string) (map g l)
  = option_map g (find (fun e => (id e =? x)%string) l).
Proof.
  intros Hg. induction l as [|a l IH]; simpl; [reflexivity|].
  rewrite Hg. destruct (id a =? x)%string; [reflexivity|exact IH].
Qed.

Lemma find_app_first (f : Experiment -> bool) (l1 l2 : list Experiment)
  (e : Experiment) :
  find f l1 = Some e -> find f (l1 ++ l2) = Some e.
Proof.
  induction l1 as [|a l1 IH]; simpl; [discriminate|].
  destruct (f a); [trivial|exact IH].
Qed.

Lemma step_keeps_stopped (st : ABTestingFramework) (c : Call) (x : string) :
  status_of st x = Some "stopped" -> status_of (step st c) x = Some "stopped".
Proof.
  unfold status_of. intros H.
  destruct (find (fun e => (id e =? x)%string) (experiments st)) as [e|] eqn:Hf;
    [|discriminate H].
  destruct c as [u n nm mt b o sr no|u n eid v m|eid]; simpl.
  - unfold create_experiment.
    destruct (existsb _ (experiments st)); simpl; [now rewrite Hf|].
    now rewrite (find_app_first _ _ _ e Hf).
  - unfold record_evaluation.
    destruct (existsb _ (ab_evaluations st)); simpl; now rewrite Hf.
  - rewrite status_of_map.
    + rewrite Hf. simpl. destruct (id e =? eid)%string; [reflexivity|exact H].
    + intros e0. destruct (id e0 =? eid)%string; reflexivity.
Qed.

(** X16.  Stopping is one way: [stop_experiment] sets the status of an
    existing experiment to "stopped" and touches neither the other
    experiments' status nor any evaluation, and once an experiment is
    stopped it stays stopped under every later sequence of
    [create_experiment], [record_evaluation] and [stop_experiment] calls;
    recording evaluations for it is still accepted. *)
Theorem stopped_stays_stopped (st : ABTestingFramework) (x : string) :
  (In x (map id (experiments st)) ->
   status_of (stop_experiment st x) x = Some "stopped")
  /\ (forall y, y <> x -> status_of (stop_experiment st x) y = status_of st y)
  /\ ab_evaluations (stop_experiment st x) = ab_evaluations st
  /\ (forall calls, status_of st x = Some "stopped" ->
      status_of (run calls st) x = Some "stopped")
  /\ (forall uuid_hex now variant metrics,
       existsb (fun e => (eval_id e =? "eval_" ++ hex12 uuid_hex)%string)
               (ab_evaluations (stop_experiment st x)) = false ->
       fst (record_evaluation (stop_experiment st x) uuid_hex now x variant
              metrics) = Return tt).
Proof.
  split; [|split; [|split; [|split]]].
  - intros Hin. unfold status_of, stop_experiment. simpl.
    rewrite status_of_map
      by (intros e0; destruct (id e0 =? x)%string; reflexivity).
    destruct (find (fun e => (id e =? x)%string) (experiments st)) as [e|] eqn:Hf.
    + apply find_some in Hf. destruct Hf as [_ Hf]. simpl. now rewrite Hf.
    + exfalso. apply in_map_iff in Hin. destruct Hin as [e [He Hin]].
      pose proof (find_none _ _ Hf e Hin) as Hn. simpl in Hn.
      apply String.eqb_neq in Hn. contradiction.
  - intros y Hy. unfold status_of, stop_experiment. simpl.
    rewrite status_of_map
      by (intros e0; destruct (id e0 =? x)%string; reflexivity).
    destruct (find (fun e => (id e =? y)%string) (experiments st)) as [e|] eqn:Hf;
      [|reflexivity].
    apply find_some in Hf. destruct Hf as [_ Hf]. apply String.eqb_eq in Hf.
    simpl. destruct (String.eqb_spec (id e) x) as [E|E]; [congruence|reflexivity].
  - reflexivity.
  - intros calls. revert st. induction calls as [|c calls IH]; intros st H;
      simpl; [exact H|].
    apply IH. now apply step_keeps_stopped.
  - intros uuid_hex now variant metrics H. unfold record_evaluation.
    now rewrite H.
Qed.

Lemma step_keeps_null_ratio (st : ABTestingFramework) (c : Call) (x : string)
  (row : Experiment) :
  find (fun e => (id e =? x)%string) (experiments st) = Some row ->
  split_ratio row = None ->
  exists row', find (fun e => (id e =? x)%string) (experiments (step st c))
               = Some row'
               /\ split_ratio row' = None.
Proof.
  intros Hf Hr.
  destruct c as [u n nm mt b o sr no|u n eid v m|eid]; simpl.
  - unfold create_experiment.
    destruct (existsb _ (experiments st)); simpl; [now exists row|].
    exists row. split; [now apply find_app_first|exact Hr].
  - unfold record_evaluation.
    destruct (existsb _ (ab_evaluations st)); simpl; now exists row.
  - rewrite status_of_map
      by (intros e0; destruct (id e0 =? eid)%string; reflexivity).
    rewrite Hf. simpl. eexists. split; [reflexivity|].
    destruct (id row =? eid)%string; exact Hr.
Qed.

Lemma run_keeps_null_ratio (calls : list Call) :
  forall (st : ABTestingFramework) (x : string) (row : Experiment),
  find (fun e => (id e =? x)%string) (experiments st) = Some row ->
  split_ratio row = None ->
  exists row', find (fun e => (id e =? x)%string) (experiments (run calls st))
               = Some row'
               /\ split_ratio row' = None.
Proof.
  induction calls as [|c calls IH]; intros st x row Hf Hr; simpl.
  - now exists row.
  - destruct (step_keeps_null_ratio st c x row Hf Hr) as [row' [Hf' Hr']].
    now apply (IH _ _ row').
Qed.

Lemma find_app_last (f : Experiment -> bool) (l : list Experiment)
  (e : Experiment) :
  existsb f l = false -> f e = true -> find f (l ++ [e]) = Some e.
Proof.
  intros Hl He. induction l as [|a l IH]; simpl in *; [now rewrite He|].
  apply orb_false_elim in Hl. destruct Hl as [Ha Hl]. rewrite Ha.
  now apply IH.
Qed.

(** X15.  [assign_variant] for an id that no experiment carries raises
    [ValueError].  An experiment created with a NaN split ratio, on any
    store (the call is accepted whenever the generated id is new, and the
    table holds the ratio as [NULL]), makes [assign_variant] raise for
    every draw (the comparison of the draw with [None]), right after the
    creation and after every later sequence of [create_experiment],
    [record_evaluation] and [stop_experiment] calls. *)
Theorem assign_variant_failures (st : ABTestingFramework) (draw : float)
  (experiment_id : string) :
  (find (fun e => (id e =? experiment_id)%string) (experiments st) = None ->
   assign_variant st draw experiment_id
   = Raise (ValueError ("Experiment not found: " ++ experiment_id)))
  /\ (forall uuid_hex now name mt b o ratio notes,
       PrimFloat.is_nan ratio = true ->
       let created :=
         create_experiment st uuid_hex now name mt b o ratio notes in
       let new_id := ("exp_" ++ hex12 uuid_hex)%string in
       (existsb (fun e => (id e =? new_id)%string) (experiments st) = false ->
        fst created = Return new_id)
       /\ (fst created = Return new_id ->
           forall calls,
             assign_variant (run calls (snd created)) draw new_id
             = Raise (ExternalError "TypeError"))).
Proof.
  split.
  - intros Hf. unfold assign_variant. now rewrite Hf.
  - intros uuid_hex now name mt b o ratio notes Hnan created new_id.
    subst created new_id. unfold create_experiment.
    destruct (existsb _ (experiments st)) eqn:He; cbn [fst snd].
    + split; discriminate.
    + split; [reflexivity|]. intros _ calls.
      match goal with
      | |- context [(experiments st ++ [?e])%list] =>
          destruct (run_keeps_null_ratio calls
                      {| experiments := (experiments st ++ [e])%list;
                         ab_evaluations := ab_evaluations st |}
                      ("exp_" ++ hex12 uuid_hex)%string e)
            as [row' [Hf' Hr']]
      end.
      * cbn [experiments]. apply find_app_last; [exact He|].
        cbn [id]. apply String.eqb_refl.
      * cbn [split_ratio]. unfold bind_real. now rewrite Hnan.
      * unfold assign_variant. now rewrite Hf', Hr'.
Qed.

End ABTestingLifecycle.

(** * Further properties of the performance tracker *)

Section TrackerHistory.
Import Tracker.
Local Open Scope float_scope.

Lemma sorted_firstn (n : nat) (l : list Snapshot) :
  Sorted not_older l -> Sorted not_older (firstn n l).
Proof.
  revert l. induction n as [|n IH]; intros l Hs; [constructor|].
  destruct l as [|a l]; [constructor|]. simpl.
  inversion Hs as [|a' l' Hs' Hhd]; subst.
  constructor; [now apply IH|].
  destruct l as [|b l]; [destruct n; constructor|].
  destruct n; [constructor|]. simpl. constructor. now inversion Hhd.
Qed.

Lemma in_firstn (n : nat) (l : list Snapshot) (r : Snapshot) :
  In r (firstn n l) -> In r l.
Proof.
  revert l. induction n as [|n IH]; intros [|a l] H; simpl in H;
    try contradiction.
  destruct H as [H|H]; [now left|right; now apply IH].
Qed.


Lemma get_history_limited (st : PerformanceTracker) (mt : string) (n : Z) :
  (0 < n)%Z ->
  get_history st mt (Some n)
  = firstn (Z.to_nat n) (order_by_timestamp_desc (snapshots_of st mt)).
Proof.
  unfold get_history, apply_limit, snapshots_of. intros H.
  destruct (n <=? 0)%Z eqn:E; [apply Z.leb_le in E; lia|reflexivity].
Qed.









End TrackerHistory.

(** * Properties of the tracker's summary *)

Section TrackerSummary.
Import Tracker.
Local Open Scope float_scope.

Lemma string_leb_trans (a b c : string) :
  String.leb a b = true -> String.leb b c = true -> String.leb a c = true.
Proof.
  assert (H : forall a b c : string,
             String.compare a b <> Gt -> String.compare b c <> Gt ->
             String.compare a c <> Gt).
  { clear a b c. induction a as [|x a IH]; intros [|y b] [|z c]; simpl;
      try congruence.
    unfold Ascii.compare.
    destruct (N.compare_spec (N_of_ascii x) (N_of_ascii y)) as [Exy|Lxy|Gxy];
      destruct (N.compare_spec (N_of_ascii y) (N_of_ascii z)) as [Eyz|Lyz|Gyz];
      try congruence.
    - rewrite Exy, Eyz, N.compare_refl. apply IH.
    - intros _ _. rewrite Exy. apply N.compare_lt_iff in Lyz. now rewrite Lyz.
    - intros _ _. rewrite <- Eyz. apply N.compare_lt_iff in Lxy. now rewrite Lxy.
    - intros _ _. assert (L : (N_of_ascii x < N_of_ascii z)%N) by lia.
      apply N.compare_lt_iff in L. now rewrite L. }
  unfold String.leb. intros Hab Hbc.
  destruct (String.compare a c) eqn:E; try reflexivity.
  exfalso. apply (H a b c); [| |exact E].
  - destruct (String.compare a b); congruence.
  - destruct (String.compare b c); congruence.
Qed.

Lemma not_older_refl (a : Snapshot) : not_older a a.
Proof.
  unfold not_older.
  now destruct (String.leb_total (timestamp a) (timestamp a)).
Qed.

Lemma not_older_trans : Relations_1.Transitive not_older.
Proof.
  intros a b c Hab Hbc. unfold not_older in *.
  eapply string_leb_trans; eassumption.
Qed.

Lemma strongly_sorted_firstn (n : nat) (l : list Snapshot) :
  StronglySorted not_older l -> StronglySorted not_older (firstn n l).
Proof.
  intros H. apply Sorted_StronglySorted; [exact not_older_trans|].
  apply sorted_firstn. now apply StronglySorted_Sorted.
Qed.

Lemma strongly_sorted_last (l : list Snapshot) (d r : Snapshot) :
  StronglySorted not_older l -> In r l -> not_older r (last l d).
Proof.
  induction l as [|a l IH]; intros Hs Hr; [destruct Hr|].
  apply StronglySorted_inv in Hs. destruct Hs as [Hs Ha].
  destruct l as [|b l].
  - destruct Hr as [->|[]]. apply not_older_refl.
  - change (last (a :: b :: l) d) with (last (b :: l) d).
    destruct Hr as [<-|Hr]; [|now apply IH].
    rewrite Forall_forall in Ha. apply Ha.
    destruct (exists_last (l:=b :: l)) as [l' [z Hz]]; [discriminate|].
    rewrite Hz, last_last. apply in_or_app. right. now left.
Qed.

Lemma last_in (l : list Snapshot) (a d : Snapshot) : In (last (a :: l) d) (a :: l).
Proof.
  destruct (exists_last (l:=a :: l)) as [l' [z Hz]]; [discriminate|].
  rewrite Hz, last_last. apply in_or_app. right. now left.
Qed.

Lemma firstn_whole (n : nat) (l : list Snapshot) :
  (List.length l <= n)%nat -> firstn n l = l.
Proof.
  revert l. induction n as [|n IH]; intros [|a l] H; simpl in *;
    try reflexivity; try lia.
  f_equal. apply IH. lia.
Qed.

Lemma float_ltb_irrefl (x : float) : (x <? x) = false.
Proof.
  rewrite ltb_spec. unfold SFltb, SFcompare.
  destruct (Prim2SF x) as [s|s| |s m e]; try reflexivity.
  - now destruct s.
  - rewrite Z.compare_refl.
    change (PosDef.Pos.compare_cont Eq m m) with (Pos.compare m m).
    rewrite Pos.compare_refl. now destruct s.
Qed.

Lemma get_summary_shape (st : PerformanceTracker) (mt : string) :
  let s := get_summary st mt in
  let matching := snapshots_of st mt in
  let score r := dict_get (metrics r) "mean_score" 0.0 in
  snapshots_count s = Nat.min 100 (List.length matching)
  /\ (matching = [] ->
      s = {| summary_module_type := mt; snapshots_count := 0; latest := None;
             trend := None; trend_percent := None; first_snapshot := None;
             last_snapshot := None |})
  /\ (matching <> [] ->
      exists newest oldest,
        In newest matching /\ In oldest matching
        /\ latest s = Some newest
        /\ last_snapshot s = Some (timestamp newest)
        /\ first_snapshot s = Some (timestamp oldest)
        /\ (forall r, In r matching -> not_older newest r)
        /\ ((List.length matching <= 100)%nat ->
            forall r, In r matching -> not_older r oldest)
        /\ trend s = Some (if score oldest <? score newest
                           then "improving"%string else "declining"%string)).
Proof.
  intros s matching score.
  pose proof (order_by_timestamp_desc_perm matching) as Hperm.
  assert (Hss : StronglySorted not_older (order_by_timestamp_desc matching)).
  { apply Sorted_StronglySorted; [exact not_older_trans|].
    apply order_by_timestamp_desc_sorted. }
  assert (Hh : get_history st mt (Some 100%Z)
               = firstn 100 (order_by_timestamp_desc matching))
    by (apply (get_history_limited st mt 100); lia).
  assert (Hlen : List.length (get_history st mt (Some 100%Z))
                 = Nat.min 100 (List.length matching)).
  { rewrite Hh, length_firstn. now rewrite <- (Permutation_length Hperm). }
  unfold s, get_summary.
  destruct (order_by_timestamp_desc matching) as [|newest sorted] eqn:Hord.
  - apply Permutation_sym, Permutation_nil in Hperm.
    rewrite Hh. simpl. rewrite Hperm. simpl.
    split; [reflexivity|]. split; [reflexivity|]. intros Hne. now elim Hne.
  - rewrite Hh in Hlen |- *.
    change (firstn 100 (newest :: sorted)) with (newest :: firstn 99 sorted)
      in Hlen |- *.
    cbv zeta. cbn [snapshots_count latest last_snapshot first_snapshot trend].
    split; [exact Hlen|]. split.
    { intros Hm. rewrite Hm in Hperm. apply Permutation_nil in Hperm.
      discriminate Hperm. }
    intros _. exists newest, (last (newest :: firstn 99 sorted) newest).
    assert (Hsub : forall r, In r (newest :: firstn 99 sorted) -> In r matching).
    { intros r Hr. apply (Permutation_in _ (Permutation_sym Hperm)).
      destruct Hr as [<-|Hr]; [now left|right; now apply (in_firstn 99)]. }
    split; [apply Hsub; now left|]. split; [apply Hsub, last_in|].
    split; [reflexivity|]. split; [reflexivity|]. split; [reflexivity|].
    split; [|split; [|reflexivity]].
    + intros r Hr. apply (Permutation_in _ Hperm) in Hr.
      destruct Hr as [<-|Hr]; [apply not_older_refl|].
      apply StronglySorted_inv in Hss. destruct Hss as [_ Hall].
      rewrite Forall_forall in Hall. now apply Hall.
    + intros Hle r Hr.
      rewrite (Permutation_length Hperm) in Hle. simpl in Hle.
      rewrite (firstn_whole 99 sorted) by lia.
      apply strongly_sorted_last; [exact Hss|].
      now apply (Permutation_in _ Hperm).
Qed.

Lemma strongly_sorted_app_cross (l1 l2 : list Snapshot) :
  StronglySorted not_older (l1 ++ l2) ->
  forall x y, In x l1 -> In y l2 -> not_older x y.
Proof.
  induction l1 as [|a l1 IH]; intros Hs x y Hx Hy; [contradiction|].
  simpl in Hs. apply StronglySorted_inv in Hs. destruct Hs as [Hs Ha].
  destruct Hx as [<-|Hx]; [|now apply IH].
  rewrite Forall_forall in Ha. apply Ha, in_or_app. now right.
Qed.

(** X20.  [get_summary] looks at the 100 newest snapshots of the module
    type, the history [get_history] gives for the limit 100.  With no
    snapshot of the type it returns the short dictionary (count 0, no
    latest, no trend).  Otherwise [snapshots_count] is the smaller of 100
    and their number; [latest] is the head of that history, a snapshot
    that none of the type is newer than, and [last_snapshot] its
    timestamp; [first_snapshot] is the timestamp of the last snapshot of
    that history: no snapshot looked at is older than it, and every
    snapshot of the type that is not looked at (there is none when the
    type has at most 100) is at least as old; [trend] is "improving" when
    the "mean_score" of the latest is greater than that of this oldest one
    and "declining" in every other case, and [trend_percent] is the
    relative difference of the two in percent, 0.0 when the older score is
    not positive. *)
Theorem get_summary_spec (st : PerformanceTracker) (mt : string) :
  let s := get_summary st mt in
  let matching := snapshots_of st mt in
  let score r := dict_get (metrics r) "mean_score" 0.0 in
  snapshots_count s = Nat.min 100 (List.length matching)
  /\ (matching = [] ->
      s = {| summary_module_type := mt; snapshots_count := 0; latest := None;
             trend := None; trend_percent := None; first_snapshot := None;
             last_snapshot := None |})
  /\ (matching <> [] ->
      exists newest rest older,
        let oldest := last (newest :: rest) newest in
        get_history st mt (Some 100%Z) = newest :: rest
        /\ Permutation matching (newest :: rest ++ older)
        /\ ((List.length matching <= 100)%nat -> older = [])
        /\ In newest matching /\ In oldest matching
        /\ (forall r, In r matching -> not_older newest r)
        /\ (forall r, In r (newest :: rest) -> not_older r oldest)
        /\ (forall r, In r older -> not_older oldest r)
        /\ latest s = Some newest
        /\ last_snapshot s = Some (timestamp newest)
        /\ first_snapshot s = Some (timestamp oldest)
        /\ trend s = Some (if score oldest <? score newest
                           then "improving"%string else "declining"%string)
        /\ trend_percent s
           = Some (if 0 <? score oldest
                   then (score newest - score oldest) / score oldest * 100
                   else 0.0)).
Proof.
  intros s matching score.
  destruct (get_summary_shape st mt) as [Hcount [Hempty _]].
  fold s matching in Hcount, Hempty.
  split; [exact Hcount|]. split; [exact Hempty|]. intros Hne.
  pose proof (order_by_timestamp_desc_perm matching) as Hperm.
  assert (Hss : StronglySorted not_older (order_by_timestamp_desc matching)).
  { apply Sorted_StronglySorted; [exact not_older_trans|].
    apply order_by_timestamp_desc_sorted. }
  assert (Hh : get_history st mt (Some 100%Z)
               = firstn 100 (order_by_timestamp_desc matching))
    by (apply (get_history_limited st mt 100); lia).
  unfold s, get_summary. rewrite Hh.
  destruct (order_by_timestamp_desc matching) as [|newest sorted] eqn:Hord.
  { apply Permutation_sym, Permutation_nil in Hperm. contradiction. }
  change (firstn 100 (newest :: sorted)) with (newest :: firstn 99 sorted).
  exists newest, (firstn 99 sorted), (skipn 99 sorted).
  cbv zeta. cbn [latest last_snapshot first_snapshot trend trend_percent].
  assert (Hsplit : (newest :: firstn 99 sorted ++ skipn 99 sorted)%list
                   = newest :: sorted) by now rewrite firstn_skipn.
  assert (Hlast : In (last (newest :: firstn 99 sorted) newest)
                     (newest :: firstn 99 sorted))
    by apply last_in.
  assert (Hsub : forall r, In r (newest :: firstn 99 sorted) -> In r matching).
  { intros r Hr. apply (Permutation_in _ (Permutation_sym Hperm)).
    destruct Hr as [<-|Hr]; [now left|right; now apply (in_firstn 99)]. }
  split; [reflexivity|]. split; [now rewrite Hsplit|]. split.
  { intros Hle. rewrite (Permutation_length Hperm) in Hle. simpl in Hle.
    apply skipn_all2. lia. }
  split; [apply Hsub; now left|]. split; [now apply Hsub|].
  split; [|split; [|split; [|repeat split]]].
  - intros r Hr. apply (Permutation_in _ Hperm) in Hr.
    destruct Hr as [<-|Hr]; [apply not_older_refl|].
    apply StronglySorted_inv in Hss. destruct Hss as [_ Hall].
    rewrite Forall_forall in Hall. now apply Hall.
  - intros r Hr.
    apply strongly_sorted_last; [|exact Hr].
    apply (strongly_sorted_firstn 100 (newest :: sorted)). exact Hss.
  - intros r Hr.
    apply (strongly_sorted_app_cross (newest :: firstn 99 sorted)
             (skipn 99 sorted)); [|exact Hlast|exact Hr].
    rewrite <- app_comm_cons, Hsplit. exact Hss.
Qed.

(** X21.  A module type whose snapshots all carry the same "mean_score"
    (one snapshot alone, for instance) is reported as "declining": the
    trend is "improving" only for a strictly greater latest score, and
    there is no third answer. *)
Theorem flat_scores_reported_declining (st : PerformanceTracker) (mt : string)
  (x : float) :
  snapshots_of st mt <> [] ->
  (forall r, In r (snapshots_of st mt) ->
             dict_get (metrics r) "mean_score" 0.0 = x) ->
  trend (get_summary st mt) = Some "declining"%string.
Proof.
  intros Hne Hflat.
  destruct (get_summary_shape st mt) as [_ [_ H]].
  destruct (H Hne) as [newest [oldest [Hn [Ho [_ [_ [_ [_ [_ Ht]]]]]]]]].
  rewrite Ht, (Hflat newest Hn), (Hflat oldest Ho).
  now rewrite float_ltb_irrefl.
Qed.

End TrackerSummary.

(** * Further properties of the optimization pipeline *)

Section PipelineOutcome.
Import Pipeline.
Local Open Scope float_scope.

Context {Example Prediction Obj Blob : Type}.
Variable pickle_dump : Obj -> Blob.
Variable path_join : string -> string -> string.
Variable open_error : string -> option Exn.
Variable pickle_error : Obj -> option Exn.
Variable forward : Obj -> Example -> Result Prediction.
Variable rubric_metric : Example -> Prediction -> Result float.
Variable judge_metric : Example -> Prediction -> Result float.
Variable RubricOptimizer : Obj.
Variable SelfImprovingJudge : string -> Obj.
Variable compile :
  (Example -> Prediction -> Result float) -> Z -> float ->
  Obj -> list Example -> Z -> Z -> Z -> Result Obj.

Local Abbreviation register_optimized :=
  (Pipeline.register_optimized pickle_dump path_join
      open_error pickle_error forward).
Local Abbreviation optimize_rubric :=
  (Pipeline.optimize_rubric pickle_dump path_join
      open_error pickle_error forward rubric_metric
     RubricOptimizer compile).
Local Abbreviation optimize_judge :=
  (Pipeline.optimize_judge pickle_dump path_join
      open_error pickle_error forward judge_metric
     SelfImprovingJudge compile).
Local Abbreviation optimize_judges_loop :=
  (Pipeline.optimize_judges_loop pickle_dump path_join
      open_error pickle_error forward judge_metric
     SelfImprovingJudge compile).
Local Abbreviation optimize_all_judges :=
  (Pipeline.optimize_all_judges pickle_dump path_join
      open_error pickle_error forward judge_metric
     SelfImprovingJudge compile).

Lemma reflag_fresh (model_id mt : string) (l : list Registry.ModelRow) :
  ~ In model_id (map Registry.id l) ->
  map (Registry.reflag model_id mt) l = Registry.deactivate_type mt l.
Proof.
  intros Hfresh. unfold Registry.deactivate_type. apply map_ext_in.
  intros r Hr. unfold Registry.reflag.
  now rewrite (fresh_id_eqb model_id l Hfresh r Hr).
Qed.

(** What the registry holds after the registration step of an optimization
    whose model id is new, on a host that lets the registration through. *)
Lemma register_optimized_fresh (registry : Registry.ModelRegistry Blob)
  (now1 now2 model_id mt notes : string) (m : Obj)
  (metric : Example -> Prediction -> Result float)
  (trainset valset : list Example) (baseline_mean : float)
  (num_trials num_candidates : Z) (init_temperature : float) :
  let version := Registry._get_next_version registry mt in
  let file_path := Registry.pickle_path path_join registry mt version now1 in
  ~ In model_id (map Registry.id (Registry.models registry)) ->
  open_error file_path = None ->
  pickle_error m = None ->
  Registry.fits_int64 version = true ->
  Registry.fits_int64 (Z.of_nat (List.length trainset)) = true ->
  let optimized_mean := mean_or_zero (evaluate forward m metric valset) in
  let improvement :=
    if 0 <? baseline_mean
    then (optimized_mean - baseline_mean) / baseline_mean * 100
    else 0.0 in
  register_optimized registry now1 now2 model_id mt notes m metric trainset
    valset baseline_mean num_trials num_candidates init_temperature
  = (Return m,
     {| Registry.models_dir := Registry.models_dir registry;
        Registry.models :=
          ((if 5.0 <? improvement
            then Registry.deactivate_type mt (Registry.models registry)
            else Registry.models registry)
           ++ [ {| Registry.id := model_id; Registry.module_type := mt;
                   Registry.version := version; Registry.created_at := now2;
                   Registry.file_path := file_path;
                   Registry.metrics :=
                     Some [("baseline_score", baseline_mean);
                           ("optimized_score", optimized_mean);
                           ("improvement_percent", improvement)]%string;
                   Registry.training_examples_count :=
                     Some (Z.of_nat (List.length trainset));
                   Registry.optimization_params :=
                     Some [("num_trials", Registry.PInt num_trials);
                           ("num_candidates", Registry.PInt num_candidates);
                           ("init_temperature",
                            Registry.PFloat init_temperature)]%string;
                   Registry.is_active := 5.0 <? improvement;
                   Registry.notes := Some notes |} ])%list;
        Registry.files :=
          Registry.write_file (Registry.files registry) file_path
            (pickle_dump m) |}).
Proof.
  intros version file_path Hfresh Hopen Hpickle Hversion Hcount
    optimized_mean improvement.
  subst version file_path.
  unfold Pipeline.register_optimized.
  fold optimized_mean. fold improvement.
  match goal with
  | |- context [Registry.register_model ?d ?j ?o ?pe ?st ?a ?b ?c ?e ?f ?g ?h
                  ?i ?k ?l] =>
      pose proof (register_model_cases d j o pe st a b c e f g h i k l) as H
  end.
  cbv beta iota zeta in H.
  rewrite Hopen, Hpickle, Hversion in H. cbn [Registry.bindable andb] in H.
  rewrite Hcount,
    (fresh_auto_version_accepted registry model_id mt Hfresh) in H.
  rewrite H. clear H.
  destruct (5.0 <? improvement) eqn:Himp; [|reflexivity].
  unfold Registry.set_active_model. cbn [Registry.models].
  rewrite (find_app_fresh _ (Registry.models registry) _
             (fresh_id_eqb model_id _ Hfresh))
    by (cbn; apply String.eqb_refl).
  cbn [Registry.module_type Registry.models_dir Registry.files].
  rewrite updates_as_reflag, map_app, (reflag_fresh _ _ _ Hfresh).
  cbn [map]. unfold Registry.reflag at 1. cbn [Registry.id].
  rewrite String.eqb_refl. reflexivity.
Qed.

(** X22.  A successful optimization under a model id that is new to the
    registry, on a host where the pickle file can be opened, the compiled
    module can be pickled, and the next version and the size of the
    training set are inside SQLite's integer range: [optimize_rubric]
    returns the compiled module; the table is the old one followed by one
    row, which carries the next version of "rubric_optimizer", the three
    scores, the size of the training set and the optimizer's parameters;
    that row is active, and every older row of the type inactive, exactly
    when the improvement is above 5 percent, and otherwise the older rows
    are as they were.  [optimize_judge] does the same for
    "judge_<type>". *)
Theorem optimization_outcome (registry : Registry.ModelRegistry Blob)
  (uuid_hex now1 now2 judge_type : string) (trainset : list Example)
  (valset : option (list Example))
  (metric : option (Example -> Prediction -> Result float))
  (num_trials num_candidates : Z) (init_temperature : float) (m : Obj) :
  let registrable (mt model_id : string) :=
    ~ In model_id (map Registry.id (Registry.models registry))
    /\ open_error
         (Registry.pickle_path path_join registry mt
            (Registry._get_next_version registry mt) now1) = None
    /\ pickle_error m = None
    /\ Registry.fits_int64 (Registry._get_next_version registry mt) = true
    /\ Registry.fits_int64 (Z.of_nat (List.length trainset)) = true in
  let registered (mt model_id notes : string) (baseline_module : Obj)
        (metric : Example -> Prediction -> Result float) :=
    let valset := valset_or valset trainset in
    let baseline_mean :=
      mean_or_zero (evaluate forward baseline_module metric valset) in
    let optimized_mean := mean_or_zero (evaluate forward m metric valset) in
    let improvement :=
      if 0 <? baseline_mean
      then (optimized_mean - baseline_mean) / baseline_mean * 100
      else 0.0 in
    let version := Registry._get_next_version registry mt in
    let file_path :=
      Registry.pickle_path path_join registry mt version now1 in
    (Return m,
     {| Registry.models_dir := Registry.models_dir registry;
        Registry.models :=
          ((if 5.0 <? improvement
            then Registry.deactivate_type mt (Registry.models registry)
            else Registry.models registry)
           ++ [ {| Registry.id := model_id; Registry.module_type := mt;
                   Registry.version := version; Registry.created_at := now2;
                   Registry.file_path := file_path;
                   Registry.metrics :=
                     Some [("baseline_score", baseline_mean);
                           ("optimized_score", optimized_mean);
                           ("improvement_percent", improvement)]%string;
                   Registry.training_examples_count :=
                     Some (Z.of_nat (List.length trainset));
                   Registry.optimization_params :=
                     Some [("num_trials", Registry.PInt num_trials);
                           ("num_candidates", Registry.PInt num_candidates);
                           ("init_temperature",
                            Registry.PFloat init_temperature)]%string;
                   Registry.is_active := 5.0 <? improvement;
                   Registry.notes := Some notes |} ])%list;
        Registry.files :=
          Registry.write_file (Registry.files registry) file_path
            (pickle_dump m) |}) in
  (let metric' := match metric with Some m => m | None => rubric_metric end in
   let model_id := ("rubric_optimizer_" ++ hex8 uuid_hex)%string in
   compile metric' num_candidates init_temperature RubricOptimizer trainset
     num_trials 4 4 = Return m ->
   registrable "rubric_optimizer"%string model_id ->
   optimize_rubric registry uuid_hex now1 now2 trainset valset metric
     num_trials num_candidates init_temperature
   = registered "rubric_optimizer"%string model_id
       ("MIPROv2 optimization with " ++ Registry.str_of_int num_trials
        ++ " trials")%string RubricOptimizer metric')
  /\ (let metric' := match metric with Some m => m | None => judge_metric end in
      let model_id := ("judge_" ++ judge_type ++ "_" ++ hex8 uuid_hex)%string in
      compile metric' num_candidates init_temperature
        (SelfImprovingJudge judge_type) trainset num_trials 5 5 = Return m ->
      registrable ("judge_" ++ judge_type)%string model_id ->
      optimize_judge registry uuid_hex now1 now2 judge_type trainset valset
        metric num_trials num_candidates init_temperature
      = registered ("judge_" ++ judge_type)%string model_id
          ("MIPROv2 optimization for " ++ judge_type ++ " judge with "
           ++ Registry.str_of_int num_trials ++ " trials")%string
          (SelfImprovingJudge judge_type) metric').
Proof.
  intros registrable registered.
  split; intros metric' model_id Hc [Hfresh [Hopen [Hpickle [Hv Hn]]]].
  - unfold Pipeline.optimize_rubric. fold metric'. rewrite Hc.
    now apply register_optimized_fresh.
  - unfold Pipeline.optimize_judge. fold metric'. rewrite Hc.
    now apply register_optimized_fresh.
Qed.

(** *** An optimization that cannot be compared with its baseline *)

Lemma find_app_inactive (mt : string) (l : list Registry.ModelRow)
  (r : Registry.ModelRow) :
  Registry.is_active r = false ->
  find (fun x => (Registry.module_type x =? mt)%string && Registry.is_active x)
       (l ++ [r])
  = find (fun x => (Registry.module_type x =? mt)%string && Registry.is_active x)
         l.
Proof.
  intros Hr. induction l as [|a l IH]; simpl.
  - now rewrite Hr, andb_false_r.
  - destruct ((Registry.module_type a =? mt)%string && Registry.is_active a);
      [reflexivity|exact IH].
Qed.

Lemma register_optimized_unscored (registry : Registry.ModelRegistry Blob)
  (now1 now2 model_id mt notes : string) (m : Obj)
  (metric : Example -> Prediction -> Result float)
  (trainset valset : list Example)
  (num_trials num_candidates : Z) (init_temperature : float) (mt' : string) :
  let out := register_optimized registry now1 now2 model_id mt notes m metric
               trainset valset 0.0 num_trials num_candidates init_temperature in
  find (fun x => (Registry.module_type x =? mt')%string && Registry.is_active x)
       (Registry.models (snd out))
  = find (fun x => (Registry.module_type x =? mt')%string && Registry.is_active x)
         (Registry.models registry).
Proof.
  unfold Pipeline.register_optimized.
  change (0 <? 0.0) with false. cbv iota. change (5.0 <? 0.0) with false.
  cbv iota.
  match goal with
  | |- context [Registry.register_model ?d ?j ?o ?pe ?st ?a ?b ?c ?e ?f ?g ?h
                  ?i ?k ?l] =>
      pose proof (register_model_rows d j o pe st a b c e f g h i k l)
        as Hrows;
      destruct (Registry.register_model d j o pe st a b c e f g h i k l)
        as [[x|e0] reg'] eqn:Hreg
  end; cbn [fst snd] in *.
  - destruct Hrows as [[[e Hr] _]|[_ [_ [r [Hm [_ [_ [Hact _]]]]]]]];
      [discriminate Hr|].
    rewrite Hm. now apply find_app_inactive.
  - destruct Hrows as [[_ Hm]|[Hr _]]; [|discriminate Hr].
    now rewrite Hm.
Qed.

(** X23.  An optimized model that cannot be compared with its baseline is
    never promoted: when the baseline evaluation yields no score (every
    validation example raised, or there was none), the improvement counts
    as 0.0, and after [optimize_rubric], whatever the optimizer did and
    whether or not the registration went through, the active model of
    every module type is the one that was active before.  The same holds
    of [optimize_judge]. *)
Theorem unscored_baseline_never_activates
  (registry : Registry.ModelRegistry Blob)
  (uuid_hex now1 now2 judge_type : string) (trainset : list Example)
  (valset : option (list Example))
  (metric : option (Example -> Prediction -> Result float))
  (num_trials num_candidates : Z) (init_temperature : float) :
  let active_of (mt : string) (st : Registry.ModelRegistry Blob) :=
    find (fun x => (Registry.module_type x =? mt)%string && Registry.is_active x)
         (Registry.models st) in
  (evaluate forward RubricOptimizer
     (match metric with Some m => m | None => rubric_metric end)
     (valset_or valset trainset) = [] ->
   forall mt,
     active_of mt (snd (optimize_rubric registry uuid_hex now1 now2 trainset
                          valset metric num_trials num_candidates
                          init_temperature))
     = active_of mt registry)
  /\ (evaluate forward (SelfImprovingJudge judge_type)
        (match metric with Some m => m | None => judge_metric end)
        (valset_or valset trainset) = [] ->
      forall mt,
        active_of mt (snd (optimize_judge registry uuid_hex now1 now2
                             judge_type trainset valset metric num_trials
                             num_candidates init_temperature))
        = active_of mt registry).
Proof.
  intros active_of. split; intros Hev mt; unfold active_of.
  - unfold Pipeline.optimize_rubric. rewrite Hev.
    destruct (compile _ _ _ _ _ _ _ _) as [optimized|error]; [|reflexivity].
    apply register_optimized_unscored.
  - unfold Pipeline.optimize_judge. rewrite Hev.
    destruct (compile _ _ _ _ _ _ _ _) as [optimized|error]; [|reflexivity].
    apply register_optimized_unscored.
Qed.

(** *** The registry's invariant across the pipeline *)

Lemma register_optimized_keeps_invariant
  (registry : Registry.ModelRegistry Blob)
  (now1 now2 model_id mt notes : string) (m : Obj)
  (metric : Example -> Prediction -> Result float)
  (trainset valset : list Example) (baseline_mean : float)
  (num_trials num_candidates : Z) (init_temperature : float) :
  Registry.ids_unique (Registry.models registry)
  /\ (forall mt, (Registry.count_active mt (Registry.models registry) <= 1)%nat) ->
  let out := register_optimized registry now1 now2 model_id mt notes m metric
               trainset valset baseline_mean num_trials num_candidates
               init_temperature in
  Registry.ids_unique (Registry.models (snd out))
  /\ (forall mt, (Registry.count_active mt (Registry.models (snd out)) <= 1)%nat).
Proof.
  intros [Hu Hc]. unfold Pipeline.register_optimized.
  match goal with
  | |- context [Registry.register_model ?d ?j ?o ?pe ?st ?a ?b ?c ?e ?f ?g ?h
                  ?i ?k ?l] =>
      pose proof (ids_unique_register d j o pe st a b c e f g h i k l Hu)
        as Hu';
      pose proof (count_active_register d j o pe st a b c e f g h i k l)
        as Hc';
      destruct (Registry.register_model d j o pe st a b c e f g h i k l)
        as [[x|e0] reg'] eqn:Hreg
  end; cbn [fst snd] in *.
  - assert (Hinv : forall mt0,
               (Registry.count_active mt0 (Registry.models reg') <= 1)%nat)
      by (intros mt0; rewrite Hc'; apply Hc).
    destruct (5.0 <? _); [|split; assumption].
    pose proof (ids_unique_set_active reg' model_id Hu') as Hu''.
    pose proof (fun mt0 => count_active_set_active reg' model_id mt0 Hu'
                             (Hinv mt0)) as Hc''.
    destruct (Registry.set_active_model reg' model_id) as [[u|e1] reg''];
      cbn [fst snd] in *; split; assumption.
  - split; [exact Hu'|]. intros mt0. rewrite Hc'. apply Hc.
Qed.

Lemma optimize_judge_keeps_invariant (registry : Registry.ModelRegistry Blob)
  (uuid_hex now1 now2 judge_type : string) (trainset : list Example)
  (valset : option (list Example))
  (metric : option (Example -> Prediction -> Result float))
  (num_trials num_candidates : Z) (init_temperature : float) :
  Registry.ids_unique (Registry.models registry)
  /\ (forall mt, (Registry.count_active mt (Registry.models registry) <= 1)%nat) ->
  let out := optimize_judge registry uuid_hex now1 now2 judge_type trainset
               valset metric num_trials num_candidates init_temperature in
  Registry.ids_unique (Registry.models (snd out))
  /\ (forall mt, (Registry.count_active mt (Registry.models (snd out)) <= 1)%nat).
Proof.
  intros Hinv. unfold Pipeline.optimize_judge.
  destruct (compile _ _ _ _ _ _ _ _) as [optimized|error]; [|exact Hinv].
  now apply register_optimized_keeps_invariant.
Qed.

Lemma optimize_judges_loop_keeps_invariant
  (env : string -> string * string * string)
  (items : list (string * list Example))
  (valsets : option (list (string * list Example)))
  (metric : option (Example -> Prediction -> Result float))
  (num_trials num_candidates : Z) (init_temperature : float) :
  forall (registry : Registry.ModelRegistry Blob) (acc : list (string * Obj)),
  Registry.ids_unique (Registry.models registry)
  /\ (forall mt, (Registry.count_active mt (Registry.models registry) <= 1)%nat) ->
  let out := optimize_judges_loop registry env items valsets metric num_trials
               num_candidates init_temperature acc in
  Registry.ids_unique (Registry.models (snd out))
  /\ (forall mt, (Registry.count_active mt (Registry.models (snd out)) <= 1)%nat).
Proof.
  induction items as [|[judge_type trainset] rest IH]; intros registry acc Hinv;
    [exact Hinv|].
  cbn [Pipeline.optimize_judges_loop].
  destruct (env judge_type) as [[uuid_hex now1] now2].
  match goal with
  | |- context [Pipeline.optimize_judge ?d ?j ?o ?pe ?f ?jm ?sj ?c ?st ?u ?n1
                  ?n2 ?jt ?ts ?vs ?me ?nt ?nc ?it] =>
      pose proof (optimize_judge_keeps_invariant st u n1 n2 jt ts vs me nt nc
                    it Hinv) as Hstep;
      destruct (Pipeline.optimize_judge d j o pe f jm sj c st u n1 n2 jt ts vs
                  me nt nc it) as [[x|e0] reg'] eqn:Hopt
  end; cbn [fst snd] in Hstep; now apply IH.
Qed.

(** X24.  The pipeline keeps the registry's invariant: on a registry with
    pairwise distinct ids and at most one active row per module type,
    [optimize_rubric], [optimize_judge] and [optimize_all_judges] leave a
    registry with pairwise distinct ids and at most one active row per
    module type, whether they return or raise. *)
Theorem pipeline_keeps_invariant (registry : Registry.ModelRegistry Blob)
  (env : string -> string * string * string)
  (uuid_hex now1 now2 judge_type : string) (trainset : list Example)
  (valset : option (list Example))
  (trainsets : list (string * list Example))
  (valsets : option (list (string * list Example)))
  (metric : option (Example -> Prediction -> Result float))
  (num_trials num_candidates : Z) (init_temperature : float) :
  Registry.ids_unique (Registry.models registry) ->
  (forall mt, (Registry.count_active mt (Registry.models registry) <= 1)%nat) ->
  let invariant (st : Registry.ModelRegistry Blob) :=
    Registry.ids_unique (Registry.models st)
    /\ forall mt, (Registry.count_active mt (Registry.models st) <= 1)%nat in
  invariant (snd (optimize_rubric registry uuid_hex now1 now2 trainset valset
                    metric num_trials num_candidates init_temperature))
  /\ invariant (snd (optimize_judge registry uuid_hex now1 now2 judge_type
                       trainset valset metric num_trials num_candidates
                       init_temperature))
  /\ invariant (snd (optimize_all_judges registry env trainsets valsets metric
                       num_trials num_candidates init_temperature)).
Proof.
  intros Hu Hc invariant. assert (Hinv := conj Hu Hc).
  split; [|split].
  - unfold Pipeline.optimize_rubric.
    destruct (compile _ _ _ _ _ _ _ _) as [optimized|error]; [|exact Hinv].
    now apply register_optimized_keeps_invariant.
  - now apply optimize_judge_keeps_invariant.
  - now apply optimize_judges_loop_keeps_invariant.
Qed.

(** *** Optimizing every judge *)

Lemma dict_set_keys (d : list (string * Obj)) (k k' : string) (v : Obj) :
  In k (map fst (dict_set d k' v)) -> k = k' \/ In k (map fst d).
Proof.
  induction d as [|[k0 v0] d IH]; simpl.
  - intros [H|[]]. now left.
  - destruct (String.eqb_spec k0 k') as [E|E]; simpl.
    + intros [H|H]; [now left|right; now right].
    + intros [H|H]; [right; now left|].
      destruct (IH H) as [H'|H']; [now left|right; now right].
Qed.

Lemma optimize_judges_loop_keys
  (env : string -> string * string * string)
  (items : list (string * list Example))
  (valsets : option (list (string * list Example)))
  (metric : option (Example -> Prediction -> Result float))
  (num_trials num_candidates : Z) (init_temperature : float) :
  forall (registry : Registry.ModelRegistry Blob) (acc : list (string * Obj))
         (k : string),
  In k (map fst (fst (optimize_judges_loop registry env items valsets metric
                        num_trials num_candidates init_temperature acc))) ->
  In k (map fst acc) \/ In k (map fst items).
Proof.
  induction items as [|[judge_type trainset] rest IH]; intros registry acc k;
    [now left|].
  cbn [Pipeline.optimize_judges_loop].
  destruct (env judge_type) as [[uuid_hex now1] now2].
  destruct (Pipeline.optimize_judge _ _ _ _ _ _ _ _ _ _ _ _ _ _ _ _ _ _ _)
    as [[x|e0] reg']; intros H; apply IH in H; simpl.
  - destruct H as [H|H]; [|right; now right].
    apply dict_set_keys in H. destruct H as [->|H]; [right; now left|now left].
  - destruct H as [H|H]; [now left|right; now right].
Qed.

Lemma optimize_judges_loop_skips
  (env : string -> string * string * string)
  (judge_type : string) (trainset : list Example)
  (rest : list (string * list Example))
  (valsets : option (list (string * list Example)))
  (metric : option (Example -> Prediction -> Result float))
  (num_trials num_candidates : Z) (init_temperature : float)
  (registry : Registry.ModelRegistry Blob) (acc : list (string * Obj))
  (error : Exn) :
  compile (match metric with Some m => m | None => judge_metric end)
    num_candidates init_temperature (SelfImprovingJudge judge_type) trainset
    num_trials 5 5 = Raise error ->
  optimize_judges_loop registry env ((judge_type, trainset) :: rest) valsets
    metric num_trials num_candidates init_temperature acc
  = optimize_judges_loop registry env rest valsets metric num_trials
      num_candidates init_temperature acc.
Proof.
  intros Hc. cbn [Pipeline.optimize_judges_loop].
  destruct (env judge_type) as [[uuid_hex now1] now2].
  unfold Pipeline.optimize_judge. now rewrite Hc.
Qed.

Lemma optimize_judges_loop_app
  (env : string -> string * string * string)
  (items1 items2 : list (string * list Example))
  (valsets : option (list (string * list Example)))
  (metric : option (Example -> Prediction -> Result float))
  (num_trials num_candidates : Z) (init_temperature : float) :
  forall (registry : Registry.ModelRegistry Blob) (acc : list (string * Obj)),
  optimize_judges_loop registry env (items1 ++ items2) valsets metric
    num_trials num_candidates init_temperature acc
  = let first := optimize_judges_loop registry env items1 valsets metric
                   num_trials num_candidates init_temperature acc in
    optimize_judges_loop (snd first) env items2 valsets metric num_trials
      num_candidates init_temperature (fst first).
Proof.
  induction items1 as [|[judge_type trainset] rest IH]; intros registry acc;
    [reflexivity|].
  cbn [app Pipeline.optimize_judges_loop].
  destruct (env judge_type) as [[uuid_hex now1] now2].
  destruct (Pipeline.optimize_judge _ _ _ _ _ _ _ _ _ _ _ _ _ _ _ _ _ _ _)
    as [[x|e0] reg']; apply IH.
Qed.

(** X25.  [optimize_all_judges] returns a dictionary and skips the judges
    that fail: a judge type whose [compile] raises, wherever it stands
    among the judge types and whatever was optimized before it, is left
    out at no cost to the registry and without stopping the loop, so that
    the call gives what it gives on the other judge types alone; when
    every [compile] raises the result is the empty dictionary and the
    registry is untouched; and every key of the result is one of the judge
    types given. *)
Theorem optimize_all_judges_skips_failures
  (registry : Registry.ModelRegistry Blob)
  (env : string -> string * string * string)
  (trainsets : list (string * list Example))
  (valsets : option (list (string * list Example)))
  (metric : option (Example -> Prediction -> Result float))
  (num_trials num_candidates : Z) (init_temperature : float) :
  let fails (judge_type : string) (trainset : list Example) :=
    exists error,
      compile (match metric with Some m => m | None => judge_metric end)
        num_candidates init_temperature (SelfImprovingJudge judge_type)
        trainset num_trials 5 5 = Raise error in
  (forall k,
     In k (map fst (fst (optimize_all_judges registry env trainsets valsets
                           metric num_trials num_candidates init_temperature))) ->
     In k (map fst trainsets))
  /\ (forall before after judge_type trainset,
        trainsets = (before ++ (judge_type, trainset) :: after)%list ->
        fails judge_type trainset ->
        optimize_all_judges registry env trainsets valsets metric num_trials
          num_candidates init_temperature
        = optimize_all_judges registry env (before ++ after) valsets metric
            num_trials num_candidates init_temperature)
  /\ ((forall judge_type trainset,
         In (judge_type, trainset) trainsets -> fails judge_type trainset) ->
      optimize_all_judges registry env trainsets valsets metric num_trials
        num_candidates init_temperature
      = ([], registry)).
Proof.
  intros fails. unfold Pipeline.optimize_all_judges. split; [|split].
  - intros k H. apply optimize_judges_loop_keys in H.
    destruct H as [[]|H]. exact H.
  - intros before after judge_type trainset -> [error Hc].
    rewrite !optimize_judges_loop_app. cbv zeta.
    now apply optimize_judges_loop_skips with (error := error).
  - generalize (@nil (string * Obj)) as acc.
    induction trainsets as [|[judge_type trainset] rest IH]; intros acc Hall;
      [reflexivity|].
    destruct (Hall judge_type trainset (or_introl eq_refl)) as [error Hc].
    rewrite (optimize_judges_loop_skips _ _ _ _ _ _ _ _ _ _ _ error Hc).
    apply IH. intros jt ts Hin. apply Hall. now right.
Qed.

End PipelineOutcome.

(** * Closed instances of the further properties *)
(** Witness of X2: activating the one model of [Demo.orphaned]. *)
Lemma set_active_model_exactly_one_witness :
  let out := Registry.set_active_model Demo.orphaned "m1" in
  fst out = Return tt
  /\ Registry.count_active "rubric_optimizer" (Registry.models (snd out)) = 1%nat.
Proof.
  pose proof (set_active_model_exactly_one Demo.orphaned "m1" Demo.orphan_row)
    as H.
  assert (Hu : Registry.ids_unique (Registry.models Demo.orphaned)).
  { unfold Registry.ids_unique. simpl. repeat constructor. simpl. tauto. }
  specialize (H Hu eq_refl). cbv zeta in H.
  destruct H as [H1 [H2 _]]. split; [exact H1|exact H2].
Defined.

(** Witness of X4 *)
Lemma register_activate_load_witness :
  let out := Registry.register_model Demo.pickle Demo.path_join
      Demo.open_error Demo.pickle_error
               (Registry.init Scenario.dir) Demo.utc Demo.utc "m1"
               "rubric_optimizer" "module a" None None None None None in
  Registry.load_model Demo.pickle
    (snd (Registry.set_active_model (snd out) "m1"))
    None (Some "rubric_optimizer") None
  = Return (Some "module a").
Proof.
  refine (proj2 (register_activate_load Demo.pickle Demo.pickle Demo.path_join
      Demo.open_error Demo.pickle_error
                   (Registry.init Scenario.dir) Demo.utc Demo.utc "m1"
                   "rubric_optimizer" "module a" None None None None None
                   _ eq_refl)).
  discriminate.
Defined.

(** Witness of X5: on a registry holding version 1 the registration is
    given version 2 and returns; on one holding the largest integer SQLite
    stores, the version handed out cannot be bound and the call raises
    [OverflowError]. *)
Lemma auto_version_never_collides_witness :
  fst (Registry.register_model Demo.pickle Demo.path_join Demo.open_error
         Demo.pickle_error Demo.orphaned Demo.utc Demo.utc "m2"
         "rubric_optimizer" "module b" None None None None None)
  = Return "m2"
  /\ fst (Registry.register_model Demo.pickle Demo.path_join Demo.open_error
            Demo.pickle_error Scenario.saturated Demo.utc Demo.utc "m2"
            "rubric_optimizer" "module b" None None None None None)
     = Raise OverflowError.
Proof.
  assert (Hfresh : ~ In "m2" ["m1"]) by (intros [H|[]]; discriminate H).
  split.
  - exact (proj1 (proj2 (auto_version_never_collides Demo.pickle
                           Demo.path_join Demo.open_error Demo.pickle_error
                           Demo.orphaned Demo.utc Demo.utc "m2"
                           "rubric_optimizer" "module b" None None None None
                           Hfresh eq_refl eq_refl))).
  - exact (proj1 (proj2 (auto_version_never_collides Demo.pickle
                           Demo.path_join Demo.open_error Demo.pickle_error
                           Scenario.saturated Demo.utc Demo.utc "m2"
                           "rubric_optimizer" "module b" None None None None
                           Hfresh eq_refl eq_refl))).
Defined.

(** Witness of X7 *)
Lemma delete_active_leaves_none_witness :
  Registry.count_active "rubric_optimizer"
    (Registry.models (Registry.delete_model Scenario.activated "m1")) = 0%nat
  /\ Registry.load_model Demo.pickle
       (Registry.delete_model Scenario.activated "m1")
       None (Some "rubric_optimizer") None
     = Return None.
Proof.
  pose proof (delete_active_leaves_none Demo.pickle Scenario.activated "m1"
                (Registry.set_flag true Demo.orphan_row)) as H.
  assert (Hc : (Registry.count_active
                  (Registry.module_type (Registry.set_flag true Demo.orphan_row))
                  (Registry.models Scenario.activated) <= 1)%nat)
    by (vm_compute; lia).
  specialize (H Hc eq_refl eq_refl). destruct H as [H1 H2].
  split; [exact H1|]. apply H2. discriminate.
Defined.

(** Witness of X9 *)
Lemma get_model_info_after_register_witness :
  Registry.get_model_info
    (snd (Registry.register_model Demo.pickle Demo.path_join
        Demo.open_error Demo.pickle_error
            (Registry.init Scenario.dir) "2025-01-01T10:30:00" Demo.utc "m1"
            "rubric_optimizer" "module a" None
            (Some [("mean_score", 0.5%float)]) (Some 20%Z) (Some []) None))
    "m1"
  = Some {| Registry.id := "m1"; Registry.module_type := "rubric_optimizer";
            Registry.version := 1; Registry.created_at := Demo.utc;
            Registry.file_path :=
              "dspy_models/rubric_optimizer_v1_2025-01-01T10-30-00.pkl";
            Registry.metrics := Some [("mean_score", 0.5%float)];
            Registry.training_examples_count := Some 20%Z;
            Registry.optimization_params := None;
            Registry.is_active := false; Registry.notes := None |}.
Proof.
  exact (get_model_info_after_register Demo.pickle Demo.path_join
      Demo.open_error Demo.pickle_error
           (Registry.init Scenario.dir) "2025-01-01T10:30:00" Demo.utc "m1"
           "rubric_optimizer" "module a" None
           (Some [("mean_score", 0.5%float)]) (Some 20%Z) (Some []) None
           eq_refl).
Defined.

(** Witness of X10: a module type with a slash names a directory that
    does not exist: [open] raises, and neither a file nor a row is left. *)
Lemma register_model_refusal_witness :
  Registry.register_model Demo.pickle Demo.path_join Demo.open_error
    Demo.pickle_error (Registry.init "./dspy_models") Demo.utc Demo.utc "m1"
    "a/b" "module a" None None None None None
  = (Raise (FileNotFoundError
              "dspy_models/a/b_v1_2025-01-01T00-00-00.000000.pkl"),
     Registry.init "./dspy_models").
Proof.
  exact (proj1 (register_model_refusal Demo.pickle Demo.path_join
                  Demo.open_error Demo.pickle_error
                  (Registry.init "./dspy_models") Demo.utc Demo.utc "m1" "a/b"
                  "module a" None None None None None)
           (FileNotFoundError
              "dspy_models/a/b_v1_2025-01-01T00-00-00.000000.pkl")
           eq_refl).
Defined.

(** Witness of X13 *)
Lemma analyze_results_without_baseline_witness :
  ABTesting.analyze_results Scenario.optimized_only "exp_demo" "primary_score"
    0.95%float
  = Return {| ABTesting.res_experiment_id := "exp_demo";
              ABTesting.baseline_mean := 0.0%float;
              ABTesting.optimized_mean := 0.8125%float;
              ABTesting.baseline_count := 0;
              ABTesting.optimized_count := 2;
              ABTesting.improvement_percent := 0.0%float;
              ABTesting.is_significant := false;
              ABTesting.p_value := 1.0%float;
              ABTesting.confidence_interval := (0.0%float, 0.0%float) |}.
Proof.
  refine (analyze_results_without_baseline Scenario.optimized_only "exp_demo"
            "primary_score" 0.95%float _ eq_refl).
  vm_compute. discriminate.
Defined.

(** Witness of X14 *)
Lemma assign_variant_by_ratio_witness :
  ABTesting.assign_variant Scenario.one_experiment 0.25%float "exp_0123456789ab"
  = Return "baseline"
  /\ ABTesting.assign_variant Scenario.one_experiment 0.75%float
       "exp_0123456789ab"
     = Return "optimized".
Proof.
  split.
  - exact (proj1 (assign_variant_by_ratio Scenario.one_experiment 0.25%float
                    0.5%float "exp_0123456789ab"
                    (nth 0 (ABTesting.experiments Scenario.one_experiment)
                       (ABTesting.mkExperiment "" "" "" None None None "" "" None))
                    eq_refl eq_refl eq_refl eq_refl)).
  - exact (proj1 (assign_variant_by_ratio Scenario.one_experiment 0.75%float
                    0.5%float "exp_0123456789ab"
                    (nth 0 (ABTesting.experiments Scenario.one_experiment)
                       (ABTesting.mkExperiment "" "" "" None None None "" "" None))
                    eq_refl eq_refl eq_refl eq_refl)).
Defined.

(** Witness of X21 *)
Lemma flat_scores_reported_declining_witness :
  Tracker.trend (Tracker.get_summary Scenario.two_flat_days "rubric_optimizer")
  = Some "declining".
Proof.
  refine (flat_scores_reported_declining Scenario.two_flat_days
            "rubric_optimizer" 0.5%float _ _).
  - vm_compute. discriminate.
  - intros r Hr. vm_compute in Hr.
    destruct Hr as [<-|[<-|[]]]; reflexivity.
Defined.

(** Witness of X22 *)
Lemma optimization_outcome_witness :
  let out := Pipeline.optimize_rubric Demo.pickle Demo.path_join
      Demo.open_error Demo.pickle_error Demo.forward
               Scenario.metric "RubricOptimizer()" Scenario.compile
               Scenario.activated "0123456789abcdef0123456789abcdef"
               Demo.utc Demo.utc ["example 1"; "example 2"] None None 100 10
               1.0%float in
  fst out = Return "optimized RubricOptimizer()"
  /\ map (fun r => (Registry.id r, Registry.version r, Registry.is_active r))
         (Registry.models (snd out))
     = [("m1", 1%Z, false); ("rubric_optimizer_01234567", 2%Z, true)].
Proof.
  cbv zeta.
  assert (Hfresh : ~ In "rubric_optimizer_01234567"
                     (map Registry.id (Registry.models Scenario.activated)))
    by (simpl; intros [H|[]]; discriminate H).
  rewrite (proj1 (optimization_outcome Demo.pickle Demo.path_join
      Demo.open_error Demo.pickle_error Demo.forward
                    Scenario.metric Scenario.metric "RubricOptimizer()"
                    Scenario.judge Scenario.compile Scenario.activated
                    "0123456789abcdef0123456789abcdef" Demo.utc Demo.utc
                    "relevance" ["example 1"; "example 2"] None None 100 10
                    1.0%float "optimized RubricOptimizer()")
             eq_refl
             (conj Hfresh
                (conj eq_refl (conj eq_refl (conj eq_refl eq_refl))))).
  vm_compute. split; reflexivity.
Defined.

(** Witness of X23 *)
Lemma unscored_baseline_witness :
  let out := Pipeline.optimize_rubric Demo.pickle Demo.path_join
      Demo.open_error Demo.pickle_error Demo.forward
               Scenario.metric "RubricOptimizer()" Scenario.compile
               Scenario.activated "0123456789abcdef0123456789abcdef"
               Demo.utc Demo.utc ["example 1"; "example 2"] None
               (Some Scenario.broken_metric) 100 10 1.0%float in
  find (fun x => (Registry.module_type x =? "rubric_optimizer")
                 && Registry.is_active x) (Registry.models (snd out))
  = Some (Registry.set_flag true Demo.orphan_row).
Proof.
  exact (proj1 (unscored_baseline_never_activates Demo.pickle Demo.path_join
      Demo.open_error Demo.pickle_error
                  Demo.forward Scenario.metric Scenario.metric
                  "RubricOptimizer()" Scenario.judge Scenario.compile
                  Scenario.activated "0123456789abcdef0123456789abcdef"
                  Demo.utc Demo.utc "relevance" ["example 1"; "example 2"]
                  None (Some Scenario.broken_metric) 100 10 1.0%float)
           eq_refl "rubric_optimizer").
Defined.

(** Witness of X24 *)
Lemma pipeline_keeps_invariant_witness :
  let out := Pipeline.optimize_all_judges Demo.pickle Demo.path_join
      Demo.open_error Demo.pickle_error
               Demo.forward Scenario.metric Scenario.judge Scenario.compile
               Scenario.activated Scenario.env
               [("relevance", ["example 1"]); ("faithfulness", ["example 2"])]
               None None 100 10 1.0%float in
  Registry.ids_unique (Registry.models (snd out))
  /\ forall mt, (Registry.count_active mt (Registry.models (snd out)) <= 1)%nat.
Proof.
  refine (proj2 (proj2 (pipeline_keeps_invariant Demo.pickle Demo.path_join
      Demo.open_error Demo.pickle_error
                          Demo.forward Scenario.metric Scenario.metric
                          "RubricOptimizer()" Scenario.judge Scenario.compile
                          Scenario.activated Scenario.env
                          "0123456789abcdef0123456789abcdef" Demo.utc Demo.utc
                          "relevance" ["example 1"] None
                          [("relevance", ["example 1"]);
                           ("faithfulness", ["example 2"])]
                          None None 100 10 1.0%float _ _))).
  - unfold Registry.ids_unique. simpl. repeat constructor. simpl. tauto.
  - intros mt.
    change (Registry.models Scenario.activated)
      with [Registry.set_flag true Demo.orphan_row].
    rewrite count_active_cons. unfold Registry.count_active at 1.
    destruct (_ && _); simpl; lia.
Defined.
